(** * schemas/gen.py: the schema-driven generator of Go accessors

    A shallow embedding of [schemas/gen.py] and the properties its
    specification states about it.

    Conventions of the embedding.
    - A Python [str] is a [string]; a character is one of the 256 [ascii]
      codes, read as the code points 0 to 255.  The character tests and
      the case conversions are Python's on these code points, the letters
      of Latin-1 included.  The upper case of two of them (the micro sign
      and y with diaeresis) is a character above 255: [Py.upper] is
      [None] on a text that holds one, and a run that needs such a text
      ends in [Err OutsideAlphabet], which is no exception of the code
      but the mark of a run the embedding does not follow.
    - The text of a file is what [read] returns, newlines translated.
    - A value decoded by [json.loads] is a [json]; Python's [None] is
      [JNull], a [dict] is the list of its items in insertion order, each
      key once.
    - A raised exception is the [Err] branch of [result]; an
      [AssertionError] carries the values its f-string substitutes.
    - What the interpreter and the operating system provide ([json.loads],
      [os.path.relpath], [os.listdir], [open]) is a [Variable] of the
      section that uses it. *)

From Stdlib Require Import Ascii String SpecFloat.
From stdpp Require Import base option list strings gmap sorting.

Local Open Scope string_scope.
Local Open Scope nat_scope.
Local Open Scope list_scope.

(** ** Characters and strings as Python handles them *)

Module Py.

Definition tab : ascii := "009"%char.
Definition nl : ascii := "010"%char.
Definition cr : ascii := "013"%char.
Definition dquote : ascii := "034"%char.
Definition backtick : ascii := "`"%char.
Definition slash : ascii := "/"%char.

Definition str1 (c : ascii) : string := String c EmptyString.

(** [str.isspace] on one character: the ASCII white space, the four
    separators 0x1c..0x1f, NEL and the no-break space. *)
Definition isspace (c : ascii) : bool :=
  let n := nat_of_ascii c in
  ((9 <=? n) && (n <=? 13)) || ((28 <=? n) && (n <=? 32))
  || (n =? 133) || (n =? 160).

(** [c.isupper()] and [c.islower()] on one character: the ASCII letters
    and the letters of Latin-1.  The multiplication sign (215) and the
    division sign (247) are no letters; the two ordinal indicators (170,
    186), the micro sign (181) and the sharp s (223) are lower case. *)
Definition isupper (c : ascii) : bool :=
  let n := nat_of_ascii c in
  ((65 <=? n) && (n <=? 90))
  || ((192 <=? n) && (n <=? 222) && negb (n =? 215)).

Definition islower (c : ascii) : bool :=
  let n := nat_of_ascii c in
  ((97 <=? n) && (n <=? 122))
  || (n =? 170) || (n =? 181) || (n =? 186)
  || ((223 <=? n) && negb (n =? 247)).

(** The class [[0-9]] of a pattern. *)
Definition isdigit (c : ascii) : bool :=
  let n := nat_of_ascii c in (48 <=? n) && (n <=? 57).

(** [c.lower()]: every upper-case letter has its lower case 32 codes
    further, and no other character changes. *)
Definition lower_char (c : ascii) : ascii :=
  if isupper c then ascii_of_nat (nat_of_ascii c + 32) else c.

(** [c.upper()]: a text, since the upper case of the sharp s is two
    letters; the ordinal indicators have no upper case and stay; the
    upper case of the micro sign (181) and of y with diaeresis (255) is
    above 255, hence [None]. *)
Definition upper_char (c : ascii) : option string :=
  let n := nat_of_ascii c in
  if n =? 223 then Some "SS"
  else if (n =? 181) || (n =? 255) then None
  else if ((97 <=? n) && (n <=? 122))
          || ((224 <=? n) && (n <=? 254) && negb (n =? 247))
  then Some (str1 (ascii_of_nat (n - 32)))
  else Some (str1 c).

Fixpoint map_chars (f : ascii -> ascii) (s : string) : string :=
  match s with
  | EmptyString => EmptyString
  | String c s' => String (f c) (map_chars f s')
  end.

(** [s.lower()] and [s.upper()]. *)
Definition lower : string -> string := map_chars lower_char.

Fixpoint upper (s : string) : option string :=
  match s with
  | EmptyString => Some EmptyString
  | String c s' =>
      match upper_char c, upper s' with
      | Some u, Some r => Some (u +:+ r)
      | _, _ => None
      end
  end.

(** What [read] makes, in text mode, of the characters a file holds: a
    carriage return followed by a newline, and a carriage return alone,
    are read as one newline. *)
Fixpoint universal_newlines (s : string) : string :=
  match s with
  | EmptyString => EmptyString
  | String c s' =>
      if Ascii.eqb c cr then
        match s' with
        | String d s'' =>
            if Ascii.eqb d nl then String nl (universal_newlines s'')
            else String nl (universal_newlines s')
        | EmptyString => String nl EmptyString
        end
      else String c (universal_newlines s')
  end.

(** [s.startswith(p)]. *)
Fixpoint startswith (s p : string) {struct p} : bool :=
  match p with
  | EmptyString => true
  | String c p' =>
      match s with
      | String d s' => Ascii.eqb c d && startswith s' p'
      | EmptyString => false
      end
  end.

(** [s.endswith(p)]. *)
Definition endswith (s p : string) : bool :=
  startswith (String.rev s) (String.rev p).

(** [s.lstrip()] and [s.lstrip(chars)] for one character. *)
Fixpoint lstrip_by (p : ascii -> bool) (s : string) : string :=
  match s with
  | EmptyString => EmptyString
  | String c s' => if p c then lstrip_by p s' else s
  end.

Definition rstrip_by (p : ascii -> bool) (s : string) : string :=
  String.rev (lstrip_by p (String.rev s)).

(** [s.strip()]. *)
Definition strip (s : string) : string := rstrip_by isspace (lstrip_by isspace s).

(** [s.rstrip()]. *)
Definition rstrip (s : string) : string := rstrip_by isspace s.

(** [s.lstrip("*")]. *)
Definition lstrip_star (s : string) : string :=
  lstrip_by (fun c => Ascii.eqb c "*"%char) s.

(** [s[1:]]. *)
Definition tail (s : string) : string :=
  match s with
  | EmptyString => EmptyString
  | String _ s' => s'
  end.

(** [s[-2:]]: the last two characters, or all of a shorter string. *)
Definition last2 (s : string) : string :=
  String.substring (String.length s - 2) 2 s.

(** [sep.join(l)]. *)
Definition join (sep : string) (l : list string) : string := String.concat sep l.

(** [f.readlines()] over the text a file holds: each line keeps its
    newline; a last line without one is a line as well. *)
Fixpoint readlines_go (cur : string) (s : string) : list string :=
  match s with
  | EmptyString =>
      match cur with
      | EmptyString => []
      | _ => [String.rev cur]
      end
  | String c s' =>
      if Ascii.eqb c nl
      then String.rev (String c cur) :: readlines_go EmptyString s'
      else readlines_go (String c cur) s'
  end.

Definition readlines (text : string) : list string := readlines_go EmptyString text.

(** *** [posixpath] *)

(** [span_not_slash s]: the characters of [s] before its first slash, and
    the rest from that slash on. *)
Fixpoint span_not_slash (s : string) : string * string :=
  match s with
  | EmptyString => (EmptyString, EmptyString)
  | String c s' =>
      if Ascii.eqb c slash then (EmptyString, s)
      else let '(a, b) := span_not_slash s' in (String c a, b)
  end.

(** [os.path.basename(p)]: [p[p.rfind('/') + 1:]]. *)
Definition basename (p : string) : string :=
  String.rev (fst (span_not_slash (String.rev p))).

(** [os.path.dirname(p)]: [p[:p.rfind('/') + 1]], without its trailing
    slashes unless it is made of slashes only. *)
Definition dirname (p : string) : string :=
  let head_rev := snd (span_not_slash (String.rev p)) in
  match lstrip_by (Ascii.eqb slash) head_rev with
  | EmptyString => String.rev head_rev
  | stripped => String.rev stripped
  end.

(** [os.path.join(a, b)]. *)
Definition path_join (a b : string) : string :=
  if startswith b (str1 slash) then b
  else if String.eqb a EmptyString || endswith a (str1 slash) then a +:+ b
  else a +:+ str1 slash +:+ b.

End Py.

Global Arguments Py.startswith : simpl never.
Global Arguments Py.endswith : simpl never.
Global Arguments Py.strip : simpl never.
Global Arguments Py.rstrip : simpl never.
Global Arguments Py.lower : simpl never.
Global Arguments Py.upper : simpl never.
Global Arguments Py.last2 : simpl never.
Global Arguments Py.path_join : simpl never.
Global Arguments Py.readlines : simpl never.

(** ** The fragment of [re] the generator uses

    A backtracking matcher in continuation-passing style: a quantifier is
    greedy and gives characters back when what follows fails, as Python's
    does.  The patterns of [gen.py] quantify character classes only. *)

Module Re.

Inductive regex :=
| Eps
| Chr (c : ascii)
| Cls (p : ascii -> bool)
| Seq (r1 r2 : regex)
| Star (p : ascii -> bool)
| Plus (p : ascii -> bool)
| Group (r : regex).

(** A literal text. *)
Fixpoint lit (s : string) : regex :=
  match s with
  | EmptyString => Eps
  | String c s' => Seq (Chr c) (lit s')
  end.

(** A pattern written as the sequence of its items. *)
Definition seqs (rs : list regex) : regex := foldr Seq Eps rs.

(** The classes [\S], [\s], [.] and [[0-9]], and the class of every
    character but the comma and the double quote. *)
Definition nonspace (c : ascii) : bool := negb (Py.isspace c).
Definition space (c : ascii) : bool := Py.isspace c.
Definition dot (c : ascii) : bool := negb (Ascii.eqb c Py.nl).
Definition digit (c : ascii) : bool := Py.isdigit c.
Definition not_comma_quote (c : ascii) : bool :=
  negb (Ascii.eqb c ","%char || Ascii.eqb c Py.dquote).

(** [p*] from [s] on: the longest run first, then shorter ones. *)
Fixpoint greedy {R} (p : ascii -> bool) (s : string) (k : string -> option R)
  : option R :=
  match s with
  | EmptyString => k s
  | String c s' =>
      if p c then
        match greedy p s' k with
        | Some r => Some r
        | None => k s
        end
      else k s
  end.

(** The text of [s] that was consumed when [rest] is what is left of it. *)
Definition consumed (s rest : string) : string :=
  String.substring 0 (String.length s - String.length rest) s.

(** [run r s caps k]: match [r] at the start of [s], then continue with [k]
    on the rest and on the groups closed so far. *)
Fixpoint run {R} (r : regex) (s : string) (caps : list string)
    (k : string -> list string -> option R) : option R :=
  match r with
  | Eps => k s caps
  | Chr c =>
      match s with
      | String c' s' => if Ascii.eqb c c' then k s' caps else None
      | EmptyString => None
      end
  | Cls p =>
      match s with
      | String c' s' => if p c' then k s' caps else None
      | EmptyString => None
      end
  | Seq r1 r2 => run r1 s caps (fun s' caps' => run r2 s' caps' k)
  | Star p => greedy p s (fun s' => k s' caps)
  | Plus p =>
      match s with
      | String c' s' => if p c' then greedy p s' (fun s'' => k s'' caps) else None
      | EmptyString => None
      end
  | Group r' => run r' s caps (fun s' caps' => k s' (caps' ++ [consumed s s']))
  end.

(** [re.match(r, s)]: anchored at the start of [s] only; the result is the
    list of the groups, [match[1]] first.  Asking a match for a group the
    pattern does not have raises [IndexError]. *)
Definition rmatch (r : regex) (s : string) : option (list string) :=
  run r s [] (fun _ caps => Some caps).

(** The number of groups of a pattern. *)
Fixpoint groups (r : regex) : nat :=
  match r with
  | Seq r1 r2 => groups r1 + groups r2
  | Group r' => S (groups r')
  | _ => 0
  end.

(** [re.fullmatch(r, s)]: the whole of [s] has to match. *)
Definition fullmatch (r : regex) (s : string) : option (list string) :=
  run r s [] (fun rest caps =>
                match rest with
                | EmptyString => Some caps
                | _ => None
                end).

End Re.

(** ** Values decoded by [json.loads] *)

Local Unset Elimination Schemes.

Inductive json :=
| JNull
| JBool (b : bool)
| JInt (n : Z)
| JFloat (f : spec_float)
| JString (s : string)
| JArray (items : list json)
| JObject (items : list (string * json)).

Local Set Elimination Schemes.

(** Python's truth value of a decoded document. *)
Definition truthy (v : json) : bool :=
  match v with
  | JNull => false
  | JBool b => b
  | JInt n => negb (n =? 0)%Z
  | JFloat (S754_zero _) => false
  | JFloat _ => true
  | JString s => negb (String.eqb s EmptyString)
  | JArray l => match l with [] => false | _ => true end
  | JObject l => match l with [] => false | _ => true end
  end.

(** The item of a dict under a key. *)
Fixpoint assoc (k : string) (items : list (string * json)) : option json :=
  match items with
  | [] => None
  | (k', v) :: rest => if String.eqb k k' then Some v else assoc k rest
  end.

(** ** Exceptions *)

(** The assertion failures of [gen.py], each with the values its message
    substitutes. *)
Inductive assertion :=
| NoStructAfter (file : string) (line : option string)
| UnsureLine (lineno : nat) (line : string)
| NoStructDefinition (struct_name file : string)
| NotASchemaTypeName (struct : string)
| FailedToFindSchema
| MustBePointer (tag type : string)
| DoublePointer (tag type : string)
| NestedUnion (struct : string)
| MultipleTypes (field : string) (field_types : gset string) (union_types : list string)
| BothUnionAndFields (struct : string).

Inductive exn :=
| AssertionError (a : assertion)
| ValueError (msg : string)
| KeyError (key : string)
| TypeError
| AttributeError
| IndexError
| UnboundLocalError
| OSError (path : string)
| OutsideAlphabet.

Inductive result (A : Type) :=
| Ok (a : A)
| Err (e : exn).
Arguments Ok {A} a.
Arguments Err {A} e.

Global Instance result_bind : MBind result := λ A B f m,
  match m with
  | Ok a => f a
  | Err e => Err e
  end.

(** The message of an assertion failure whose f-string substitutes texts only. *)
Definition assertion_message (a : assertion) : option string :=
  match a with
  | UnsureLine _ _ | NoStructAfter _ _ | MultipleTypes _ _ _ => None
  | NoStructDefinition n f =>
      Some ("failed to find struct definition for " +:+ n +:+ " in " +:+ f)
  | NotASchemaTypeName s =>
      Some (s +:+ " is not a valid schema type name; it should end in Vx where x is a digit")
  | FailedToFindSchema => Some "failed to find schema"
  | MustBePointer tag ty =>
      Some (tag +:+ " type (" +:+ ty +:+ ") must be a pointer since it can be defaulted")
  | DoublePointer tag ty =>
      Some (tag +:+ " type (" +:+ ty +:+ ") must not be a double pointer")
  | NestedUnion s =>
      Some ("detected nested union; " +:+ s +:+ " is a union member and also a union itself")
  | BothUnionAndFields s => Some (s +:+ " has both union tags and normal fields")
  end.

(** Monadic traversals of a list, left to right. *)
Fixpoint mapM {A B} (f : A -> result B) (l : list A) : result (list B) :=
  match l with
  | [] => Ok []
  | x :: l' => y ← f x; ys ← mapM f l'; Ok (y :: ys)
  end.

Fixpoint foldM {A S} (f : S -> A -> result S) (s : S) (l : list A) : result S :=
  match l with
  | [] => Ok s
  | x :: l' => s' ← f s x; foldM f s' l'
  end.

Definition getitem (d : json) (k : string) : result json :=
  match d with
  | JObject items =>
      match assoc k items with
      | Some v => Ok v
      | None => Err (KeyError k)
      end
  | _ => Err TypeError
  end.

(** [d.get(k, dflt)]: only a dict has the method. *)
Definition dict_get (d : json) (k : string) (dflt : json) : result json :=
  match d with
  | JObject items => Ok (default dflt (assoc k items))
  | _ => Err AttributeError
  end.

(** [v + s] for a text [s]: the left operand must be a text too. *)
(** ** The generator *)

Definition URLBASE : string := "http://determined.ai/schemas".

(** A tab and a double quote, as the emitted lines hold them. *)
Definition T : string := Py.str1 Py.tab.
Definition Q : string := Py.str1 Py.dquote.

(** [name[0]] and [name[-1]]. *)
Definition first_char (name : string) : result ascii :=
  match name with
  | String c _ => Ok c
  | EmptyString => Err IndexError
  end.

Definition last_char (name : string) : result ascii := first_char (String.rev name).

(** The loop of [camel_to_snake] over the windows of three characters
    [zip(name[:-2], name[1:-1], name[2:])]. *)
Fixpoint camel_to_snake_loop (name : string) : string :=
  match name with
  | String c0 (String c1 (String c2 _) as rest) =>
      (if Py.islower c0 && Py.isupper c1 then "_" else EmptyString)
      +:+ (if Py.isupper c0 && Py.isupper c1 && Py.islower c2 then "_" else EmptyString)
      +:+ Py.str1 (Py.lower_char c1)
      +:+ camel_to_snake_loop rest
  | _ => EmptyString
  end.

Definition camel_to_snake (name : string) : result string :=
  c ← first_char name;
  z ← last_char name;
  Ok (Py.str1 (Py.lower_char c) +:+ camel_to_snake_loop name +:+ Py.str1 (Py.lower_char z)).

Record Schema := {
  url : string;
  text : string;
  schema : json;
  golang_title : string;
  python_title : string;
}.

(** [Schema.version]. *)
Definition version_of (u : string) : string := Py.basename (Py.dirname u).

Definition version (s : Schema) : string := version_of (url s).

(** FieldSpec = (field, type, tag); UnionSpec = (field, type). *)
Definition FieldSpec : Type := string * string * string.
Definition UnionSpec : Type := string * string.

(** Insertion of [x] into a sorted list, after the elements that are not
    greater: the sort is stable, as [list.sort] and [sorted] are. *)
Fixpoint insert_by {A} (lt : A -> A -> bool) (x : A) (l : list A) : list A :=
  match l with
  | [] => [x]
  | y :: l' => if lt x y then x :: l else y :: insert_by lt x l'
  end.

Definition sort_by {A} (lt : A -> A -> bool) (l : list A) : list A :=
  foldl (fun acc x => insert_by lt x acc) [] l.

(** The order of [schemas.sort(key=lambda s: s.url)]. *)
Definition url_lt (a b : Schema) : bool := String.ltb (url a) (url b).

(** The order of Python on pairs of texts. *)
Definition item_lt (a b : string * string) : bool :=
  String.ltb (fst a) (fst b) || (String.eqb (fst a) (fst b) && String.ltb (snd a) (snd b)).

Section Generator.

(** [json.loads]; [None] when it raises. *)
Variable json_loads : string -> option json.
(** [os.path.dirname(__file__)]. *)
Variable HERE : string.
(** [os.path.relpath(path, start)]. *)
Variable relpath : string -> string -> string.
(** [os.listdir(dir)] and [open(path).read()]; [None] when they raise. *)
Variable listdir : string -> option (list string).
Variable read_file : string -> option string.

Definition open_read (path : string) : result string :=
  match read_file path with
  | Some t => Ok t
  | None => Err (OSError path)
  end.

(** [Schema.__init__]. *)
Definition Schema_init (u t : string) : result Schema :=
  match json_loads t with
  | None => Err (ValueError (u +:+ " is not a valid json file"))
  | Some doc =>
      title ← getitem doc "title";
      match title with
      | JString title =>
          match Py.upper (version_of u) with
          | None => Err OutsideAlphabet
          | Some v =>
              let g := title +:+ v in
              p ← camel_to_snake g;
              Ok {| url := u; text := t; schema := doc;
                    golang_title := g; python_title := p |}
          end
      | _ => Err TypeError
      end
  end.

(** The URL of the schema a file holds: [URLBASE] joined with the path of
    the file relative to [HERE]. *)
Definition url_of_file (file : string) : string :=
  let urlend := relpath file HERE in
  Py.path_join URLBASE urlend.

(** [read_schemas]. *)
Definition read_schema_file (file : string) : result Schema :=
  let u := url_of_file file in
  t ← open_read file;
  Schema_init u t.

Definition read_schemas (files : list string) : result (list Schema) :=
  schemas ← mapM read_schema_file files;
  Ok (sort_by url_lt schemas).

(** [gen_go_schemas_package]. *)
Definition parsed_getter (s : Schema) : list string :=
  let g := golang_title s in
  [ "func Parsed" +:+ g +:+ "() interface{} {";
    T +:+ "if schema" +:+ g +:+ " != nil {";
    T +:+ T +:+ "return schema" +:+ g;
    T +:+ "}";
    T +:+ "err := json.Unmarshal(text" +:+ g +:+ ", &schema" +:+ g +:+ ")";
    T +:+ "if err != nil {";
    T +:+ T +:+ "panic(" +:+ Q +:+ "invalid embedded json for " +:+ g +:+ Q +:+ ")";
    T +:+ "}";
    T +:+ "return schema" +:+ g;
    "}";
    EmptyString ].

Definition gen_go_schemas_package (schemas : list Schema) : list string :=
  [ "// Code generated by gen.py. DO NOT EDIT.";
    EmptyString;
    "package schemas";
    EmptyString;
    "import (";
    T +:+ Q +:+ "encoding/json" +:+ Q;
    ")";
    EmptyString;
    "var (" ]
  ++ map (fun s => T +:+ "text" +:+ golang_title s +:+ " = []byte(`" +:+ text s +:+ "`)") schemas
  ++ concat (map (fun s => [T +:+ "schema" +:+ golang_title s +:+ " interface{}"; EmptyString]) schemas)
  ++ [ T +:+ "cachedSchemaMap map[string]interface{}";
       EmptyString;
       T +:+ "cachedSchemaBytesMap map[string][]byte";
       ")";
       EmptyString ]
  ++ concat (map parsed_getter schemas)
  ++ [ "func schemaBytesMap() map[string][]byte {";
       T +:+ "if cachedSchemaBytesMap != nil {";
       T +:+ T +:+ "return cachedSchemaBytesMap";
       T +:+ "}";
       T +:+ "var url string";
       T +:+ "cachedSchemaBytesMap = map[string][]byte{}" ]
  ++ concat (map (fun s => [ T +:+ "url = " +:+ Q +:+ url s +:+ Q;
                             T +:+ "cachedSchemaBytesMap[url] = text" +:+ golang_title s ]) schemas)
  ++ [ T +:+ "return cachedSchemaBytesMap";
       "}" ].

(** [next_struct_name]: the pattern [type ([\S]+) struct]. *)
Definition struct_re : Re.regex :=
  Re.seqs [Re.lit "type "; Re.Group (Re.Plus Re.nonspace); Re.lit " struct"].

Fixpoint next_struct_name_loop (file : string) (start : Z) (lineno : Z)
    (last : option string) (lines : list string) : result string :=
  match lines with
  | [] =>
      match last with
      | Some l => Err (AssertionError (NoStructAfter file (Some l)))
      | None => Err UnboundLocalError
      end
  | line :: rest =>
      if (lineno <=? start)%Z then
        next_struct_name_loop file start (lineno + 1)%Z (Some line) rest
      else
        match Re.rmatch struct_re line with
        | Some (name :: _) => Ok name
        | Some [] => Err IndexError
        | None => next_struct_name_loop file start (lineno + 1)%Z (Some line) rest
        end
  end.

Definition next_struct_name (file : string) (start : Z) : result string :=
  t ← open_read file;
  next_struct_name_loop file start 0%Z None (Py.readlines t).

(** [find_struct]: the two shapes of a field line, as the source writes
    them: a tab, the name, the type and a tag that opens with [`union], or
    with [`json:] and the quoted key up to a comma or the closing quote. *)
Definition union_re : Re.regex :=
  Re.seqs [ Re.Chr Py.tab; Re.Group (Re.Plus Re.nonspace); Re.Plus Re.space;
            Re.Group (Re.Plus Re.nonspace); Re.Plus Re.space;
            Re.lit "`union"; Re.Star Re.dot ].

Definition field_re : Re.regex :=
  Re.seqs [ Re.Chr Py.tab; Re.Group (Re.Plus Re.nonspace); Re.Plus Re.space;
            Re.Group (Re.Plus Re.nonspace); Re.Plus Re.space;
            Re.lit "`json:"; Re.Chr Py.dquote;
            Re.Group (Re.Plus Re.not_comma_quote) ].

Inductive scan_state := pre | fields.

Definition struct_header (struct_name : string) : string :=
  "type " +:+ struct_name +:+ " struct".

Fixpoint find_struct_loop (file struct_name : string) (state : scan_state)
    (field_spec : list FieldSpec) (union_spec : list UnionSpec)
    (lineno : nat) (lines : list string)
  : result (list FieldSpec * list UnionSpec) :=
  match lines with
  | [] => Err (AssertionError (NoStructDefinition struct_name file))
  | line :: rest =>
      match state with
      | pre =>
          if Py.startswith line (struct_header struct_name)
          then find_struct_loop file struct_name fields field_spec union_spec (S lineno) rest
          else find_struct_loop file struct_name pre field_spec union_spec (S lineno) rest
      | fields =>
          if String.eqb (Py.strip line) "}" then Ok (field_spec, union_spec)
          else if String.eqb (Py.strip line) EmptyString then
            find_struct_loop file struct_name fields field_spec union_spec (S lineno) rest
          else if Py.startswith line (T +:+ "//") then
            find_struct_loop file struct_name fields field_spec union_spec (S lineno) rest
          else
            match Re.rmatch union_re line with
            | Some (field :: type :: _) =>
                find_struct_loop file struct_name fields field_spec
                  (union_spec ++ [(field, type)]) (S lineno) rest
            | Some _ => Err IndexError
            | None =>
                match Re.rmatch field_re line with
                | Some (field :: type :: tag :: _) =>
                    find_struct_loop file struct_name fields
                      (field_spec ++ [(field, type, tag)]) union_spec (S lineno) rest
                | Some _ => Err IndexError
                | None => Err (AssertionError (UnsureLine lineno (Py.rstrip line)))
                end
            end
      end
  end.

Definition find_struct (file struct_name : string)
  : result (list FieldSpec * list UnionSpec) :=
  t ← open_read file;
  find_struct_loop file struct_name pre [] [] 0 (Py.readlines t).

(** [find_schema]: the pattern [.*V[0-9]+], matched at the start of the
    name and not anchored at its end. *)
Definition version_re : Re.regex :=
  Re.seqs [Re.Star Re.dot; Re.Chr "V"%char; Re.Plus Re.digit].

Fixpoint find_schema_loop (dir struct : string) (files : list string) : result Schema :=
  match files with
  | [] => Err (AssertionError FailedToFindSchema)
  | file :: rest =>
      if negb (Py.endswith file ".json") then find_schema_loop dir struct rest
      else
        let path := Py.path_join dir file in
        let u := url_of_file path in
        t ← open_read path;
        s ← Schema_init u t;
        if negb (String.eqb (golang_title s) struct) then find_schema_loop dir struct rest
        else Ok s
  end.

Definition schema_dir (package struct : string) : string :=
  Py.path_join (Py.path_join HERE package) (Py.lower (Py.last2 struct)).

Definition find_schema (package struct : string) : result Schema :=
  match Re.rmatch version_re struct with
  | None => Err (AssertionError (NotASchemaTypeName struct))
  | Some _ =>
      let dir := schema_dir package struct in
      match listdir dir with
      | None => Err (OSError dir)
      | Some files => find_schema_loop dir struct files
      end
  end.

(** [get_defaulted_type]: the type after defaulting, the default ([JNull]
    for Python's [None]) and the required list.  Its first statements read
    the default of the property, the next one the required list. *)
Definition schema_default (s : Schema) (tag : string) : result json :=
  props ← getitem (schema s) "properties";
  prop ← dict_get props tag (JObject []);
  let prop := match prop with JBool true => JObject [] | _ => prop end in
  dict_get prop "default" JNull.

Definition schema_required (s : Schema) : result json :=
  req ← dict_get (schema s) "required" (JArray []);
  if truthy req then Ok req
  else dict_get (schema s) "eventuallyRequired" (JArray []).

Definition get_defaulted_type (s : Schema) (tag type : string)
  : result (string * json * json) :=
  dflt ← schema_default s tag;
  required ← schema_required s;
  match dflt with
  | JNull => Ok (type, dflt, required)
  | _ =>
      if negb (Py.startswith type "*") then
        Err (AssertionError (MustBePointer tag type))
      else if Py.startswith type "**" then
        Err (AssertionError (DoublePointer tag type))
      else Ok (Py.tail type, dflt, required)
  end.

(** [go_getters]: the lines one field adds, then the whole loop. *)
Definition transparent_getter (x struct field type : string) : list string :=
  [ "func (" +:+ x +:+ " " +:+ struct +:+ ") Get" +:+ field +:+ "() " +:+ type +:+ " {";
    T +:+ "return " +:+ x +:+ "." +:+ field;
    "}";
    EmptyString ].

Definition defaulted_getter (x struct field defaulted_type : string) : list string :=
  [ "func (" +:+ x +:+ " " +:+ struct +:+ ") Get" +:+ field +:+ "() " +:+ defaulted_type +:+ " {";
    T +:+ "if " +:+ x +:+ "." +:+ field +:+ " == nil {";
    T +:+ T +:+ "panic(" +:+ Q +:+ "You must call WithDefaults on " +:+ struct
      +:+ " before .Get" +:+ field +:+ Q +:+ ")";
    T +:+ "}";
    T +:+ "return *" +:+ x +:+ "." +:+ field;
    "}";
    EmptyString ].

Definition go_getter (x struct : string) (s : Schema) (f : FieldSpec) : result (list string) :=
  let '(field, type, tag) := f in
  '(defaulted_type, dflt, required) ← get_defaulted_type s tag type;
  match dflt with
  | JNull => Ok (transparent_getter x struct field type)
  | _ => Ok (defaulted_getter x struct field defaulted_type)
  end.

(** [struct[0].lower()], the receiver's name. *)
Definition receiver (struct : string) : result string :=
  c ← first_char struct; Ok (Py.str1 (Py.lower_char c)).

Definition go_getters (struct : string) (s : Schema) (spec : list FieldSpec)
  : result (list string) :=
  if length spec <? 1 then Ok []
  else
    x ← receiver struct;
    foldM (fun lines f => l ← go_getter x struct s f; Ok (lines ++ l)) [] spec.

(** [get_union_common_members]. *)

(** The order in which Python iterates over a set of texts. *)
Variable iter_order : gset string -> list string.

(** The dict of one union member: field name to type after defaulting. *)
Definition members_of (s : Schema) (spec : list FieldSpec) : result (gmap string string) :=
  foldM (fun (members : gmap string string) (f : FieldSpec) =>
           let '(field, type, tag) := f in
           '(type', _, _) ← get_defaulted_type s tag type;
           Ok (<[field := type']> members)) ∅ spec.

Definition variant_members (file package struct : string) : result (gmap string string) :=
  s ← find_schema package struct;
  '(spec, union) ← find_struct file struct;
  if 0 <? length union then Err (AssertionError (NestedUnion struct))
  else members_of s spec.

Definition common_fields_of (m0 : gmap string string) (rest : list (gmap string string))
  : gset string :=
  foldl (fun acc m => acc ∩ dom m) (dom m0) rest.

(** [members[field]]. *)
Definition member_type (field : string) (members : gmap string string) : result string :=
  match members !! field with
  | Some t => Ok t
  | None => Err (KeyError field)
  end.

Definition check_field_types (union_types : list string)
    (per_struct_members : list (gmap string string)) (field : string) : result unit :=
  tys ← mapM (member_type field) per_struct_members;
  let field_types : gset string := list_to_set tys in
  if negb (size field_types =? 1)
  then Err (AssertionError (MultipleTypes field field_types union_types))
  else Ok tt.

(** The second half of [get_union_common_members], from the dicts of the
    members on: the common names, the check of the types, the sorted items. *)
Definition common_members_of (union_types : list string)
    (per_struct_members : list (gmap string string)) : result (list (string * string)) :=
  match per_struct_members with
  | [] => Err IndexError
  | m0 :: rest =>
      let common_fields := common_fields_of m0 rest in
      _ ← mapM (check_field_types union_types per_struct_members) (iter_order common_fields);
      items ← mapM (fun field => t ← member_type field m0; Ok (field, t))
                   (iter_order common_fields);
      Ok (sort_by item_lt items)
  end.

Definition get_union_common_members (file package : string) (union_types : list string)
  : result (list (string * string)) :=
  per_struct_members ← mapM (variant_members file package) union_types;
  common_members_of union_types per_struct_members.

(** [go_unions]: the dispatcher [GetUnionMember], then one getter for
    each common member. *)
Definition no_union_member : string := "no union member defined".

Definition panic_line : string := T +:+ "panic(" +:+ Q +:+ no_union_member +:+ Q +:+ ")".

Definition union_member_lines (x struct : string) (union_spec : list UnionSpec)
  : list string :=
  [ "func (" +:+ x +:+ " " +:+ struct +:+ ") GetUnionMember() interface{} {" ]
  ++ concat (map (fun u : UnionSpec =>
                    [ T +:+ "if " +:+ x +:+ "." +:+ fst u +:+ " != nil {";
                      T +:+ T +:+ "return nil";
                      T +:+ "}" ]) union_spec)
  ++ [ panic_line; "}"; EmptyString ].

Definition common_getter_lines (x struct : string) (union_spec : list UnionSpec)
    (member : string * string) : list string :=
  let '(common_field, type) := member in
  [ "func (" +:+ x +:+ " " +:+ struct +:+ ") Get" +:+ common_field +:+ "() " +:+ type +:+ " {" ]
  ++ concat (map (fun u : UnionSpec =>
                    [ T +:+ "if " +:+ x +:+ "." +:+ fst u +:+ " != nil {";
                      T +:+ T +:+ "return " +:+ x +:+ "." +:+ fst u +:+ ".Get" +:+ common_field +:+ "()";
                      T +:+ "}" ]) union_spec)
  ++ [ panic_line; "}"; EmptyString ].

Definition go_unions (struct package file : string) (s : Schema)
    (union_spec : list UnionSpec) : result (list string) :=
  if length union_spec <? 1 then Ok []
  else
    x ← receiver struct;
    let union_types := map (fun u : UnionSpec => Py.lstrip_star (snd u)) union_spec in
    common_members ← get_union_common_members file package union_types;
    Ok (union_member_lines x struct union_spec
        ++ concat (map (common_getter_lines x struct union_spec) common_members)).

(** [go_helpers]. *)
Definition go_helpers (struct : string) : result (list string) :=
  x ← receiver struct;
  Ok [ "func (" +:+ x +:+ " " +:+ struct +:+ ") WithDefaults() " +:+ struct +:+ " {";
       T +:+ "return schemas.WithDefaults(" +:+ x +:+ ").(" +:+ struct +:+ ")";
       "}";
       EmptyString;
       "func (" +:+ x +:+ " " +:+ struct +:+ ") Merge(other " +:+ struct +:+ ") " +:+ struct +:+ " {";
       T +:+ "return schemas.Merge(" +:+ x +:+ ", other).(" +:+ struct +:+ ")";
       "}" ].

(** [go_schema_interface]. *)
Definition go_schema_interface (struct u : string) : result (list string) :=
  x ← receiver struct;
  Ok [ EmptyString;
       "func (" +:+ x +:+ " " +:+ struct +:+ ") ParsedSchema() interface{} {";
       T +:+ "return schemas.Parsed" +:+ struct +:+ "()";
       "}";
       EmptyString;
       "func (" +:+ x +:+ " " +:+ struct +:+ ") SanityValidator() *jsonschema.Schema {";
       T +:+ "return schemas.GetSanityValidator(" +:+ Q +:+ u +:+ Q +:+ ")";
       "}";
       EmptyString;
       "func (" +:+ x +:+ " " +:+ struct +:+ ") CompletenessValidator() *jsonschema.Schema {";
       T +:+ "return schemas.GetCompletenessValidator(" +:+ Q +:+ u +:+ Q +:+ ")";
       "}" ].

(** [gen_go_struct]: the name of the output file and its lines. *)
Definition gen_go_struct (package file : string) (line : Z) (imports : list string)
  : result (string * list string) :=
  struct ← next_struct_name file line;
  '(field_spec, union_spec) ← find_struct file struct;
  if (0 <? length field_spec) && (0 <? length union_spec) then
    Err (AssertionError (BothUnionAndFields struct))
  else
    s ← find_schema package struct;
    let lines :=
      [ "// Code generated by gen.py. DO NOT EDIT.";
        EmptyString;
        "package " +:+ package;
        EmptyString;
        "import (";
        T +:+ Q +:+ "github.com/santhosh-tekuri/jsonschema/v2" +:+ Q ]
      ++ map (fun imp => T +:+ imp) imports
      ++ [ EmptyString;
           T +:+ Q +:+ "github.com/determined-ai/determined/master/pkg/schemas" +:+ Q;
           ")";
           EmptyString ] in
    getters ← go_getters struct s field_spec;
    unions ← go_unions struct package file s union_spec;
    helpers ← go_helpers struct;
    iface ← go_schema_interface struct (url s);
    snake ← camel_to_snake struct;
    Ok ("zgen_" +:+ snake +:+ ".go", lines ++ getters ++ unions ++ helpers ++ iface).

End Generator.



(** What [go_root_main] hands to the writer for a list of schema files. *)
Definition go_root_lines json_loads HERE relpath read_file (paths : list string)
  : result (list string) :=
  schemas ← read_schemas json_loads HERE relpath read_file paths;
  Ok (gen_go_schemas_package schemas).

(** [a] may stand before [b] in a list sorted with [lt]. *)
Definition not_after {A} (lt : A → A → bool) (a b : A) : Prop := lt b a = false.

(** Schemas in the order of their URLs, and members in the strict order of
    their names. *)
Definition url_le (a b : Schema) : Prop := String.le (url a) (url b).
Definition name_lt (a b : string * string) : Prop := String.ltb (fst a) (fst b) = true.

(** The types a field has across the members of a union. *)
Definition observed_types (field : string) (per_struct_members : list (gmap string string))
  : gset string :=
  list_to_set (omap (fun m : gmap string string => m !! field) per_struct_members).

(** The lines [find_struct] tells apart inside the body of a struct, by
    the tests it makes and in their order: the closing brace, a blank
    line, a line that starts with a tab and two slashes, a union field, a
    plain field, and any other line. *)
Inductive line_kind :=
| Closing
| Blank
| Comment
| UnionLine (field type : string)
| FieldLine (field type tag : string)
| Unclassified.

Definition classify (line : string) : line_kind :=
  if String.eqb (Py.strip line) "}" then Closing
  else if String.eqb (Py.strip line) EmptyString then Blank
  else if Py.startswith line (T +:+ "//") then Comment
  else
    match Re.rmatch union_re line with
    | Some (field :: type :: _) => UnionLine field type
    | Some _ => Unclassified
    | None =>
        match Re.rmatch field_re line with
        | Some (field :: type :: tag :: _) => FieldLine field type tag
        | _ => Unclassified
        end
    end.

(** A line of a body that is skipped or that declares a field. *)
Definition body_line (line : string) : bool :=
  match classify line with
  | Blank | Comment | UnionLine _ _ | FieldLine _ _ _ => true
  | Closing | Unclassified => false
  end.

Definition field_of (line : string) : option FieldSpec :=
  match classify line with
  | FieldLine field type tag => Some (field, type, tag)
  | _ => None
  end.

Definition union_of (line : string) : option UnionSpec :=
  match classify line with
  | UnionLine field type => Some (field, type)
  | _ => None
  end.

(** [maybe_write_output]: the output tree and the standard output.
    - [files]: the regular files, each with the characters it holds.  The
      newline of the system is the line feed, so that a text is stored as
      it is written, and the encoding of the locale covers the alphabet.
    - [unreadable]: the paths that exist and that [open(path, "r")]
      refuses: the directories, and the files that may not be read.
    - [unwritable]: the paths that [open(path, "w")] refuses: the
      directories, the paths under a directory that does not exist, and
      the files that may not be written.
    - [stdout]: what was written to the standard output.
    - [opened_for_writing]: the paths opened for writing, latest first. *)
Record world := {
  files : gmap string string;
  unreadable : string → bool;
  unwritable : string → bool;
  stdout : string;
  opened_for_writing : list string;
}.

(** [os.path.exists(path)]. *)
Definition path_exists (path : string) (w : world) : bool :=
  bool_decide (is_Some (files w !! path)) || unreadable w path.

(** [open(path, "r")] followed by [f.read()], in text mode. *)
Definition read_text (path : string) (w : world) : result string :=
  if unreadable w path then Err (OSError path)
  else
    match files w !! path with
    | Some stored => Ok (Py.universal_newlines stored)
    | None => Err (OSError path)
    end.

(** [open(path, "w")] followed by [f.write(text)]. *)
Definition write_file (path text : string) (w : world) : result world :=
  if unwritable w path then Err (OSError path)
  else
    Ok {| files := <[path := text]> (files w);
          unreadable := unreadable w;
          unwritable := unwritable w;
          stdout := stdout w;
          opened_for_writing := path :: opened_for_writing w |}.

Definition rendered (lines : list string) : string :=
  Py.join (Py.str1 Py.nl) lines +:+ Py.str1 Py.nl.

Definition maybe_write_output (lines : list string) (output : option string)
    (w : world) : result world :=
  let text := rendered lines in
  match output with
  | None =>
      Ok {| files := files w;
            unreadable := unreadable w;
            unwritable := unwritable w;
            stdout := stdout w +:+ text;
            opened_for_writing := opened_for_writing w |}
  | Some path =>
      if path_exists path w then
        current ← read_text path w;
        if String.eqb current text then Ok w else write_file path text w
      else write_file path text w
  end.

(** ** The Go methods the generator emits

    The emitted methods are made of a few statements; [render] prints a
    method as the lines the generator appends, and [exec] runs its body on
    a receiver whose pointer fields are [None] when nil. *)

Module Go.

Inductive expr :=
| Nil
| Field (x f : string)
| Deref (x f : string)
| Call (x f m : string).

Inductive stmt :=
| Return (e : expr)
| Panic (msg : string)
| IfNotNil (x f : string) (body : stmt)
| IfNil (x f : string) (body : stmt).

Record method := {
  recv : string;
  recv_type : string;
  name : string;
  ret_type : string;
  body : list stmt;
}.

Definition render_expr (e : expr) : string :=
  match e with
  | Nil => "nil"
  | Field x f => x +:+ "." +:+ f
  | Deref x f => "*" +:+ x +:+ "." +:+ f
  | Call x f m => x +:+ "." +:+ f +:+ "." +:+ m +:+ "()"
  end.

Fixpoint render_stmt (indent : string) (s : stmt) : list string :=
  match s with
  | Return e => [indent +:+ "return " +:+ render_expr e]
  | Panic msg => [indent +:+ "panic(" +:+ Q +:+ msg +:+ Q +:+ ")"]
  | IfNotNil x f b =>
      [indent +:+ "if " +:+ x +:+ "." +:+ f +:+ " != nil {"]
      ++ render_stmt (indent +:+ T) b ++ [indent +:+ "}"]
  | IfNil x f b =>
      [indent +:+ "if " +:+ x +:+ "." +:+ f +:+ " == nil {"]
      ++ render_stmt (indent +:+ T) b ++ [indent +:+ "}"]
  end.

Definition render (m : method) : list string :=
  [ "func (" +:+ recv m +:+ " " +:+ recv_type m +:+ ") " +:+ name m +:+ "() "
    +:+ ret_type m +:+ " {" ]
  ++ concat (map (render_stmt T) (body m))
  ++ [ "}"; EmptyString ].

Section Run.

(** The values the receiver's fields point to. *)
Variable V : Type.

(** What a method hands back: the literal nil, a field as it is stored, the
    value a field points to, or what a method of that value returns. *)
Inductive value :=
| VNil
| VField (p : option V)
| VVal (v : V)
| VCall (v : V) (m : string).

Inductive outcome :=
| Returned (r : value)
| Panicked (msg : string)
| NilDereference
| NoReturn.

Definition eval (obj : string -> option V) (e : expr) : option value :=
  match e with
  | Nil => Some VNil
  | Field _ f => Some (VField (obj f))
  | Deref _ f => VVal <$> obj f
  | Call _ f m => (fun v => VCall v m) <$> obj f
  end.

(** One statement: [None] when control falls through to the next one. *)
Fixpoint exec_stmt (obj : string -> option V) (s : stmt) : option outcome :=
  match s with
  | Return e => Some (match eval obj e with Some r => Returned r | None => NilDereference end)
  | Panic msg => Some (Panicked msg)
  | IfNotNil _ f b => match obj f with Some _ => exec_stmt obj b | None => None end
  | IfNil _ f b => match obj f with Some _ => None | None => exec_stmt obj b end
  end.

Fixpoint exec (obj : string -> option V) (b : list stmt) : outcome :=
  match b with
  | [] => NoReturn
  | s :: b' =>
      match exec_stmt obj s with
      | Some o => o
      | None => exec obj b'
      end
  end.

End Run.

Arguments VNil {V}.
Arguments VField {V} p.
Arguments VVal {V} v.
Arguments VCall {V} v m.
Arguments Returned {V} r.
Arguments Panicked {V} msg.
Arguments NilDereference {V}.
Arguments NoReturn {V}.
Arguments eval {V} obj e.
Arguments exec_stmt {V} obj s.
Arguments exec {V} obj b.

End Go.

(** The methods of [go_getters] and [go_unions] as Go methods. *)
Definition transparent_method (x struct field type : string) : Go.method :=
  {| Go.recv := x; Go.recv_type := struct; Go.name := "Get" +:+ field;
     Go.ret_type := type;
     Go.body := [Go.Return (Go.Field x field)] |}.

Definition defaulted_method (x struct field defaulted_type : string) : Go.method :=
  {| Go.recv := x; Go.recv_type := struct; Go.name := "Get" +:+ field;
     Go.ret_type := defaulted_type;
     Go.body :=
       [ Go.IfNil x field
           (Go.Panic ("You must call WithDefaults on " +:+ struct +:+ " before .Get" +:+ field));
         Go.Return (Go.Deref x field) ] |}.

Definition union_member_method (x struct : string) (union_spec : list UnionSpec) : Go.method :=
  {| Go.recv := x; Go.recv_type := struct; Go.name := "GetUnionMember";
     Go.ret_type := "interface{}";
     Go.body :=
       map (fun u : UnionSpec => Go.IfNotNil x (fst u) (Go.Return Go.Nil)) union_spec
       ++ [Go.Panic no_union_member] |}.

Definition common_getter_method (x struct : string) (union_spec : list UnionSpec)
    (member : string * string) : Go.method :=
  {| Go.recv := x; Go.recv_type := struct; Go.name := "Get" +:+ fst member;
     Go.ret_type := snd member;
     Go.body :=
       map (fun u : UnionSpec =>
              Go.IfNotNil x (fst u) (Go.Return (Go.Call x (fst u) ("Get" +:+ fst member))))
           union_spec
       ++ [Go.Panic no_union_member] |}.

(** The first union field of the receiver that is not nil. *)
Fixpoint first_present {V} (obj : string → option V) (union_spec : list UnionSpec)
  : option (string * V) :=
  match union_spec with
  | [] => None
  | u :: rest =>
      match obj (fst u) with
      | Some v => Some (fst u, v)
      | None => first_present obj rest
      end
  end.

(** ** The rest of the generator

    What the claims leave out: the discovery of the schema files, the
    Python artifact, the imports of a generated Go file and the three
    entry points. *)

(** [os.walk(root)] is a parameter: the triples of a directory, the names
    of its directories and the names of its files, in the order it yields
    them. *)
Definition walk_entry : Type := string * list string * list string.

(** The paths [list_files] collects before it sorts them. *)
Definition json_paths (entries : list walk_entry) : list string :=
  concat (map (fun e : walk_entry =>
                 let '(dirpath, _, names) := e in
                 map (Py.path_join dirpath)
                     (filter (fun f => Py.endswith f ".json" = true) names))
              entries).

(** [list_files]. *)
Definition list_files (os_walk : string → list walk_entry) (HERE package : string)
  : list string :=
  let root := Py.path_join HERE package in
  sort_by String.ltb (json_paths (os_walk root)).

Definition ALL_PKGS : list string := ["expconf"].

(** [gen_python]. *)
Definition gen_python (schemas : list Schema) : list string :=
  [ "# This is a generated file.  Editing it will make you sad.";
    EmptyString;
    "import json";
    EmptyString;
    "schemas = {" ]
  ++ concat (map (fun s =>
                    [ "    " +:+ Q +:+ url s +:+ Q +:+ ": json.loads(";
                      "        r" +:+ Q +:+ Q +:+ Q +:+ Py.str1 Py.nl +:+ text s
                        +:+ Py.str1 Py.nl +:+ Q +:+ Q +:+ Q;
                      "    )," ]) schemas)
  ++ [ "}" ].

(** The membership test of a character, [str.replace] of a character by a
    text and [str.split] on a character, as [go_struct_main] uses them on
    the colon and the comma. *)
Fixpoint contains_char (c : ascii) (s : string) : bool :=
  match s with
  | EmptyString => false
  | String d s' => Ascii.eqb c d || contains_char c s'
  end.

Fixpoint replace_char (c : ascii) (by_ : string) (s : string) : string :=
  match s with
  | EmptyString => EmptyString
  | String d s' =>
      if Ascii.eqb c d then by_ +:+ replace_char c by_ s'
      else String d (replace_char c by_ s')
  end.

Fixpoint split_go (c : ascii) (cur : string) (s : string) : list string :=
  match s with
  | EmptyString => [String.rev cur]
  | String d s' =>
      if Ascii.eqb c d then String.rev cur :: split_go c EmptyString s'
      else split_go c (String d cur) s'
  end.

Definition split_char (c : ascii) (s : string) : list string := split_go c EmptyString s.

(** [fmt_import] of [go_struct_main]. *)
Definition fmt_import (imp : string) : string :=
  if contains_char ":"%char imp then replace_char ":"%char (" " +:+ Q) imp +:+ Q
  else Q +:+ imp +:+ Q.

Definition imports_list (imports : option string) : list string :=
  match imports with
  | None => []
  | Some i =>
      map fmt_import
          (filter (fun i => i ≠ EmptyString) (split_char ","%char i))
  end.

(** The three entry points; each one reads its sources, builds its lines
    and hands them to [maybe_write_output].  The sources are read through
    [read_file] and the destination is a file of the output tree: the
    destination is taken not to be one of the sources. *)
Definition python_main os_walk json_loads HERE relpath read_file
    (package : string) (output : option string) (w : world) : result world :=
  let paths := list_files os_walk HERE package in
  schemas ← read_schemas json_loads HERE relpath read_file paths;
  let lines := gen_python schemas in
  maybe_write_output lines output w.

Definition go_struct_main json_loads HERE relpath listdir read_file iter_order
    (package file : string) (line : Z) (imports : option string) (w : world)
  : result world :=
  '(output, lines) ← gen_go_struct json_loads HERE relpath listdir read_file iter_order
                       package file line (imports_list imports);
  maybe_write_output lines (Some output) w.

Definition go_root_main os_walk json_loads HERE relpath read_file
    (output : option string) (w : world) : result world :=
  let paths := concat (map (list_files os_walk HERE) ALL_PKGS) in
  schemas ← read_schemas json_loads HERE relpath read_file paths;
  let lines := gen_go_schemas_package schemas in
  maybe_write_output lines output w.

(** ** What a pattern matches

    [matches r m gs]: the text [m] is matched by [r], which closes the
    groups [gs] on the way. *)
Fixpoint all_chars (p : ascii → bool) (s : string) : bool :=
  match s with
  | EmptyString => true
  | String c s' => p c && all_chars p s'
  end.

Inductive matches : Re.regex → string → list string → Prop :=
| matches_eps : matches Re.Eps EmptyString []
| matches_chr c : matches (Re.Chr c) (String c EmptyString) []
| matches_cls p c : p c = true → matches (Re.Cls p) (String c EmptyString) []
| matches_seq r1 r2 m1 m2 g1 g2 :
    matches r1 m1 g1 → matches r2 m2 g2 →
    matches (Re.Seq r1 r2) (m1 +:+ m2) (g1 ++ g2)
| matches_star p m : all_chars p m = true → matches (Re.Star p) m []
| matches_plus p m :
    m ≠ EmptyString → all_chars p m = true → matches (Re.Plus p) m []
| matches_group r m g : matches r m g → matches (Re.Group r) m (g ++ [m]).

(** A name or a type as the patterns capture it: not empty and free of
    white space; a tag: not empty and free of commas and double quotes. *)
Definition word (s : string) : Prop :=
  s ≠ EmptyString ∧ all_chars Re.nonspace s = true.

Definition tag_text (s : string) : Prop :=
  s ≠ EmptyString ∧ all_chars Re.not_comma_quote s = true.

(** The last line of a list, or the line that was read before it. *)
Definition last_error (lines : list string) (before : option string) : option string :=
  match lines with
  | [] => before
  | _ => Some (List.last lines EmptyString)
  end.

(** ** Inputs the properties are tried on *)

(** A schema whose property [name] has a default, whose property [note]
    has an explicit null default, and whose property [size] has none. *)
Definition widget_doc : json :=
  JObject [ ("title", JString "Widget");
            ("properties",
             JObject [ ("name", JObject [("type", JString "string");
                                         ("default", JString "anon")]);
                       ("note", JObject [("default", JNull)]);
                       ("size", JObject [("type", JString "integer")]);
                       ("flag", JBool true) ]);
            ("required", JArray [JString "name"]) ].

Definition widget_schema : Schema :=
  {| url := "http://determined.ai/schemas/expconf/v1/widget.json";
     text := "widget";
     schema := widget_doc;
     golang_title := "WidgetV1";
     python_title := "widget_v1" |}.

(** A schema whose [required] list is present and empty. *)
Definition gadget_items : list (string * json) :=
  [ ("title", JString "Gadget");
    ("properties", JObject []);
    ("required", JArray []);
    ("eventuallyRequired", JArray [JString "name"]) ].

Definition gadget_schema : Schema :=
  {| url := "http://determined.ai/schemas/expconf/v1/gadget.json";
     text := "gadget";
     schema := JObject gadget_items;
     golang_title := "GadgetV1";
     python_title := "gadget_v1" |}.

(** The required list as the specification words it: the [required] list,
    and the [eventuallyRequired] one exactly when [required] is absent. *)
Definition required_when_absent (items : list (string * json)) : json :=
  match assoc "required" items with
  | Some r => r
  | None => default (JArray []) (assoc "eventuallyRequired" items)
  end.

(** The required list as the code computes it: [required] when it is
    there and true in Python's sense, [eventuallyRequired] otherwise. *)
Definition required_or (items : list (string * json)) : json :=
  match assoc "required" items with
  | Some r =>
      if truthy r then r else default (JArray []) (assoc "eventuallyRequired" items)
  | None => default (JArray []) (assoc "eventuallyRequired" items)
  end.

(** A tree that holds the text of one earlier run, a stale file, and
    the text of an earlier run with the line ends of another system;
    [out] is a directory, and there is no directory [missing]. *)
Definition world0 : world :=
  {| files := {[ "zgen_a.go" := rendered ["package a"];
                  "zgen_b.go" := "stale";
                  "zgen_c.go" := "package a" +:+ Py.str1 Py.cr +:+ Py.str1 Py.nl ]};
     unreadable := fun path => String.eqb path "out";
     unwritable := fun path => String.eqb path "out" || Py.startswith path "missing/";
     stdout := EmptyString;
     opened_for_writing := [] |}.

(** A source tree: the generator lives in [schemas], the package
    [expconf] has the version directories [v1] and [ab], and [structs.go]
    is the Go file the generator is run on. *)
Definition NL : string := Py.str1 Py.nl.

Definition here : string := "schemas".

(** [os.path.relpath] on the paths of this tree, which all start with the
    directory they are taken relative to. *)
Definition relpath0 (path start : string) : string :=
  if Py.startswith path (start +:+ "/")
  then String.substring (String.length start + 1)
         (String.length path - (String.length start + 1)) path
  else path.

Definition lookup_text {A} (k : string) (table : list (string * A)) : option A :=
  snd <$> List.find (fun kv => String.eqb k (fst kv)) table.

Definition structs_go : string :=
  "package expconf" +:+ NL
  +:+ NL
  +:+ "//go:generate ../gen.sh" +:+ NL
  +:+ "// WidgetV1 is a widget." +:+ NL
  +:+ "type WidgetV1 struct {" +:+ NL
  +:+ T +:+ "// The name of the widget." +:+ NL
  +:+ T +:+ "Name *string `json:" +:+ Q +:+ "name" +:+ Q +:+ "`" +:+ NL
  +:+ NL
  +:+ T +:+ "Size   int     `json:" +:+ Q +:+ "size,omitempty" +:+ Q +:+ "`" +:+ NL
  +:+ "}" +:+ NL
  +:+ NL
  +:+ "type GadgetV1 struct {" +:+ NL
  +:+ T +:+ "Name *string `json:" +:+ Q +:+ "name" +:+ Q +:+ "`" +:+ NL
  +:+ T +:+ "Kind string `json:" +:+ Q +:+ "kind" +:+ Q +:+ "`" +:+ NL
  +:+ "}" +:+ NL
  +:+ NL
  +:+ "type ThingV1 struct {" +:+ NL
  +:+ T +:+ "Widget *WidgetV1 `union:" +:+ Q +:+ "type,widget" +:+ Q +:+ " json:" +:+ Q +:+ "-" +:+ Q +:+ "`" +:+ NL
  +:+ T +:+ "Gadget *GadgetV1 `union:" +:+ Q +:+ "type,gadget" +:+ Q +:+ " json:" +:+ Q +:+ "-" +:+ Q +:+ "`" +:+ NL
  +:+ "}" +:+ NL
  +:+ NL
  +:+ "type MixedV1 struct {" +:+ NL
  +:+ T +:+ "Widget *WidgetV1 `union:" +:+ Q +:+ "type,widget" +:+ Q +:+ " json:" +:+ Q +:+ "-" +:+ Q +:+ "`" +:+ NL
  +:+ T +:+ "Label string `json:" +:+ Q +:+ "label" +:+ Q +:+ "`" +:+ NL
  +:+ "}" +:+ NL.

(** A struct whose body holds comment lines that do not start with a tab
    followed by two slashes. *)
Definition commented_go : string :=
  "type NoteV1 struct {" +:+ NL
  +:+ "// not indented" +:+ NL
  +:+ "}" +:+ NL.

Definition block_commented_go : string :=
  "type NoteV1 struct {" +:+ NL
  +:+ T +:+ "/* a block comment */" +:+ NL
  +:+ "}" +:+ NL.

Definition gadget_doc : json :=
  JObject [ ("title", JString "Gadget");
            ("properties", JObject [ ("name", JObject [("default", JString "anon")]) ]) ].

Definition tree_files : list (string * string) :=
  [ ("structs.go", structs_go);
    ("commented.go", commented_go);
    ("block_commented.go", block_commented_go);
    ("schemas/expconf/v1/widget.json", "widget");
    ("schemas/expconf/v1/gadget.json", "gadget");
    ("schemas/expconf/v1/thing.json", "thing");
    ("schemas/expconf/ab/foo.json", "foo") ].

Definition tree_dirs : list (string * list string) :=
  [ ("schemas/expconf/v1", ["README.md"; "widget.json"; "thing.json"; "gadget.json"]);
    ("schemas/expconf/ab", ["foo.json"]) ].

(** What [json.loads] makes of the texts of the tree. *)
Definition tree_json : list (string * json) :=
  [ ("widget", widget_doc);
    ("gadget", gadget_doc);
    ("thing", JObject [("title", JString "Thing"); ("properties", JObject [])]);
    ("foo", JObject [("title", JString "FooV1"); ("properties", JObject [])]) ].

Definition read_file0 (path : string) : option string := lookup_text path tree_files.
Definition listdir0 (dir : string) : option (list string) := lookup_text dir tree_dirs.
Definition json_loads0 (t : string) : option json := lookup_text t tree_json.

(** The dicts of the members [WidgetV1] and [GadgetV1]. *)
Definition widget_members : gmap string string :=
  {[ "Name" := "string"; "Size" := "int" ]}.
Definition gadget_members : gmap string string :=
  {[ "Name" := "string"; "Kind" := "string" ]}.

(** A receiver whose only member that is set is [Gadget]. *)
Definition only_gadget (field : string) : option string :=
  if String.eqb field "Gadget" then Some "the gadget" else None.

Definition thing_union : list UnionSpec :=
  [("Widget", "*WidgetV1"); ("Gadget", "*GadgetV1")].

(** What [os.walk] yields on the tree, in two orders. *)
Definition os_walk0 (root : string) : list walk_entry :=
  if String.eqb root "schemas/expconf" then
    [ ("schemas/expconf", ["v1"; "ab"], []);
      ("schemas/expconf/v1", [], ["README.md"; "widget.json"; "thing.json"; "gadget.json"]);
      ("schemas/expconf/ab", [], ["foo.json"]) ]
  else [].

Definition os_walk1 (root : string) : list walk_entry :=
  if String.eqb root "schemas/expconf" then
    [ ("schemas/expconf", ["ab"; "v1"], []);
      ("schemas/expconf/ab", [], ["foo.json"]);
      ("schemas/expconf/v1", [], ["gadget.json"; "thing.json"; "README.md"; "widget.json"]) ]
  else [].

(** The URL of a schema in the version directory [v] followed by e with
    an acute accent, a letter of Latin-1. *)
Definition latin1_url : string :=
  "http://determined.ai/schemas/expconf/v" +:+ Py.str1 "233" +:+ "/widget.json".

(** Lines that hold a carriage return. *)
Definition cr_lines : list string := ["a" +:+ Py.str1 Py.cr +:+ "b"].

(** * Properties *)

Lemma bind_Ok {A B} (a : A) (f : A → result B) : (Ok a ≫= f) = f a.
Proof. reflexivity. Qed.

Lemma bind_Err {A B} (e : exn) (f : A → result B) : (Err e ≫= f) = Err e.
Proof. reflexivity. Qed.

(** ** The output writer *)

(** C8, on the code.  [maybe_write_output] compares the rendered text
    with what [read] returns in text mode, where a carriage return is read
    as a newline.  So a call with lines that hold a carriage return opens
    the destination for writing although the destination holds exactly
    the rendered text, and does so again at every call; and a destination
    that holds the text with the line ends of another system is left as
    it is, although its content is not the rendered text.  For a text
    without a carriage return the same code does what the claim states:
    the destination that holds the text is not opened. *)
Theorem maybe_write_output_rewrites_equal_text :
  ∃ w1 w2,
    maybe_write_output cr_lines (Some "zgen_b.go") world0 = Ok w1
    ∧ files w1 !! "zgen_b.go" = Some (rendered cr_lines)
    ∧ opened_for_writing w1 = ["zgen_b.go"]
    ∧ maybe_write_output cr_lines (Some "zgen_b.go") w1 = Ok w2
    ∧ files w2 !! "zgen_b.go" = Some (rendered cr_lines)
    ∧ opened_for_writing w2 = ["zgen_b.go"; "zgen_b.go"]
    ∧ files world0 !! "zgen_c.go" ≠ Some (rendered ["package a"])
    ∧ maybe_write_output ["package a"] (Some "zgen_c.go") world0 = Ok world0
    ∧ files world0 !! "zgen_a.go" = Some (rendered ["package a"])
    ∧ maybe_write_output ["package a"] (Some "zgen_a.go") world0 = Ok world0.
Proof.
  eexists _, _. split; [reflexivity|]. split; [reflexivity|]. split; [reflexivity|].
  split; [reflexivity|]. split; [reflexivity|]. split; [reflexivity|].
  split; [by vm_compute|]. split; [reflexivity|]. split; reflexivity.
Qed.

(** ** The type resolver *)

Lemma schema_required_eq (s : Schema) (items : list (string * json)) :
  schema s = JObject items → schema_required s = Ok (required_or items).
Proof.
  intros E. unfold schema_required, required_or, dict_get. rewrite E. cbn.
  destruct (assoc "required" items) as [r|]; cbn; [|done].
  by destruct (truthy r).
Qed.

Lemma get_defaulted_type_required (s : Schema) (tag ty ty' : string) (d req : json) :
  get_defaulted_type s tag ty = Ok (ty', d, req) → schema_required s = Ok req.
Proof.
  unfold get_defaulted_type.
  destruct (schema_default s tag) as [d0|]; [|done]. rewrite bind_Ok.
  destruct (schema_required s) as [r|]; [|done]. rewrite bind_Ok.
  destruct d0;
    repeat (match goal with |- context [if ?b then _ else _] => destruct b end);
    intros; by simplify_eq.
Qed.

(** C9, as the code has it.  The required metadata is the schema's
    [required] value when that value is there and true in Python's sense
    (a non-empty list); when it is absent, or there and empty, the
    metadata is the [eventuallyRequired] value, and the empty list when
    that is absent too. *)
Theorem required_metadata (s : Schema) (items : list (string * json)) :
  schema s = JObject items →
  schema_required s = Ok (required_or items)
  ∧ ∀ tag ty ty' d req,
      get_defaulted_type s tag ty = Ok (ty', d, req) → req = required_or items.
Proof.
  intros E. split; [by apply schema_required_eq|].
  intros tag ty ty' d req H%get_defaulted_type_required.
  rewrite (schema_required_eq s items E) in H. by simplify_eq.
Qed.

Lemma required_metadata_witness :
  schema_required widget_schema = Ok (JArray [JString "name"])
  ∧ ∀ tag ty ty' d req,
      get_defaulted_type widget_schema tag ty = Ok (ty', d, req) →
      req = JArray [JString "name"].
Proof. exact (required_metadata widget_schema _ eq_refl). Defined.

(** C9, as stated, fails: the [required] list of [gadget_schema] is there
    (and empty), so the statement makes it the metadata; the code hands
    back the [eventuallyRequired] list. *)
Lemma required_present_but_empty :
  schema gadget_schema = JObject gadget_items
  ∧ assoc "required" gadget_items = Some (JArray [])
  ∧ required_when_absent gadget_items = JArray []
  ∧ get_defaulted_type gadget_schema "name" "*string"
    = Ok ("*string", JNull, JArray [JString "name"]).
Proof. repeat split. Qed.

Lemma foldM_app_concat {A} (g : A → result (list string)) (spec : list A) (acc : list string) :
  foldM (fun lines f => l ← g f; Ok (lines ++ l)) acc spec
  = (ls ← mapM g spec; Ok (acc ++ concat ls)).
Proof.
  revert acc. induction spec as [|f spec IH]; intros acc; cbn.
  - by rewrite app_nil_r.
  - destruct (g f) as [l|e]; cbn; [|done].
    rewrite IH. destruct (mapM g spec) as [ls|e]; cbn; [|done].
    by rewrite app_assoc.
Qed.

(** [go_getters] is the per-field getter run over the fields in order. *)
Lemma go_getters_eq (struct : string) (s : Schema) (spec : list FieldSpec) :
  go_getters struct s spec
  = match spec with
    | [] => Ok []
    | _ => x ← receiver struct; ls ← mapM (go_getter x struct s) spec; Ok (concat ls)
    end.
Proof.
  unfold go_getters. destruct spec as [|f spec]; [done|].
  change (length (f :: spec) <? 1) with false. cbv iota.
  destruct (receiver struct) as [x|]; [|done].
  rewrite !bind_Ok. by rewrite foldM_app_concat.
Qed.

Lemma get_defaulted_type_null (s : Schema) (tag ty : string) (req : json) :
  schema_default s tag = Ok JNull → schema_required s = Ok req →
  get_defaulted_type s tag ty = Ok (ty, JNull, req).
Proof. intros Hd Hr. unfold get_defaulted_type. by rewrite Hd, Hr. Qed.

Lemma get_defaulted_type_some (s : Schema) (tag ty : string) (d req : json) :
  schema_default s tag = Ok d → d ≠ JNull → schema_required s = Ok req →
  get_defaulted_type s tag ty
  = if negb (Py.startswith ty "*") then Err (AssertionError (MustBePointer tag ty))
    else if Py.startswith ty "**" then Err (AssertionError (DoublePointer tag ty))
    else Ok (Py.tail ty, d, req).
Proof.
  intros Hd Hn Hr. unfold get_defaulted_type. rewrite Hd, Hr. cbn.
  by destruct d.
Qed.

Lemma startswith_app (s p1 p2 : string) :
  Py.startswith s (p1 +:+ p2) = true → Py.startswith s p1 = true.
Proof.
  revert s. induction p1 as [|c p1 IH]; intros s; [done|].
  change (String c p1 +:+ p2) with (String c (p1 +:+ p2)).
  destruct s as [|d s]; [done|].
  change (Ascii.eqb c d && Py.startswith s (p1 +:+ p2) = true
          → Ascii.eqb c d && Py.startswith s p1 = true).
  intros [-> H]%andb_prop. by rewrite (IH s H).
Qed.

Lemma append_assoc (s1 s2 s3 : string) : (s1 +:+ s2) +:+ s3 = s1 +:+ (s2 +:+ s3).
Proof.
  induction s1 as [|c s1 IH]; [done|].
  change (String c ((s1 +:+ s2) +:+ s3) = String c (s1 +:+ s2 +:+ s3)).
  by rewrite IH.
Qed.

(** The emitted lines are the rendering of the method, up to the way the
    pieces of a line are put together. *)
Ltac render_eq :=
  cbn; rewrite ?append_assoc; reflexivity.

Lemma transparent_getter_render (x struct field ty : string) :
  transparent_getter x struct field ty = Go.render (transparent_method x struct field ty).
Proof. unfold transparent_getter, Go.render, transparent_method. render_eq. Qed.

Lemma defaulted_getter_render (x struct field ty : string) :
  defaulted_getter x struct field ty = Go.render (defaulted_method x struct field ty).
Proof. unfold defaulted_getter, Go.render, defaulted_method. render_eq. Qed.

(** C2.  When the property of a field declares a default (one that is not
    null), [get_defaulted_type] fails with the must-be-a-pointer error on
    a type that does not start with a star, with the double-pointer error
    on a type that starts with two, and on a type [*t] with [t] not
    starting with a star it returns [t]; the getter emitted for the field
    then has return type [t], panics on a nil field and returns what the
    field points to otherwise.  When the property declares no default,
    the emitted getter has the declared type and returns the field as it
    is.  [go_getters] emits these getters field after field. *)
Theorem defaulted_field_getter (s : Schema) (tag ty : string) (d req : json) :
  schema_default s tag = Ok d →
  schema_required s = Ok req →
  (d ≠ JNull →
     (Py.startswith ty "*" = false →
        get_defaulted_type s tag ty = Err (AssertionError (MustBePointer tag ty))
        ∧ assertion_message (MustBePointer tag ty)
          = Some (tag +:+ " type (" +:+ ty +:+ ") must be a pointer since it can be defaulted"))
     ∧ (Py.startswith ty "**" = true →
        get_defaulted_type s tag ty = Err (AssertionError (DoublePointer tag ty))
        ∧ assertion_message (DoublePointer tag ty)
          = Some (tag +:+ " type (" +:+ ty +:+ ") must not be a double pointer"))
     ∧ (∀ t, ty = String "*" t → Py.startswith t "*" = false →
        get_defaulted_type s tag ty = Ok (t, d, req)
        ∧ ∀ x struct field,
            go_getter x struct s (field, ty, tag)
            = Ok (Go.render (defaulted_method x struct field t))
            ∧ Go.ret_type (defaulted_method x struct field t) = t
            ∧ ∀ (V : Type) (obj : string → option V),
                Go.exec obj (Go.body (defaulted_method x struct field t))
                = match obj field with
                  | Some v => Go.Returned (Go.VVal v)
                  | None =>
                      Go.Panicked ("You must call WithDefaults on " +:+ struct
                                   +:+ " before .Get" +:+ field)
                  end))
  ∧ (d = JNull →
     get_defaulted_type s tag ty = Ok (ty, JNull, req)
     ∧ ∀ x struct field,
         go_getter x struct s (field, ty, tag)
         = Ok (Go.render (transparent_method x struct field ty))
         ∧ Go.ret_type (transparent_method x struct field ty) = ty
         ∧ ∀ (V : Type) (obj : string → option V),
             Go.exec obj (Go.body (transparent_method x struct field ty))
             = Go.Returned (Go.VField (obj field)))
  ∧ (∀ struct spec, spec ≠ [] →
     go_getters struct s spec
     = (x ← receiver struct; ls ← mapM (go_getter x struct s) spec; Ok (concat ls))).
Proof.
  intros Hd Hr. split; [|split].
  - intros Hn. pose proof (get_defaulted_type_some s tag ty d req Hd Hn Hr) as E.
    split; [|split].
    + intros Hp. rewrite E, Hp. done.
    + intros Hpp. rewrite E, Hpp.
      assert (Py.startswith ty "*" = true) as ->; [|done].
      by apply (startswith_app ty "*" "*").
    + intros t -> Ht.
      assert (get_defaulted_type s tag (String "*" t) = Ok (t, d, req)) as E'.
      { rewrite E.
        change (Py.startswith (String "*" t) "*") with true.
        change (Py.startswith (String "*" t) "**") with (Py.startswith t "*").
        by rewrite Ht. }
      split; [done|]. intros x struct field. split; [|split; [done|]].
      * unfold go_getter. rewrite E', bind_Ok, <- defaulted_getter_render.
        by destruct d.
      * intros V obj. cbn. by destruct (obj field).
  - intros ->. pose proof (get_defaulted_type_null s tag ty req Hd Hr) as E.
    split; [done|]. intros x struct field. split; [|split; [done|]].
    + unfold go_getter. by rewrite E, bind_Ok, <- transparent_getter_render.
    + intros V obj. done.
  - intros struct spec Hne. rewrite go_getters_eq. by destruct spec.
Qed.

(** C10.  A property whose default is an explicit null: whatever the
    declared type, pointer or not, [get_defaulted_type] returns it as it
    is, with no default, exactly as for a schema [s0] whose property has
    no [default] key; the getter emitted is the transparent one, which
    never panics. *)
Theorem null_default_is_no_default (s : Schema) (props prop : list (string * json))
    (tag ty : string) (req : json) :
  getitem (schema s) "properties" = Ok (JObject props) →
  assoc tag props = Some (JObject prop) →
  assoc "default" prop = Some JNull →
  schema_required s = Ok req →
  get_defaulted_type s tag ty = Ok (ty, JNull, req)
  ∧ (∀ s0 props0 prop0,
       getitem (schema s0) "properties" = Ok (JObject props0) →
       assoc tag props0 = Some (JObject prop0) →
       assoc "default" prop0 = None →
       schema_required s0 = Ok req →
       get_defaulted_type s0 tag ty = get_defaulted_type s tag ty
       ∧ ∀ x struct field,
           go_getter x struct s0 (field, ty, tag) = go_getter x struct s (field, ty, tag))
  ∧ ∀ x struct field,
      go_getter x struct s (field, ty, tag)
      = Ok (Go.render (transparent_method x struct field ty))
      ∧ ∀ (V : Type) (obj : string → option V),
          Go.exec obj (Go.body (transparent_method x struct field ty))
          = Go.Returned (Go.VField (obj field)).
Proof.
  intros Hp Ht Hd Hr.
  assert (schema_default s tag = Ok JNull) as Hdef.
  { unfold schema_default. rewrite Hp. cbn. rewrite Ht. cbn. by rewrite Hd. }
  pose proof (get_defaulted_type_null s tag ty req Hdef Hr) as E.
  split; [done|]. split.
  - intros s0 props0 prop0 Hp0 Ht0 Hd0 Hr0.
    assert (schema_default s0 tag = Ok JNull) as Hdef0.
    { unfold schema_default. rewrite Hp0. cbn. rewrite Ht0. cbn. by rewrite Hd0. }
    pose proof (get_defaulted_type_null s0 tag ty req Hdef0 Hr0) as E0.
    split; [by rewrite E, E0|]. intros x struct field.
    unfold go_getter. by rewrite E, E0.
  - intros x struct field. split; [|done].
    unfold go_getter. by rewrite E, bind_Ok, <- transparent_getter_render.
Qed.

Lemma defaulted_field_getter_witness :
  get_defaulted_type widget_schema "name" "string"
    = Err (AssertionError (MustBePointer "name" "string"))
  ∧ get_defaulted_type widget_schema "name" "**string"
    = Err (AssertionError (DoublePointer "name" "**string"))
  ∧ get_defaulted_type widget_schema "name" "*string"
    = Ok ("string", JString "anon", JArray [JString "name"])
  ∧ go_getter "w" "WidgetV1" widget_schema ("Name", "*string", "name")
    = Ok (Go.render (defaulted_method "w" "WidgetV1" "Name" "string")).
Proof.
  destruct (defaulted_field_getter widget_schema "name" "string"
              (JString "anon") (JArray [JString "name"]) eq_refl eq_refl)
    as ((H1 & _ & _) & _); [done|].
  destruct (defaulted_field_getter widget_schema "name" "**string"
              (JString "anon") (JArray [JString "name"]) eq_refl eq_refl)
    as ((_ & H2 & _) & _); [done|].
  destruct (defaulted_field_getter widget_schema "name" "*string"
              (JString "anon") (JArray [JString "name"]) eq_refl eq_refl)
    as ((_ & _ & H3) & _); [done|].
  destruct (H3 "string" eq_refl eq_refl) as (H4 & H5).
  split; [apply H1; reflexivity|]. split; [apply H2; reflexivity|].
  split; [exact H4|]. apply (H5 "w" "WidgetV1" "Name").
Defined.

Lemma null_default_is_no_default_witness :
  get_defaulted_type widget_schema "note" "string" = Ok ("string", JNull, JArray [JString "name"])
  ∧ go_getter "w" "WidgetV1" widget_schema ("Note", "string", "note")
    = Ok (Go.render (transparent_method "w" "WidgetV1" "Note" "string")).
Proof.
  destruct (null_default_is_no_default widget_schema _ _ "note" "string"
              (JArray [JString "name"]) eq_refl eq_refl eq_refl eq_refl)
    as (H1 & _ & H2).
  split; [exact H1|]. apply (H2 "w" "WidgetV1" "Note").
Defined.

(** ** The union dispatcher *)

Lemma union_member_lines_render (x struct : string) (union_spec : list UnionSpec) :
  union_member_lines x struct union_spec
  = Go.render (union_member_method x struct union_spec).
Proof.
  unfold union_member_lines, Go.render, union_member_method. cbn.
  f_equal. rewrite map_app, concat_app, <- app_assoc.
  f_equal; try (cbn; unfold panic_line; by rewrite ?append_assoc).
  f_equal. rewrite map_map. apply map_ext. intros u. cbn.
  by rewrite ?append_assoc.
Qed.

Lemma common_getter_lines_render (x struct : string) (union_spec : list UnionSpec)
    (member : string * string) :
  common_getter_lines x struct union_spec member
  = Go.render (common_getter_method x struct union_spec member).
Proof.
  destruct member as [common_field type].
  unfold common_getter_lines, Go.render, common_getter_method. cbn.
  f_equal; try by rewrite ?append_assoc.
  rewrite map_app, concat_app, <- app_assoc.
  f_equal; try (cbn; unfold panic_line; by rewrite ?append_assoc).
  f_equal. rewrite map_map. apply map_ext. intros u. cbn.
  by rewrite ?append_assoc.
Qed.

(** What the emitted dispatcher does on every receiver: it hands back the
    literal nil as soon as a member is set, whichever it is, and panics
    when none is. *)
Lemma union_member_exec {V} (x struct : string) (union_spec : list UnionSpec)
    (obj : string → option V) :
  Go.exec obj (Go.body (union_member_method x struct union_spec))
  = match first_present obj union_spec with
    | Some _ => Go.Returned Go.VNil
    | None => Go.Panicked no_union_member
    end.
Proof.
  cbn. induction union_spec as [|u rest IH]; [done|].
  cbn. destruct (obj (fst u)); [done|]. exact IH.
Qed.

(** The getter of a common member, emitted by the same function, hands
    back what the getter of the first member that is set returns. *)
Lemma common_getter_exec {V} (x struct : string) (union_spec : list UnionSpec)
    (member : string * string) (obj : string → option V) :
  Go.exec obj (Go.body (common_getter_method x struct union_spec member))
  = match first_present obj union_spec with
    | Some (_, v) => Go.Returned (Go.VCall v ("Get" +:+ fst member))
    | None => Go.Panicked no_union_member
    end.
Proof.
  cbn. induction union_spec as [|u rest IH]; [done|].
  cbn. destruct (obj (fst u)); [done|]. exact IH.
Qed.

(** The lines of [go_unions] are the dispatcher followed by the getters of
    the common members. *)
Lemma go_unions_lines json_loads HERE relpath listdir read_file iter_order
    (struct package file : string) (s : Schema) (union_spec : list UnionSpec)
    (lines : list string) :
  union_spec ≠ [] →
  go_unions json_loads HERE relpath listdir read_file iter_order
    struct package file s union_spec = Ok lines →
  ∃ x members,
    receiver struct = Ok x
    ∧ get_union_common_members json_loads HERE relpath listdir read_file iter_order
        file package (map (fun u : UnionSpec => Py.lstrip_star (snd u)) union_spec)
      = Ok members
    ∧ lines = Go.render (union_member_method x struct union_spec)
              ++ concat (map (fun m => Go.render (common_getter_method x struct union_spec m))
                             members).
Proof.
  intros Hne. unfold go_unions. destruct union_spec as [|u us]; [done|].
  change (length (u :: us) <? 1) with false. cbv iota.
  destruct (receiver struct) as [x|]; [|done]. rewrite bind_Ok.
  destruct (get_union_common_members _ _ _ _ _ _ _ _ _) as [members|]; [|done].
  rewrite bind_Ok. intros H. exists x, members. split; [done|]. split; [done|].
  rewrite <- union_member_lines_render.
  rewrite <- (map_ext _ _ (common_getter_lines_render x struct (u :: us))).
  congruence.
Qed.

(** C1, on the code.  For the union [ThingV1] of [structs.go] the lines of
    [GetUnionMember] are the ones below; run on a receiver whose member
    [Gadget] is set, the method returns the literal nil and not that
    member, while the getter of the common member [Name] does delegate to
    it.  Only the panic on a receiver with no member set is as stated. *)
Theorem union_member_returns_nil :
  go_unions json_loads0 here relpath0 listdir0 read_file0 elements
    "ThingV1" "expconf" "structs.go" widget_schema thing_union
  = Ok (union_member_lines "t" "ThingV1" thing_union
        ++ common_getter_lines "t" "ThingV1" thing_union ("Name", "string"))
  ∧ union_member_lines "t" "ThingV1" thing_union
  = [ "func (t ThingV1) GetUnionMember() interface{} {";
      T +:+ "if t.Widget != nil {";
      T +:+ T +:+ "return nil";
      T +:+ "}";
      T +:+ "if t.Gadget != nil {";
      T +:+ T +:+ "return nil";
      T +:+ "}";
      T +:+ "panic(" +:+ Q +:+ "no union member defined" +:+ Q +:+ ")";
      "}";
      EmptyString ]
  ∧ union_member_lines "t" "ThingV1" thing_union
    = Go.render (union_member_method "t" "ThingV1" thing_union)
  ∧ first_present only_gadget thing_union = Some ("Gadget", "the gadget")
  ∧ Go.exec only_gadget (Go.body (union_member_method "t" "ThingV1" thing_union))
    = Go.Returned Go.VNil
  ∧ Go.exec only_gadget
      (Go.body (common_getter_method "t" "ThingV1" thing_union ("Name", "string")))
    = Go.Returned (Go.VCall "the gadget" "GetName")
  ∧ Go.exec (fun _ => @None string) (Go.body (union_member_method "t" "ThingV1" thing_union))
    = Go.Panicked "no union member defined".
Proof. repeat split. Qed.

(** ** The schema resolver *)

(** The struct name of a schema is its title followed by the upper-cased
    name of the directory its URL puts it in. *)
Lemma Schema_init_golang_title json_loads (u t : string) (s : Schema) :
  Schema_init json_loads u t = Ok s →
  ∃ doc title,
    json_loads t = Some doc
    ∧ getitem doc "title" = Ok (JString title)
    ∧ url s = u ∧ text s = t ∧ schema s = doc
    ∧ ∃ v, Py.upper (version_of u) = Some v ∧ golang_title s = title +:+ v.
Proof.
  unfold Schema_init. destruct (json_loads t) as [doc|]; [|done].
  destruct (getitem doc "title") as [title|] eqn:Et; [|done]. rewrite bind_Ok.
  destruct title as [| | | |ttl| |]; try done.
  destruct (Py.upper (version_of u)) as [v|]; [|done]. cbv zeta.
  destruct (camel_to_snake _) as [p|]; [|done]. rewrite bind_Ok.
  intros [= <-]. eexists _, _. repeat (split; [done|]). by exists v.
Qed.

(** A schema that [find_schema] returns has the name that was asked for. *)
Lemma find_schema_loop_title json_loads HERE relpath read_file
    (dir struct : string) (names : list string) (s : Schema) :
  find_schema_loop json_loads HERE relpath read_file dir struct names = Ok s →
  golang_title s = struct.
Proof.
  induction names as [|file rest IH]; cbn; [done|].
  destruct (Py.endswith file ".json"); cbn; [|exact IH].
  destruct (open_read read_file _) as [t|]; [|done]. rewrite bind_Ok.
  destruct (Schema_init json_loads _ t) as [s'|]; [|done]. rewrite bind_Ok.
  destruct (String.eqb_spec (golang_title s') struct) as [E|]; cbn; [|done].
  by intros [= <-].
Qed.

(** C3, on the code.  The name [FooV1AB] does not end in [V] and digits
    (the pattern does not match the whole of it), yet [find_schema] does
    not reject it: the pattern is matched at the start of the name only,
    the version directory is [ab], and the schema titled [FooV1] that
    lives there is returned. *)
Theorem find_schema_accepts_name_without_version_suffix :
  Re.fullmatch version_re "FooV1AB" = None
  ∧ Re.rmatch version_re "FooV1AB" = Some []
  ∧ schema_dir here "expconf" "FooV1AB" = "schemas/expconf/ab"
  ∧ find_schema json_loads0 here relpath0 listdir0 read_file0 "expconf" "FooV1AB"
    = Ok {| url := "http://determined.ai/schemas/expconf/ab/foo.json";
            text := "foo";
            schema := JObject [("title", JString "FooV1"); ("properties", JObject [])];
            golang_title := "FooV1AB";
            python_title := "foo_v1ab" |}.
Proof. repeat split. Qed.

(** ** Per-type generation *)

(** C7.  When the struct that follows the directive has both plain fields
    and union fields, [gen_go_struct] fails with the assertion that names
    it: no schema is looked up and no line is produced. *)
Theorem both_union_and_fields_is_fatal json_loads HERE relpath listdir read_file iter_order
    (package file : string) (line : Z) (imports : list string)
    (struct : string) (field_spec : list FieldSpec) (union_spec : list UnionSpec) :
  next_struct_name read_file file line = Ok struct →
  find_struct read_file file struct = Ok (field_spec, union_spec) →
  field_spec ≠ [] →
  union_spec ≠ [] →
  gen_go_struct json_loads HERE relpath listdir read_file iter_order
    package file line imports
  = Err (AssertionError (BothUnionAndFields struct)).
Proof.
  intros Hn Hf Hfs Hus. unfold gen_go_struct.
  rewrite Hn, bind_Ok, Hf, bind_Ok.
  destruct field_spec; [done|]. by destruct union_spec.
Qed.

Lemma both_union_and_fields_is_fatal_witness :
  find_struct read_file0 "structs.go" "MixedV1"
    = Ok ([("Label", "string", "label")], [("Widget", "*WidgetV1")])
  ∧ gen_go_struct json_loads0 here relpath0 listdir0 read_file0 elements
      "expconf" "structs.go" 20 []
    = Err (AssertionError (BothUnionAndFields "MixedV1")).
Proof.
  split; [reflexivity|].
  apply (both_union_and_fields_is_fatal json_loads0 here relpath0 listdir0 read_file0
           elements "expconf" "structs.go" 20 [] "MixedV1"
           [("Label", "string", "label")] [("Widget", "*WidgetV1")]);
    [reflexivity | reflexivity | done | done].
Defined.

(** ** The struct introspector *)

Lemma greedy_some {R} (p : ascii → bool) (s : string) (k : string → option R) (res : R) :
  Re.greedy p s k = Some res → ∃ s', k s' = Some res.
Proof.
  induction s as [|c s IH]; cbn; [by eauto|].
  destruct (p c); [|by eauto].
  destruct (Re.greedy p s k) as [r|] eqn:E; [|by eauto].
  intros [= ->]. by apply IH.
Qed.

(** A match closes as many groups as the pattern has. *)
Lemma run_groups {R} (r : Re.regex) :
  ∀ (s : string) (caps : list string) (k : string → list string → option R) (res : R),
    Re.run r s caps k = Some res →
    ∃ s' new, length new = Re.groups r ∧ k s' (caps ++ new) = Some res.
Proof.
  induction r as [|c|p|r1 IH1 r2 IH2|p|p|r IH]; intros s caps k res; cbn.
  - intros H. exists s, []. by rewrite app_nil_r.
  - destruct s as [|c' s]; [done|]. destruct (Ascii.eqb c c'); [|done].
    intros H. exists s, []. by rewrite app_nil_r.
  - destruct s as [|c' s]; [done|]. destruct (p c'); [|done].
    intros H. exists s, []. by rewrite app_nil_r.
  - intros H. apply IH1 in H as (s1 & new1 & L1 & H).
    apply IH2 in H as (s2 & new2 & L2 & H).
    exists s2, (new1 ++ new2). rewrite length_app, L1, L2, app_assoc. done.
  - intros (s' & H)%greedy_some. exists s', []. by rewrite app_nil_r.
  - destruct s as [|c' s]; [done|]. destruct (p c'); [|done].
    intros (s' & H)%greedy_some. exists s', []. by rewrite app_nil_r.
  - intros H. apply IH in H as (s1 & new1 & L1 & H).
    exists s1, (new1 ++ [Re.consumed s s1]).
    rewrite length_app, L1, app_assoc. cbn. split; [lia|done].
Qed.

Lemma rmatch_groups (r : Re.regex) (s : string) (caps : list string) :
  Re.rmatch r s = Some caps → length caps = Re.groups r.
Proof.
  unfold Re.rmatch. intros (s' & new & L & H)%run_groups.
  cbn in H. by simplify_eq.
Qed.

(** One step of the loop inside the body, by the kind of the line. *)
Lemma find_struct_loop_fields (file name : string) (fs : list FieldSpec)
    (us : list UnionSpec) (n : nat) (line : string) (rest : list string) :
  find_struct_loop file name fields fs us n (line :: rest)
  = match classify line with
    | Closing => Ok (fs, us)
    | Blank | Comment => find_struct_loop file name fields fs us (S n) rest
    | UnionLine field type =>
        find_struct_loop file name fields fs (us ++ [(field, type)]) (S n) rest
    | FieldLine field type tag =>
        find_struct_loop file name fields (fs ++ [(field, type, tag)]) us (S n) rest
    | Unclassified => Err (AssertionError (UnsureLine n (Py.rstrip line)))
    end.
Proof.
  cbn [find_struct_loop]. unfold classify.
  destruct (String.eqb (Py.strip line) "}"); [done|].
  destruct (String.eqb (Py.strip line) EmptyString); [done|].
  destruct (Py.startswith line (T +:+ "//")); [done|].
  destruct (Re.rmatch union_re line) as [caps|] eqn:Eu.
  - apply rmatch_groups in Eu. by destruct caps as [|f [|t [|? ?]]].
  - destruct (Re.rmatch field_re line) as [caps|] eqn:Ef; [|done].
    apply rmatch_groups in Ef. by destruct caps as [|f [|t [|g [|? ?]]]].
Qed.

(** Before the header the loop only counts lines. *)
Lemma find_struct_loop_pre (file name : string) (fs : list FieldSpec) (us : list UnionSpec)
    (before rest : list string) (n : nat) :
  Forall (fun l => Py.startswith l (struct_header name) = false) before →
  find_struct_loop file name pre fs us n (before ++ rest)
  = find_struct_loop file name pre fs us (n + length before) rest.
Proof.
  intros H. revert n. induction H as [|l before Hl _ IH]; intros n; cbn [app length].
  - by rewrite Nat.add_0_r.
  - cbn [find_struct_loop]. rewrite Hl, IH. f_equal. lia.
Qed.

(** Over lines that are skipped or declare a field, the loop collects the
    fields and the union fields in the order of the lines. *)
Lemma find_struct_loop_body (file name : string) (body rest : list string) :
  Forall (fun l => body_line l = true) body →
  ∀ (fs : list FieldSpec) (us : list UnionSpec) (n : nat),
    find_struct_loop file name fields fs us n (body ++ rest)
    = find_struct_loop file name fields (fs ++ omap field_of body)
        (us ++ omap union_of body) (n + length body) rest.
Proof.
  induction 1 as [|l body Hl _ IH]; intros fs us n; cbn [app length].
  - by rewrite !app_nil_r, Nat.add_0_r.
  - rewrite find_struct_loop_fields. cbn [omap list_omap].
    unfold body_line in Hl. unfold field_of, union_of.
    destruct (classify l); try done; rewrite IH, <- ?app_assoc, ?app_nil_r;
      f_equal; lia.
Qed.

Lemma find_struct_loop_not_found (file name : string) (fs : list FieldSpec)
    (us : list UnionSpec) (lines : list string) (n : nat) :
  Forall (fun l => Py.startswith l (struct_header name) = false) lines →
  find_struct_loop file name pre fs us n lines
  = Err (AssertionError (NoStructDefinition name file)).
Proof.
  intros H. rewrite <- (app_nil_r lines), find_struct_loop_pre by done. done.
Qed.

(** C6, as the code has it.  [find_struct] enters the definition at the
    first line that starts with [type <name> struct]; inside it skips the
    blank lines and the lines that start with a tab followed by two
    slashes, takes every other line for a union field or a plain field,
    and fails on the first line of neither shape with the number of that
    line; it returns the fields and the union fields collected, in the
    order of the lines, upon the line that is the closing brace; and it
    fails with the not-found error when no line opens the definition or
    when the text ends before the closing brace. *)
Theorem find_struct_spec (read_file : string → option string)
    (file name text : string) :
  read_file file = Some text →
  (∀ before header body closing after,
     Py.readlines text = before ++ header :: body ++ closing :: after →
     Forall (fun l => Py.startswith l (struct_header name) = false) before →
     Py.startswith header (struct_header name) = true →
     Forall (fun l => body_line l = true) body →
     classify closing = Closing →
     find_struct read_file file name = Ok (omap field_of body, omap union_of body))
  ∧ (∀ before header body bad after,
     Py.readlines text = before ++ header :: body ++ bad :: after →
     Forall (fun l => Py.startswith l (struct_header name) = false) before →
     Py.startswith header (struct_header name) = true →
     Forall (fun l => body_line l = true) body →
     classify bad = Unclassified →
     find_struct read_file file name
     = Err (AssertionError (UnsureLine (length before + 1 + length body) (Py.rstrip bad))))
  ∧ (Forall (fun l => Py.startswith l (struct_header name) = false) (Py.readlines text) →
     find_struct read_file file name = Err (AssertionError (NoStructDefinition name file)))
  ∧ (∀ before header body,
     Py.readlines text = before ++ header :: body →
     Forall (fun l => Py.startswith l (struct_header name) = false) before →
     Py.startswith header (struct_header name) = true →
     Forall (fun l => body_line l = true) body →
     find_struct read_file file name = Err (AssertionError (NoStructDefinition name file)))
  ∧ (∀ line,
       (classify line = Closing ↔ Py.strip line = "}")
       ∧ (classify line = Blank ↔ Py.strip line = EmptyString)
       ∧ (classify line = Comment ↔
            Py.strip line ≠ "}" ∧ Py.strip line ≠ EmptyString
            ∧ Py.startswith line (T +:+ "//") = true)).
Proof.
  intros Hread.
  assert (find_struct read_file file name
          = find_struct_loop file name pre [] [] 0 (Py.readlines text)) as ->.
  { unfold find_struct, open_read. by rewrite Hread. }
  split; [|split; [|split; [|split]]].
  - intros before header body closing after -> Hpre Hhdr Hbody Hclose.
    rewrite find_struct_loop_pre by done. cbn [find_struct_loop]. rewrite Hhdr.
    rewrite (find_struct_loop_body file name body (closing :: after) Hbody).
    by rewrite find_struct_loop_fields, Hclose.
  - intros before header body bad after -> Hpre Hhdr Hbody Hbad.
    rewrite find_struct_loop_pre by done. cbn [find_struct_loop]. rewrite Hhdr.
    rewrite (find_struct_loop_body file name body (bad :: after) Hbody).
    rewrite find_struct_loop_fields, Hbad. do 3 f_equal. lia.
  - apply find_struct_loop_not_found.
  - intros before header body -> Hpre Hhdr Hbody.
    rewrite find_struct_loop_pre by done. cbn [find_struct_loop]. rewrite Hhdr.
    rewrite <- (app_nil_r body).
    by rewrite (find_struct_loop_body file name body [] Hbody).
  - intros line. unfold classify.
    destruct (String.eqb_spec (Py.strip line) "}") as [E1|E1].
    { split; [done|]. split; [|by intuition].
      split; [done|]. intros E2. by rewrite E2 in E1. }
    destruct (String.eqb_spec (Py.strip line) EmptyString) as [E2|E2].
    { split; [done|]. split; [done|]. by intuition. }
    destruct (Py.startswith line (T +:+ "//")) eqn:E3.
    { by intuition. }
    repeat case_match; by intuition.
Qed.

Lemma find_struct_spec_witness :
  find_struct read_file0 "structs.go" "WidgetV1"
    = Ok ([("Name", "*string", "name"); ("Size", "int", "size")], [])
  ∧ find_struct read_file0 "structs.go" "NoSuchV1"
    = Err (AssertionError (NoStructDefinition "NoSuchV1" "structs.go")).
Proof.
  destruct (find_struct_spec read_file0 "structs.go" "WidgetV1" structs_go eq_refl)
    as (Hfound & _).
  destruct (find_struct_spec read_file0 "structs.go" "NoSuchV1" structs_go eq_refl)
    as (_ & _ & Hnone & _).
  pose (L := Py.readlines structs_go).
  split.
  - rewrite (Hfound (take 4 L) (default EmptyString (L !! 4)) (take 4 (drop 5 L))
               (default EmptyString (L !! 9)) (drop 10 L)).
    + reflexivity.
    + vm_compute. reflexivity.
    + compute_done.
    + reflexivity.
    + compute_done.
    + reflexivity.
  - apply Hnone. compute_done.
Defined.

(** C6, as stated, fails: the bodies below hold one comment-only line
    each, which the statement has skipped; the code stops on it with the
    cannot-classify error, because the line does not start with a tab
    followed by two slashes. *)
Lemma comment_line_is_not_skipped :
  Py.readlines commented_go
    = ["type NoteV1 struct {" +:+ NL; "// not indented" +:+ NL; "}" +:+ NL]
  ∧ find_struct read_file0 "commented.go" "NoteV1"
    = Err (AssertionError (UnsureLine 1 "// not indented"))
  ∧ Py.readlines block_commented_go
    = ["type NoteV1 struct {" +:+ NL; T +:+ "/* a block comment */" +:+ NL; "}" +:+ NL]
  ∧ find_struct read_file0 "block_commented.go" "NoteV1"
    = Err (AssertionError (UnsureLine 1 (T +:+ "/* a block comment */"))).
Proof. repeat split. Qed.

(** ** Sorting *)

Lemma ltb_compare (a b : string) : String.ltb a b = true ↔ String.compare a b = Lt.
Proof. unfold String.ltb. by destruct (String.compare a b). Qed.

Lemma ltb_false_le (a b : string) : String.ltb b a = false ↔ String.le a b.
Proof.
  unfold String.le, String.leb, String.ltb.
  rewrite (String.compare_antisym a b).
  destruct (String.compare b a); cbn; split; done.
Qed.

Lemma ltb_irrefl (a : string) : String.ltb a a = false.
Proof. by apply ltb_false_le. Qed.

Lemma ltb_asym (a b : string) : String.ltb a b = true → String.ltb b a = false.
Proof.
  rewrite !ltb_compare, (String.compare_antisym a b).
  unfold String.ltb. by destruct (String.compare b a).
Qed.

Lemma ltb_le_ne (a b : string) : String.ltb a b = true ↔ String.le a b ∧ a ≠ b.
Proof.
  split.
  - intros H. split.
    + by apply ltb_false_le, ltb_asym.
    + intros ->. by rewrite ltb_irrefl in H.
  - intros [Hle Hne]. apply ltb_false_le in Hle.
    destruct (String.ltb a b) eqn:E; [done|]. apply ltb_false_le in E.
    apply ltb_false_le in Hle. destruct Hne. by apply (anti_symm String.le).
Qed.

Lemma ltb_trans (a b c : string) :
  String.ltb a b = true → String.ltb b c = true → String.ltb a c = true.
Proof.
  rewrite !ltb_le_ne. intros [H1 N1] [H2 N2]. split; [by etrans|].
  intros ->. apply N1. by apply (anti_symm String.le).
Qed.

Lemma ltb_total (a b : string) : a ≠ b → String.ltb a b = false → String.ltb b a = true.
Proof.
  intros Hne H. apply ltb_le_ne. split; [by apply ltb_false_le|done].
Qed.

Global Instance name_lt_trans : Transitive name_lt.
Proof. intros a b c. apply ltb_trans. Qed.

Global Instance url_le_trans : Transitive url_le.
Proof. intros a b c. unfold url_le. apply transitivity. Qed.

Lemma Sorted_mono {A} (R R' : relation A) (l : list A) :
  (∀ a b, R a b → R' a b) → Sorted R l → Sorted R' l.
Proof.
  intros H. induction 1 as [|x l _ IH Hhd]; constructor; [done|].
  destruct Hhd; constructor. by apply H.
Qed.

Section sort_by.
Context {A : Type} (lt : A → A → bool).

Lemma insert_by_Permutation (x : A) (l : list A) : insert_by lt x l ≡ₚ x :: l.
Proof.
  induction l as [|y l IH]; cbn; [done|].
  destruct (lt x y); [done|]. by rewrite IH, Permutation_swap.
Qed.

Lemma sort_by_acc_Permutation (l acc : list A) :
  foldl (fun acc x => insert_by lt x acc) acc l ≡ₚ acc ++ l.
Proof.
  revert acc. induction l as [|x l IH]; intros acc; cbn.
  - by rewrite app_nil_r.
  - rewrite IH, insert_by_Permutation. cbn. apply Permutation_middle.
Qed.

Lemma sort_by_Permutation (l : list A) : sort_by lt l ≡ₚ l.
Proof. unfold sort_by. by rewrite sort_by_acc_Permutation. Qed.

(** Sortedness for a relation [R] that [lt] decides between the element
    inserted and the elements that are there. *)
Lemma insert_by_Sorted (R : relation A) (x : A) (l : list A) :
  (∀ y, y ∈ l → if lt x y then R x y else R y x) →
  Sorted R l → Sorted R (insert_by lt x l).
Proof.
  intros HR Hs. induction Hs as [|y l Hs IH Hhd]; cbn.
  - by repeat constructor.
  - pose proof (HR y ltac:(by left)) as Hy.
    destruct (lt x y).
    + constructor; [by constructor|by constructor].
    + constructor.
      * apply IH. intros z Hz. apply HR. by right.
      * destruct Hhd as [|z l Hz]; cbn; [by constructor|].
        destruct (lt x z); by constructor.
Qed.

Lemma sort_by_acc_Sorted (R : relation A) (l acc : list A) :
  (∀ x y, x ∈ l → y ∈ acc → if lt x y then R x y else R y x) →
  ForallOrdPairs (fun y x => if lt x y then R x y else R y x) l →
  Sorted R acc →
  Sorted R (foldl (fun acc x => insert_by lt x acc) acc l).
Proof.
  revert acc. induction l as [|x l IH]; intros acc Hacc Hl Hs; cbn; [done|].
  inversion_clear Hl as [|? ? Hx Hl'].
  apply IH; [|done|].
  - intros x' y Hx' Hy. rewrite insert_by_Permutation in Hy.
    apply elem_of_cons in Hy as [->|Hy].
    + rewrite Forall_forall in Hx. by apply Hx.
    + apply Hacc; [by right|done].
  - apply insert_by_Sorted; [|done]. intros y Hy. apply Hacc; [by left|done].
Qed.

Lemma sort_by_Sorted_pairs (R : relation A) (l : list A) :
  ForallOrdPairs (fun y x => if lt x y then R x y else R y x) l →
  Sorted R (sort_by lt l).
Proof.
  intros H. apply sort_by_acc_Sorted; [|done|constructor].
  intros x y _ Hy. by apply elem_of_nil in Hy.
Qed.

Lemma ForallOrdPairs_all (P : A → A → Prop) (l : list A) :
  (∀ x y, P x y) → ForallOrdPairs P l.
Proof.
  intros H. induction l; constructor; [|done]. by apply Forall_forall.
Qed.

Lemma ForallOrdPairs_NoDup (P : A → A → Prop) (l : list A) :
  NoDup l → (∀ x y, x ∈ l → y ∈ l → x ≠ y → P x y) → ForallOrdPairs P l.
Proof.
  induction 1 as [|x l Hx Hnd IH]; intros H; constructor.
  - apply Forall_forall. intros y Hy. apply H; [by left|by right|].
    intros ->. done.
  - apply IH. intros a b Ha Hb. apply H; by right.
Qed.

(** With an asymmetric [lt], the result is sorted for [not_after lt]. *)
Lemma sort_by_Sorted (l : list A) :
  (∀ a b, lt a b = true → lt b a = false) →
  Sorted (not_after lt) (sort_by lt l).
Proof.
  intros Hasym. apply sort_by_Sorted_pairs, ForallOrdPairs_all.
  intros y x. unfold not_after. destruct (lt x y) eqn:E; [by apply Hasym|done].
Qed.

(** Two lists with the same elements sort to the same list, when [lt]
    cannot tell two elements apart only if they are equal. *)
Lemma sort_by_unique (l1 l2 : list A) :
  (∀ a b, lt a b = true → lt b a = false) →
  Transitive (not_after lt) →
  (∀ x y, x ∈ l1 → y ∈ l1 → lt x y = false → lt y x = false → x = y) →
  l1 ≡ₚ l2 →
  sort_by lt l1 = sort_by lt l2.
Proof.
  intros Hasym Htrans Heq Hperm.
  apply (Sorted_unique_strong (not_after lt)); [| by apply sort_by_Sorted..|].
  - intros x y Hx Hy Hxy Hyx. rewrite sort_by_Permutation in Hx.
    rewrite sort_by_Permutation, <- Hperm in Hy. by apply Heq.
  - by rewrite !sort_by_Permutation.
Qed.
End sort_by.

(** ** Traversals *)

Lemma mapM_cons_Ok {A B} (f : A → result B) (x : A) (l : list A) (ys : list B) :
  mapM f (x :: l) = Ok ys ↔ ∃ y ys', f x = Ok y ∧ mapM f l = Ok ys' ∧ ys = y :: ys'.
Proof.
  cbn. split.
  - destruct (f x) as [y|]; [|done]. rewrite bind_Ok.
    destruct (mapM f l) as [ys'|]; [|done]. rewrite bind_Ok.
    intros [= <-]. by eexists _, _.
  - intros (y & ys' & -> & -> & ->). done.
Qed.

Lemma mapM_Forall2 {A B} (f : A → result B) (l : list A) (ys : list B) :
  mapM f l = Ok ys ↔ Forall2 (fun x y => f x = Ok y) l ys.
Proof.
  revert ys. induction l as [|x l IH]; intros ys.
  - cbn. split; [by intros [= <-]; constructor|by inversion 1].
  - rewrite mapM_cons_Ok. split.
    + intros (y & ys' & Hy & Hys & ->). constructor; [done|by apply IH].
    + inversion 1 as [|? y ? ys' Hy Hys]; subst. exists y, ys'. by rewrite IH.
Qed.

Lemma mapM_elem_of {A B} (f : A → result B) (l : list A) (ys : list B) (y : B) :
  mapM f l = Ok ys → y ∈ ys → ∃ x, x ∈ l ∧ f x = Ok y.
Proof.
  revert ys. induction l as [|a l IH]; intros ys.
  - intros [= <-] Hy. by apply elem_of_nil in Hy.
  - rewrite mapM_cons_Ok. intros (b & ys' & Hb & Hys & ->) Hy.
    apply elem_of_cons in Hy as [->|Hy].
    + exists a. split; [by left|done].
    + destruct (IH _ Hys Hy) as (x & Hx & Hf). exists x. split; [by right|done].
Qed.

Lemma mapM_Permutation {A B} (f : A → result B) (l1 l2 : list A) :
  l1 ≡ₚ l2 →
  ∀ ys1, mapM f l1 = Ok ys1 → ∃ ys2, mapM f l2 = Ok ys2 ∧ ys1 ≡ₚ ys2.
Proof.
  induction 1 as [|x l1 l2 _ IH|x y l|l1 l2 l3 _ IH1 _ IH2]; intros ys1.
  - intros [= <-]. by exists [].
  - rewrite mapM_cons_Ok. intros (y & ys' & Hy & Hys & ->).
    destruct (IH _ Hys) as (ys2 & H2 & Hp).
    exists (y :: ys2). split; [|by constructor].
    apply mapM_cons_Ok. by eexists _, _.
  - rewrite mapM_cons_Ok. intros (b & ys' & Hb & Hys & ->).
    apply mapM_cons_Ok in Hys as (a & ys'' & Ha & Hys & ->).
    exists (a :: b :: ys''). split; [|by constructor].
    apply mapM_cons_Ok. eexists _, _. split; [done|]. split; [|done].
    apply mapM_cons_Ok. by eexists _, _.
  - intros H1. destruct (IH1 _ H1) as (ys2 & H2 & Hp12).
    destruct (IH2 _ H2) as (ys3 & H3 & Hp23).
    exists ys3. split; [done|by etrans].
Qed.

Lemma mapM_all_Ok {A B} (f : A → result B) (g : A → B) (l : list A) :
  (∀ x, x ∈ l → f x = Ok (g x)) → mapM f l = Ok (map g l).
Proof.
  induction l as [|x l IH]; intros H; [done|].
  cbn. rewrite H by (by left). rewrite bind_Ok, IH; [done|].
  intros y Hy. apply H. by right.
Qed.

(** A traversal fails with the error of one of the elements. *)
Lemma mapM_some_Err {A B} (f : A → result B) (l : list A) (x : A) (e : exn) :
  x ∈ l → f x = Err e → ∃ x' e', x' ∈ l ∧ f x' = Err e' ∧ mapM f l = Err e'.
Proof.
  induction l as [|a l IH]; intros Hx Hf; [by apply elem_of_nil in Hx|].
  cbn. destruct (f a) as [b|ea] eqn:Ea.
  - apply elem_of_cons in Hx as [->|Hx]; [congruence|].
    destruct (IH Hx Hf) as (x' & e' & Hx' & Hf' & Hm).
    exists x', e'. split; [by right|]. split; [done|]. by rewrite bind_Ok, Hm.
  - exists a, ea. split; [by left|]. done.
Qed.

(** ** The schema loader *)

Lemma url_lt_asym (a b : Schema) : url_lt a b = true → url_lt b a = false.
Proof. apply ltb_asym. Qed.

Global Instance not_after_url_lt_trans : Transitive (not_after url_lt).
Proof.
  intros a b c. unfold not_after, url_lt. rewrite !ltb_false_le. apply transitivity.
Qed.

Lemma read_schema_file_url json_loads HERE relpath read_file (file : string) (s : Schema) :
  read_schema_file json_loads HERE relpath read_file file = Ok s →
  url s = url_of_file HERE relpath file.
Proof.
  unfold read_schema_file. destruct (open_read read_file file) as [t|]; [|done].
  rewrite bind_Ok. intros (? & ? & _ & _ & Hu & _)%Schema_init_golang_title. done.
Qed.

(** The schemas that are read come out sorted by URL. *)
Lemma read_schemas_Sorted json_loads HERE relpath read_file
    (paths : list string) (schemas : list Schema) :
  read_schemas json_loads HERE relpath read_file paths = Ok schemas →
  Sorted url_le schemas.
Proof.
  unfold read_schemas.
  destruct (mapM _ paths) as [l|]; [|done]. rewrite bind_Ok. intros [= <-].
  eapply Sorted_mono; [|apply sort_by_Sorted, url_lt_asym].
  intros a b. unfold not_after, url_lt, url_le. by rewrite ltb_false_le.
Qed.

Lemma read_schemas_Permutation json_loads HERE relpath read_file
    (paths1 paths2 : list string) (schemas : list Schema) :
  paths1 ≡ₚ paths2 →
  (∀ f g, f ∈ paths1 → g ∈ paths1 →
          url_of_file HERE relpath f = url_of_file HERE relpath g →
          read_file f = read_file g) →
  read_schemas json_loads HERE relpath read_file paths1 = Ok schemas →
  read_schemas json_loads HERE relpath read_file paths2 = Ok schemas.
Proof.
  intros Hperm Hsame. unfold read_schemas.
  destruct (mapM _ paths1) as [l1|] eqn:E1; [|done]. rewrite bind_Ok. intros [= <-].
  destruct (mapM_Permutation _ _ _ Hperm _ E1) as (l2 & -> & Hl). rewrite bind_Ok.
  f_equal. symmetry. apply sort_by_unique; [apply url_lt_asym|apply _| |done].
  intros x y Hx Hy Hxy Hyx.
  destruct (mapM_elem_of _ _ _ _ E1 Hx) as (f & Hf & Ef).
  destruct (mapM_elem_of _ _ _ _ E1 Hy) as (g & Hg & Eg).
  assert (url x = url y) as Hu.
  { unfold url_lt in *. apply ltb_false_le in Hxy, Hyx.
    by apply (anti_symm String.le). }
  rewrite (read_schema_file_url _ _ _ _ _ _ Ef),
          (read_schema_file_url _ _ _ _ _ _ Eg) in Hu.
  pose proof (Hsame f g Hf Hg Hu) as Hr.
  unfold read_schema_file, open_read in Ef, Eg. rewrite Hu, Hr in Ef.
  destruct (read_file g) as [t|]; [|done].
  rewrite bind_Ok in Ef, Eg. rewrite Ef in Eg. by simplify_eq.
Qed.

(** ** The union resolver *)

Lemma elem_of_common_fields (f : string) (m0 : gmap string string)
    (rest : list (gmap string string)) :
  f ∈ common_fields_of m0 rest ↔ ∀ m, m ∈ m0 :: rest → is_Some (m !! f).
Proof.
  unfold common_fields_of.
  assert (∀ X : gset string,
            f ∈ foldl (fun acc m => acc ∩ dom m) X rest
            ↔ f ∈ X ∧ ∀ m, m ∈ rest → is_Some (m !! f)) as H.
  { induction rest as [|m rest IH]; intros X; cbn.
    - split; [|by intros [? _]]. intros ?. split; [done|].
      intros m Hm. by apply elem_of_nil in Hm.
    - rewrite IH, elem_of_intersection, elem_of_dom. split.
      + intros [[HX Hm] Hrest]. split; [done|].
        intros m' [->|Hm']%elem_of_cons; [done|by apply Hrest].
      + intros [HX Hall]. split; [split; [done|]|].
        * apply Hall. by left.
        * intros m' Hm'. apply Hall. by right. }
  rewrite H, elem_of_dom. split.
  - intros [H0 Hrest] m [->|Hm]%elem_of_cons; [done|by apply Hrest].
  - intros Hall. split; [apply Hall; by left|].
    intros m Hm. apply Hall. by right.
Qed.

Lemma member_type_Ok (f t : string) (m : gmap string string) :
  member_type f m = Ok t ↔ m !! f = Some t.
Proof. unfold member_type. destruct (m !! f); naive_solver. Qed.

Lemma elem_of_observed_types (f t : string) (psm : list (gmap string string)) :
  t ∈ observed_types f psm ↔ ∃ m, m ∈ psm ∧ m !! f = Some t.
Proof. unfold observed_types. by rewrite elem_of_list_to_set, list_elem_of_omap. Qed.

Lemma mapM_member_type (f : string) (psm : list (gmap string string)) :
  (∀ m, m ∈ psm → is_Some (m !! f)) →
  mapM (member_type f) psm = Ok (omap (fun m : gmap string string => m !! f) psm).
Proof.
  induction psm as [|m psm IH]; intros H; [done|].
  cbn. destruct (H m ltac:(by left)) as [t Ht].
  rewrite (proj2 (member_type_Ok f t m) Ht), Ht, bind_Ok, IH; [done|].
  intros m' Hm'. apply H. by right.
Qed.

Lemma check_field_types_common (union_types : list string)
    (psm : list (gmap string string)) (f : string) :
  (∀ m, m ∈ psm → is_Some (m !! f)) →
  check_field_types union_types psm f
  = if negb (size (observed_types f psm) =? 1)
    then Err (AssertionError (MultipleTypes f (observed_types f psm) union_types))
    else Ok tt.
Proof.
  intros H. unfold check_field_types. by rewrite mapM_member_type, bind_Ok.
Qed.

(** The members agree on the type of a common field exactly when one type
    is observed. *)
Lemma observed_types_agree (f : string) (psm : list (gmap string string)) :
  psm ≠ [] →
  (∀ m, m ∈ psm → is_Some (m !! f)) →
  size (observed_types f psm) = 1 ↔ ∃ t, ∀ m, m ∈ psm → m !! f = Some t.
Proof.
  intros Hne Hall. split.
  - intros (t & Ht)%size_1_elem_of. exists t. intros m Hm.
    destruct (Hall m Hm) as [t' Ht']. rewrite Ht'. f_equal.
    assert (t' ∈ observed_types f psm) as Hin.
    { apply elem_of_observed_types. eauto. }
    rewrite Ht in Hin. by apply elem_of_singleton in Hin.
  - intros [t Ht]. assert (observed_types f psm ≡ {[t]}) as ->.
    { intros t'. rewrite elem_of_observed_types, elem_of_singleton. split.
      - intros (m & Hm & Hf). rewrite (Ht m Hm) in Hf. by simplify_eq.
      - intros ->. destruct psm as [|m psm]; [done|].
        exists m. split; [by left|]. apply Ht. by left. }
    apply size_singleton.
Qed.

Lemma item_lt_names (x y : string * string) :
  fst x ≠ fst y → if item_lt x y then name_lt x y else name_lt y x.
Proof.
  intros Hne. unfold item_lt, name_lt.
  destruct (String.eqb_spec (fst x) (fst y)) as [|_]; [done|].
  rewrite andb_false_l, orb_false_r.
  destruct (String.ltb (fst x) (fst y)) eqn:E; [done|]. by apply ltb_total.
Qed.

(** The items of a dict with distinct keys come out of [sorted] in the
    strict order of the keys. *)
Lemma sort_items_Sorted (g : string → string) (names : list string) :
  NoDup names →
  StronglySorted name_lt (sort_by item_lt (map (fun f => (f, g f)) names)).
Proof.
  intros Hnd. apply Sorted_StronglySorted; [apply _|].
  apply sort_by_Sorted_pairs, ForallOrdPairs_NoDup.
  - assert (Inj (=) (=) (fun f => (f, g f))) by (by intros a b [= ->]).
    by apply (NoDup_fmap_2 (fun f => (f, g f))).
  - intros x y (fx & -> & _)%list_elem_of_fmap (fy & -> & _)%list_elem_of_fmap Hne.
    apply item_lt_names. cbn. intros ->. done.
Qed.

Lemma name_lt_asym (x y : string * string) : name_lt x y → name_lt y x → False.
Proof.
  unfold name_lt. intros H1 H2. apply ltb_asym in H1. congruence.
Qed.

Section common_members.
Variable iter_order : gset string → list string.
Hypothesis iter_order_elements : ∀ X, iter_order X ≡ₚ elements X.

Lemma elem_of_iter_order (f : string) (X : gset string) : f ∈ iter_order X ↔ f ∈ X.
Proof. by rewrite iter_order_elements, elem_of_elements. Qed.

Lemma NoDup_iter_order (X : gset string) : NoDup (iter_order X).
Proof. rewrite iter_order_elements. apply NoDup_elements. Qed.

Lemma items_of_common (m0 : gmap string string) (names : list string) :
  (∀ f, f ∈ names → is_Some (m0 !! f)) →
  mapM (fun field => t ← member_type field m0; Ok (field, t)) names
  = Ok (map (fun f => (f, default EmptyString (m0 !! f))) names).
Proof.
  intros H. apply mapM_all_Ok. intros f Hf. destruct (H f Hf) as [t Ht].
  by rewrite (proj2 (member_type_Ok f t m0) Ht), Ht.
Qed.

(** The second half of the resolver, by cases on the types observed for
    the common names. *)
Lemma common_members_of_spec (union_types : list string) (m0 : gmap string string)
    (rest : list (gmap string string)) :
  let psm := m0 :: rest in
  let common := iter_order (common_fields_of m0 rest) in
  ((∃ f, f ∈ common ∧ size (observed_types f psm) ≠ 1) →
     ∃ f, f ∈ common ∧ size (observed_types f psm) ≠ 1
          ∧ common_members_of iter_order union_types psm
            = Err (AssertionError (MultipleTypes f (observed_types f psm) union_types)))
  ∧ ((∀ f, f ∈ common → size (observed_types f psm) = 1) →
     common_members_of iter_order union_types psm
     = Ok (sort_by item_lt (map (fun f => (f, default EmptyString (m0 !! f))) common))).
Proof.
  unfold common_members_of. cbv beta iota zeta.
  set (psm := m0 :: rest). set (common := iter_order (common_fields_of m0 rest)).
  assert (∀ f, f ∈ common → ∀ m, m ∈ psm → is_Some (m !! f)) as Hcommon.
  { intros f Hf. by apply elem_of_common_fields, elem_of_iter_order. }
  split.
  - intros (f & Hf & Hsize).
    assert (check_field_types union_types psm f
            = Err (AssertionError (MultipleTypes f (observed_types f psm) union_types)))
      as Hcheck.
    { rewrite check_field_types_common by auto.
      by destruct (Nat.eqb_spec (size (observed_types f psm)) 1). }
    destruct (mapM_some_Err _ _ _ _ Hf Hcheck) as (f' & e' & Hf' & He' & Hm).
    exists f'. split; [done|].
    rewrite check_field_types_common in He' by auto.
    destruct (Nat.eqb_spec (size (observed_types f' psm)) 1) as [|Hne]; [done|].
    split; [done|]. cbn in He'. injection He' as <-.
    by rewrite Hm.
  - intros Hall.
    rewrite (mapM_all_Ok _ (fun _ => tt)).
    + rewrite bind_Ok, items_of_common; [done|].
      intros f Hf. apply (Hcommon f Hf). by left.
    + intros f Hf. rewrite check_field_types_common by auto.
      by rewrite (Hall f Hf).
Qed.
End common_members.

Lemma mapM_app_Err {A B} (f : A → result B) (done_ rest : list A) (x : A)
    (ys : list B) (e : exn) :
  mapM f done_ = Ok ys → f x = Err e → mapM f (done_ ++ x :: rest) = Err e.
Proof.
  revert ys. induction done_ as [|a l IH]; intros ys; cbn.
  - intros _ ->. done.
  - destruct (f a) as [b|]; [|done]. rewrite !bind_Ok.
    destruct (mapM f l) as [ys'|] eqn:E; [|done].
    intros _ Hx. by rewrite (IH _ eq_refl Hx).
Qed.

(** The dict of a member holds, under the name of each of its fields, the
    type that [get_defaulted_type] returns for a field of that name. *)
Lemma members_of_lookup (s : Schema) (spec : list FieldSpec) (m : gmap string string) :
  members_of s spec = Ok m →
  (∀ f t, m !! f = Some t →
     ∃ ty tag d r, (f, ty, tag) ∈ spec ∧ get_defaulted_type s tag ty = Ok (t, d, r))
  ∧ (∀ f ty tag, (f, ty, tag) ∈ spec → is_Some (m !! f)).
Proof.
  unfold members_of.
  assert (∀ acc : gmap string string,
    foldM (fun (members : gmap string string) (f : FieldSpec) =>
             let '(field, type, tag) := f in
             '(type', _, _) ← get_defaulted_type s tag type;
             Ok (<[field := type']> members)) acc spec = Ok m →
    (∀ f t, m !! f = Some t →
       acc !! f = Some t
       ∨ ∃ ty tag d r, (f, ty, tag) ∈ spec ∧ get_defaulted_type s tag ty = Ok (t, d, r))
    ∧ (∀ f, is_Some (acc !! f) ∨ (∃ ty tag, (f, ty, tag) ∈ spec) → is_Some (m !! f)))
    as H.
  { induction spec as [|[[field ty] tag] spec IH]; intros acc; cbn.
    - intros [= <-]. split; [by left|].
      intros f [?|(? & ? & []%elem_of_nil)]. done.
    - destruct (get_defaulted_type s tag ty) as [[[t' d] r]|] eqn:E; [|done].
      cbn. intros Hm.
      destruct (IH _ Hm) as [IH1 IH2]. split.
      + intros f t Hf. destruct (IH1 f t Hf) as [Hacc|(ty' & tag' & d' & r' & Hin & Hg)].
        * destruct (decide (field = f)) as [->|Hne].
          -- rewrite lookup_insert_eq in Hacc. injection Hacc as ->.
             right. exists ty, tag, d, r. split; [by left|done].
          -- rewrite lookup_insert_ne in Hacc by done. by left.
        * right. exists ty', tag', d', r'. split; [by right|done].
      + intros f Hf. apply IH2.
        destruct (decide (field = f)) as [->|Hne].
        * left. rewrite lookup_insert_eq. by eexists.
        * destruct Hf as [Hf|(ty' & tag' & Hin)].
          -- left. by rewrite lookup_insert_ne.
          -- apply elem_of_cons in Hin as [[= -> -> ->]|Hin]; [done|].
             right. by exists ty', tag'. }
  intros Hm. destruct (H ∅ Hm) as [H1 H2]. split.
  - intros f t Hf. destruct (H1 f t Hf) as [Hempty|?]; [|done].
    by rewrite lookup_empty in Hempty.
  - intros f ty tag Hin. apply H2. right. by exists ty, tag.
Qed.

(** C4.  For a union with at least one member, [get_union_common_members]
    resolves the members in order, each through its schema and its struct,
    and stops at the first member that has union fields of its own; the
    dict of a member maps the name of each field to its type after
    defaulting.  Once every member is resolved: if the members disagree on
    the type of a name they all have, the call fails with such a name, all
    the types observed for it and the list of the members; if they agree
    on every such name, the call returns the pairs of a name that every
    member has and the type they agree on, in the strict order of the
    names. *)
Theorem common_members_spec json_loads HERE relpath listdir read_file iter_order
    (file package : string) (union_types : list string) :
  (∀ X, iter_order X ≡ₚ elements X) →
  union_types ≠ [] →
  let resolve :=
    variant_members json_loads HERE relpath listdir read_file file package in
  let run :=
    get_union_common_members json_loads HERE relpath listdir read_file iter_order
      file package union_types in
  (∀ resolved struct rest ms s spec union,
     union_types = resolved ++ struct :: rest →
     mapM resolve resolved = Ok ms →
     find_schema json_loads HERE relpath listdir read_file package struct = Ok s →
     find_struct read_file file struct = Ok (spec, union) →
     union ≠ [] →
     run = Err (AssertionError (NestedUnion struct)))
  ∧ (∀ struct s spec m,
     find_schema json_loads HERE relpath listdir read_file package struct = Ok s →
     find_struct read_file file struct = Ok (spec, []) →
     resolve struct = Ok m →
     (∀ f t, m !! f = Some t →
        ∃ ty tag d r, (f, ty, tag) ∈ spec ∧ get_defaulted_type s tag ty = Ok (t, d, r))
     ∧ (∀ f ty tag, (f, ty, tag) ∈ spec → is_Some (m !! f)))
  ∧ (∀ psm,
     mapM resolve union_types = Ok psm →
     ((∃ f, (∀ m, m ∈ psm → is_Some (m !! f))
            ∧ ¬ ∃ t, ∀ m, m ∈ psm → m !! f = Some t) →
        ∃ f, (∀ m, m ∈ psm → is_Some (m !! f))
             ∧ size (observed_types f psm) ≠ 1
             ∧ run = Err (AssertionError
                            (MultipleTypes f (observed_types f psm) union_types)))
     ∧ ((∀ f, (∀ m, m ∈ psm → is_Some (m !! f)) →
              ∃ t, ∀ m, m ∈ psm → m !! f = Some t) →
        ∃ l, run = Ok l
             ∧ StronglySorted name_lt l
             ∧ ∀ f t, (f, t) ∈ l ↔ ∀ m, m ∈ psm → m !! f = Some t)
     ∧ (∀ f t, t ∈ observed_types f psm ↔ ∃ m, m ∈ psm ∧ m !! f = Some t)).
Proof.
  intros Hio Hne resolve run. split; [|split].
  - intros resolved struct rest ms s spec union -> Hms Hs Hf Hu.
    unfold run, get_union_common_members. fold resolve.
    rewrite (mapM_app_Err resolve resolved rest struct ms
               (AssertionError (NestedUnion struct))); [done|done|].
    unfold resolve, variant_members. rewrite Hs, bind_Ok, Hf, bind_Ok.
    by destruct union.
  - intros struct s spec m Hs Hf. unfold resolve, variant_members.
    rewrite Hs, bind_Ok, Hf, bind_Ok. cbn. apply members_of_lookup.
  - intros psm Hpsm.
    assert (run = common_members_of iter_order union_types psm) as ->.
    { unfold run, get_union_common_members. fold resolve. by rewrite Hpsm. }
    destruct psm as [|m0 rest].
    { destruct union_types; [done|]. by apply mapM_cons_Ok in Hpsm as (? & ? & ? & ? & ?). }
    set (psm := m0 :: rest) in *.
    assert (psm ≠ []) as Hpsm_ne by done.
    assert (∀ f, f ∈ iter_order (common_fields_of m0 rest)
                 ↔ ∀ m, m ∈ psm → is_Some (m !! f)) as Hcommon.
    { intros f. by rewrite elem_of_iter_order, elem_of_common_fields. }
    destruct (common_members_of_spec iter_order Hio union_types m0 rest) as [Hbad Hgood].
    fold psm in Hbad, Hgood. split; [|split].
    + intros (f & Hall & Hdis).
      destruct Hbad as (f' & Hf' & Hsize & Hrun).
      { exists f. split; [by apply Hcommon|]. by rewrite observed_types_agree. }
      exists f'. split; [by apply Hcommon|done].
    + intros Hagree. eexists. split; [apply Hgood|split].
      * intros f Hf. apply observed_types_agree; [done|by apply Hcommon|].
        by apply Hagree, Hcommon.
      * apply sort_items_Sorted, NoDup_iter_order, Hio.
      * intros f t. rewrite sort_by_Permutation, list_elem_of_fmap. split.
        -- intros (f' & [= -> ->] & Hf').
           pose proof (proj1 (Hcommon _) Hf') as Hc.
           destruct (Hagree _ Hc) as [t Ht]. intros m Hm.
           rewrite (Ht m0) by (by left). cbn. by apply Ht.
        -- intros Hall. exists f. split.
           ++ by rewrite (Hall m0) by (by left).
           ++ apply Hcommon. intros m Hm. rewrite (Hall m Hm). by eexists.
    + intros f t. apply elem_of_observed_types.
Qed.

Lemma common_members_spec_witness :
  get_union_common_members json_loads0 here relpath0 listdir0 read_file0 elements
    "structs.go" "expconf" ["WidgetV1"; "ThingV1"]
  = Err (AssertionError (NestedUnion "ThingV1"))
  ∧ ∃ l, get_union_common_members json_loads0 here relpath0 listdir0 read_file0 elements
           "structs.go" "expconf" ["WidgetV1"; "GadgetV1"] = Ok l
         ∧ StronglySorted name_lt l
         ∧ ∀ f t, (f, t) ∈ l ↔
                  ∀ m, m ∈ [widget_members; gadget_members] → m !! f = Some t.
Proof.
  split.
  - destruct (common_members_spec json_loads0 here relpath0 listdir0 read_file0 elements
                "structs.go" "expconf" ["WidgetV1"; "ThingV1"]) as (Hnested & _);
      [done|done|].
    apply (Hnested ["WidgetV1"] "ThingV1" [] [widget_members]
             {| url := "http://determined.ai/schemas/expconf/v1/thing.json";
                text := "thing";
                schema := JObject [("title", JString "Thing"); ("properties", JObject [])];
                golang_title := "ThingV1";
                python_title := "thing_v1" |}
             [] thing_union); [reflexivity|by vm_compute|reflexivity|reflexivity|done].
  - destruct (common_members_spec json_loads0 here relpath0 listdir0 read_file0 elements
                "structs.go" "expconf" ["WidgetV1"; "GadgetV1"]) as (_ & _ & Hall);
      [done|done|].
    destruct (Hall [widget_members; gadget_members]) as (_ & Hagree & _);
      [by vm_compute|].
    apply Hagree. intros f Hf.
    assert (f ∈ dom widget_members ∩ dom gadget_members) as Hin.
    { apply elem_of_intersection. rewrite !elem_of_dom.
      split; apply Hf; [by left|by right; left]. }
    assert (dom widget_members ∩ dom gadget_members = ({["Name"]} : gset string)) as E
      by (by vm_compute).
    rewrite E in Hin. apply elem_of_singleton in Hin as ->.
    exists "string". intros m [->|[->|[]%elem_of_nil]%elem_of_cons]%elem_of_cons;
      reflexivity.
Defined.

(** ** Determinism *)

Lemma common_members_of_order (io1 io2 : gset string → list string)
    (union_types : list string) (psm : list (gmap string string))
    (members : list (string * string)) :
  (∀ X, io1 X ≡ₚ elements X) →
  (∀ X, io2 X ≡ₚ elements X) →
  common_members_of io1 union_types psm = Ok members →
  StronglySorted name_lt members
  ∧ common_members_of io2 union_types psm = Ok members.
Proof.
  intros H1 H2 Hrun. destruct psm as [|m0 rest]; [done|].
  destruct (common_members_of_spec io1 H1 union_types m0 rest) as [Hbad1 Hgood1].
  destruct (common_members_of_spec io2 H2 union_types m0 rest) as [_ Hgood2].
  cbv zeta in *.
  assert (∀ f, f ∈ io1 (common_fields_of m0 rest) →
               size (observed_types f (m0 :: rest)) = 1) as Hall.
  { intros f Hf. destruct (decide (size (observed_types f (m0 :: rest)) = 1)); [done|].
    destruct Hbad1 as (? & _ & _ & E); [by exists f|]. congruence. }
  rewrite (Hgood1 Hall) in Hrun. injection Hrun as <-.
  split; [apply sort_items_Sorted, NoDup_iter_order, H1|].
  rewrite Hgood2.
  - f_equal. apply (StronglySorted_unique_strong name_lt).
    + intros x y _ _ Hxy Hyx. destruct (name_lt_asym x y Hxy Hyx).
    + apply sort_items_Sorted, NoDup_iter_order, H2.
    + apply sort_items_Sorted, NoDup_iter_order, H1.
    + by rewrite !sort_by_Permutation, H1, H2.
  - intros f Hf. apply Hall. by rewrite elem_of_iter_order in Hf |- *.
Qed.

(** C5.  When the schema files are listed in another order, the schemas
    are read into the same list, sorted by URL, and the aggregate module
    is the same, line for line; files with the same URL are taken to hold
    the same text.  The common members of a union come out in the strict
    order of their names, whatever the order in which Python iterates
    over the set of the common names. *)
Theorem generation_is_order_independent json_loads HERE relpath listdir read_file
    (paths1 paths2 : list string) (schemas : list Schema) :
  paths1 ≡ₚ paths2 →
  (∀ f g, f ∈ paths1 → g ∈ paths1 →
          url_of_file HERE relpath f = url_of_file HERE relpath g →
          read_file f = read_file g) →
  read_schemas json_loads HERE relpath read_file paths1 = Ok schemas →
  read_schemas json_loads HERE relpath read_file paths2 = Ok schemas
  ∧ Sorted url_le schemas
  ∧ go_root_lines json_loads HERE relpath read_file paths1
    = Ok (gen_go_schemas_package schemas)
  ∧ go_root_lines json_loads HERE relpath read_file paths2
    = go_root_lines json_loads HERE relpath read_file paths1
  ∧ ∀ io1 io2 file package union_types members,
      (∀ X, io1 X ≡ₚ elements X) →
      (∀ X, io2 X ≡ₚ elements X) →
      get_union_common_members json_loads HERE relpath listdir read_file io1
        file package union_types = Ok members →
      StronglySorted name_lt members
      ∧ get_union_common_members json_loads HERE relpath listdir read_file io2
          file package union_types = Ok members.
Proof.
  intros Hperm Hsame Hread.
  pose proof (read_schemas_Permutation _ _ _ _ _ _ _ Hperm Hsame Hread) as Hread2.
  split; [done|]. split; [by eapply read_schemas_Sorted|].
  split; [unfold go_root_lines; by rewrite Hread|].
  split; [unfold go_root_lines; by rewrite Hread, Hread2|].
  intros io1 io2 file package union_types members H1 H2.
  unfold get_union_common_members.
  destruct (mapM _ union_types) as [psm|]; [|done]. rewrite !bind_Ok.
  by apply common_members_of_order.
Qed.

Lemma generation_is_order_independent_witness :
  read_schemas json_loads0 here relpath0 read_file0
    ["schemas/expconf/v1/gadget.json"; "schemas/expconf/ab/foo.json";
     "schemas/expconf/v1/widget.json"]
  = read_schemas json_loads0 here relpath0 read_file0
      ["schemas/expconf/v1/widget.json"; "schemas/expconf/v1/gadget.json";
       "schemas/expconf/ab/foo.json"]
  ∧ map url
      (match read_schemas json_loads0 here relpath0 read_file0
               ["schemas/expconf/v1/widget.json"; "schemas/expconf/v1/gadget.json";
                "schemas/expconf/ab/foo.json"] with
       | Ok l => l
       | Err _ => []
       end)
    = [ "http://determined.ai/schemas/expconf/ab/foo.json";
        "http://determined.ai/schemas/expconf/v1/gadget.json";
        "http://determined.ai/schemas/expconf/v1/widget.json" ].
Proof.
  split; [|reflexivity].
  destruct (read_schemas json_loads0 here relpath0 read_file0
              ["schemas/expconf/v1/widget.json"; "schemas/expconf/v1/gadget.json";
               "schemas/expconf/ab/foo.json"]) as [l|e] eqn:E; [|by vm_compute in E].
  apply (generation_is_order_independent json_loads0 here relpath0 listdir0 read_file0
           ["schemas/expconf/v1/widget.json"; "schemas/expconf/v1/gadget.json";
            "schemas/expconf/ab/foo.json"]
           ["schemas/expconf/v1/gadget.json"; "schemas/expconf/ab/foo.json";
            "schemas/expconf/v1/widget.json"] l).
  - by rewrite (Permutation_cons_append _ "schemas/expconf/v1/widget.json").
  - intros f g Hf Hg.
    repeat (apply elem_of_cons in Hf as [->|Hf]); [| | |by apply elem_of_nil in Hf];
      repeat (apply elem_of_cons in Hg as [->|Hg]);
      try (by apply elem_of_nil in Hg); by vm_compute.
  - exact E.
Defined.

(** * More of the code *)

Global Arguments Re.rmatch : simpl never.

(** ** Texts *)

Lemma append_nil_r (s : string) : s +:+ EmptyString = s.
Proof.
  induction s as [|c s IH]; [done|].
  change (String c (s +:+ EmptyString) = String c s). by rewrite IH.
Qed.

Lemma append_cons (c : ascii) (s t : string) : String c s +:+ t = String c (s +:+ t).
Proof. reflexivity. Qed.

Lemma length_append (s t : string) :
  String.length (s +:+ t) = String.length s + String.length t.
Proof.
  induction s as [|c s IH]; [done|]. rewrite append_cons. cbn. by rewrite IH.
Qed.

Lemma substring_prefix (m rest : string) :
  String.substring 0 (String.length m) (m +:+ rest) = m.
Proof.
  induction m as [|c m IH].
  - cbn. by destruct rest.
  - rewrite append_cons. cbn. by rewrite IH.
Qed.

Lemma consumed_append (m rest : string) : Re.consumed (m +:+ rest) rest = m.
Proof.
  unfold Re.consumed. rewrite length_append.
  replace (String.length m + String.length rest - String.length rest)
    with (String.length m) by lia.
  apply substring_prefix.
Qed.

Lemma startswith_append (p rest : string) : Py.startswith (p +:+ rest) p = true.
Proof.
  induction p as [|c p IH]; [done|]. rewrite append_cons.
  change (Ascii.eqb c c && Py.startswith (p +:+ rest) p = true).
  by rewrite Ascii.eqb_refl, IH.
Qed.

Lemma startswith_inv (s p : string) :
  Py.startswith s p = true → ∃ rest, s = p +:+ rest.
Proof.
  revert s. induction p as [|c p IH]; intros s; [by exists s|].
  destruct s as [|d s]; [done|].
  change (Ascii.eqb c d && Py.startswith s p = true → ∃ rest, String d s = String c p +:+ rest).
  intros [Hc Hs]%andb_prop. apply Ascii.eqb_eq in Hc as ->.
  destruct (IH s Hs) as [rest ->]. by exists rest.
Qed.

Lemma all_chars_append (p : ascii → bool) (s t : string) :
  all_chars p (s +:+ t) = all_chars p s && all_chars p t.
Proof.
  induction s as [|c s IH]; [done|]. rewrite append_cons. cbn.
  by rewrite IH, andb_assoc.
Qed.

(** ** The matcher is sound *)

Lemma greedy_sound {R} (p : ascii → bool) (s : string) (k : string → option R) (res : R) :
  Re.greedy p s k = Some res →
  ∃ m rest, s = m +:+ rest ∧ all_chars p m = true ∧ k rest = Some res.
Proof.
  induction s as [|c s IH]; cbn.
  - intros H. by exists EmptyString, EmptyString.
  - destruct (p c) eqn:Hc; [|intros H; by exists EmptyString, (String c s)].
    destruct (Re.greedy p s k) as [r|] eqn:E.
    + intros [= ->]. destruct (IH eq_refl) as (m & rest & -> & Hm & Hk).
      exists (String c m), rest. cbn. by rewrite Hc, Hm.
    + intros H. by exists EmptyString, (String c s).
Qed.

(** What [run] hands to its continuation is the rest of the text after a
    prefix that the pattern matches, with the groups of that match. *)
Lemma run_sound {R} (r : Re.regex) :
  ∀ (s : string) (caps : list string) (k : string → list string → option R) (res : R),
    Re.run r s caps k = Some res →
    ∃ m rest gs, s = m +:+ rest ∧ matches r m gs ∧ k rest (caps ++ gs) = Some res.
Proof.
  induction r as [|c|p|r1 IH1 r2 IH2|p|p|r IH]; intros s caps k res; cbn.
  - intros H. exists EmptyString, s, []. rewrite app_nil_r.
    split; [done|]. split; [constructor|done].
  - destruct s as [|c' s]; [done|]. destruct (Ascii.eqb_spec c c') as [<-|]; [|done].
    intros H. exists (String c EmptyString), s, []. rewrite app_nil_r.
    split; [done|]. split; [constructor|done].
  - destruct s as [|c' s]; [done|]. destruct (p c') eqn:Hc; [|done].
    intros H. exists (String c' EmptyString), s, []. rewrite app_nil_r.
    split; [done|]. split; [by constructor|done].
  - intros H. apply IH1 in H as (m1 & rest1 & g1 & -> & M1 & H).
    apply IH2 in H as (m2 & rest2 & g2 & -> & M2 & H).
    exists (m1 +:+ m2), rest2, (g1 ++ g2).
    rewrite append_assoc, app_assoc. split; [done|]. split; [by constructor|done].
  - intros (m & rest & -> & Hm & H)%greedy_sound.
    exists m, rest, []. rewrite app_nil_r. split; [done|]. split; [by constructor|done].
  - destruct s as [|c' s]; [done|]. destruct (p c') eqn:Hc; [|done].
    intros (m & rest & -> & Hm & H)%greedy_sound.
    exists (String c' m), rest, []. rewrite app_nil_r. split; [done|].
    split; [|done]. constructor; [done|]. cbn. by rewrite Hc, Hm.
  - intros H. apply IH in H as (m & rest & g & -> & M & H).
    rewrite consumed_append in H.
    exists m, rest, (g ++ [m]). rewrite app_assoc.
    split; [done|]. split; [by constructor|done].
Qed.

Lemma rmatch_sound (r : Re.regex) (s : string) (caps : list string) :
  Re.rmatch r s = Some caps → ∃ m rest, s = m +:+ rest ∧ matches r m caps.
Proof.
  unfold Re.rmatch. intros (m & rest & gs & -> & M & H)%run_sound.
  cbn in H. injection H as <-. by exists m, rest.
Qed.

Lemma matches_lit (t m : string) (gs : list string) :
  matches (Re.lit t) m gs → m = t ∧ gs = [].
Proof.
  revert m gs. induction t as [|c t IH]; intros m gs; cbn.
  - by inversion 1.
  - inversion 1 as [| | |? ? m1 m2 g1 g2 M1 M2| | |]; subst.
    inversion M1; subst. apply IH in M2 as [-> ->]. done.
Qed.

Lemma matches_word (m : string) (gs : list string) :
  matches (Re.Group (Re.Plus Re.nonspace)) m gs → gs = [m] ∧ word m.
Proof.
  inversion 1 as [| | | | | |? ? g M]; subst. inversion M; subst. done.
Qed.

(** Inversion of a match of a pattern that is written out. *)
Ltac invert_matches :=
  repeat match goal with
    | H : matches (Re.lit _) _ _ |- _ => apply matches_lit in H as [-> ->]
    | H : matches (Re.Group (Re.Plus Re.nonspace)) _ _ |- _ =>
        apply matches_word in H as [-> ?]
    | H : matches (Re.Seq _ _) _ _ |- _ => inversion H; subst; clear H
    | H : matches Re.Eps _ _ |- _ => inversion H; subst; clear H
    | H : matches (Re.Chr _) _ _ |- _ => inversion H; subst; clear H
    | H : matches (Re.Star _) _ _ |- _ => inversion H; subst; clear H
    | H : matches (Re.Plus _) _ _ |- _ => inversion H; subst; clear H
    | H : matches (Re.Group _) _ _ |- _ => inversion H; subst; clear H
    end.

Lemma struct_re_shape (line : string) (caps : list string) :
  Re.rmatch struct_re line = Some caps →
  ∃ name rest,
    caps = [name] ∧ word name ∧ line = "type " +:+ name +:+ " struct" +:+ rest.
Proof.
  intros (m & rest & -> & M)%rmatch_sound.
  unfold struct_re, Re.seqs in M. cbn [foldr] in M. invert_matches.
  eexists _, rest. split; [reflexivity|]. split; [done|].
  by rewrite append_nil_r, !append_assoc.
Qed.

Lemma union_re_groups (line : string) (caps : list string) :
  Re.rmatch union_re line = Some caps → ∃ f t, caps = [f; t] ∧ word f ∧ word t.
Proof.
  intros (m & rest & -> & M)%rmatch_sound.
  unfold union_re, Re.seqs in M. cbn [foldr] in M. invert_matches.
  by eexists _, _.
Qed.

Lemma field_re_groups (line : string) (caps : list string) :
  Re.rmatch field_re line = Some caps →
  ∃ f t g, caps = [f; t; g] ∧ word f ∧ word t ∧ tag_text g.
Proof.
  intros (m & rest & -> & M)%rmatch_sound.
  unfold field_re, Re.seqs in M. cbn [foldr] in M. invert_matches.
  eexists _, _, _. split; [reflexivity|]. done.
Qed.

Lemma classify_union (line f t : string) :
  classify line = UnionLine f t → word f ∧ word t.
Proof.
  unfold classify. repeat case_match; try done.
  intros [= <- <-].
  match goal with H : Re.rmatch union_re _ = Some _ |- _ =>
    apply union_re_groups in H as (? & ? & [= -> ->] & ? & ?) end. done.
Qed.

Lemma classify_field (line f t g : string) :
  classify line = FieldLine f t g → word f ∧ word t ∧ tag_text g.
Proof.
  unfold classify. repeat case_match; try done.
  intros [= <- <- <-].
  match goal with H : Re.rmatch field_re _ = Some _ |- _ =>
    apply field_re_groups in H as (? & ? & ? & [= -> -> ->] & ? & ? & ?) end. done.
Qed.

(** ** The struct introspector, continued *)

Lemma find_struct_loop_words (file name : string) (lines : list string) :
  ∀ (state : scan_state) (fs0 : list FieldSpec) (us0 : list UnionSpec) (n : nat)
    (fs : list FieldSpec) (us : list UnionSpec),
    Forall (fun f : FieldSpec => word f.1.1 ∧ word f.1.2 ∧ tag_text f.2) fs0 →
    Forall (fun u : UnionSpec => word u.1 ∧ word u.2) us0 →
    find_struct_loop file name state fs0 us0 n lines = Ok (fs, us) →
    Forall (fun f : FieldSpec => word f.1.1 ∧ word f.1.2 ∧ tag_text f.2) fs
    ∧ Forall (fun u : UnionSpec => word u.1 ∧ word u.2) us.
Proof.
  induction lines as [|line lines IH]; intros state fs0 us0 n fs us Hfs Hus; [done|].
  destruct state.
  - cbn [find_struct_loop]. destruct (Py.startswith line _); by apply IH.
  - rewrite find_struct_loop_fields. destruct (classify line) eqn:E.
    + by intros [= <- <-].
    + by apply IH.
    + by apply IH.
    + apply IH; [done|]. apply Forall_app. split; [done|].
      constructor; [|done]. by apply (classify_union line).
    + apply IH; [|done]. apply Forall_app. split; [done|].
      constructor; [|done]. by apply (classify_field line).
    + done.
Qed.

(** X1.  Whatever the file holds, the fields [find_struct] returns have a
    name and a type that are not empty and hold no white space, and a tag
    that is not empty and holds neither a comma nor a double quote; the
    union fields have such a name and such a type. *)
Theorem find_struct_words (read_file : string → option string) (file name : string)
    (fs : list FieldSpec) (us : list UnionSpec) :
  find_struct read_file file name = Ok (fs, us) →
  Forall (fun f : FieldSpec => word f.1.1 ∧ word f.1.2 ∧ tag_text f.2) fs
  ∧ Forall (fun u : UnionSpec => word u.1 ∧ word u.2) us.
Proof.
  unfold find_struct. destruct (open_read read_file file) as [t|]; [|done].
  rewrite bind_Ok. by apply find_struct_loop_words.
Qed.

Lemma find_struct_words_witness :
  Forall (fun f : FieldSpec => word f.1.1 ∧ word f.1.2 ∧ tag_text f.2)
    [("Name", "*string", "name"); ("Size", "int", "size")]
  ∧ Forall (fun u : UnionSpec => word u.1 ∧ word u.2) [].
Proof.
  apply (find_struct_words read_file0 "structs.go" "WidgetV1"). reflexivity.
Defined.

Lemma next_struct_name_loop_first (file : string) (start : Z) (lines : list string) :
  ∀ (n : Z) (last : option string) (name : string),
    next_struct_name_loop file start n last lines = Ok name →
    ∃ before line rest,
      lines = before ++ line :: rest
      ∧ (start < n + Z.of_nat (length before))%Z
      ∧ (∃ tail, line = "type " +:+ name +:+ " struct" +:+ tail)
      ∧ word name
      ∧ ∀ i l, before !! i = Some l → (start < n + Z.of_nat i)%Z →
               Re.rmatch struct_re l = None.
Proof.
  induction lines as [|line lines IH]; intros n last name;
    cbn [next_struct_name_loop].
  - by destruct last.
  - destruct (Z.leb_spec n start) as [Hle|Hgt].
    + intros (before & l & rest & -> & Hlt & Hshape & Hw & Hfirst)%IH.
      exists (line :: before), l, rest. split; [done|]. cbn [length].
      split; [lia|]. split; [done|]. split; [done|].
      intros [|i] l' Hl' Hi; cbn in Hl'.
      * lia.
      * apply (Hfirst i l' Hl'). lia.
    + destruct (Re.rmatch struct_re line) as [caps|] eqn:E.
      * destruct (struct_re_shape _ _ E) as (nm & tail & -> & Hw & ->).
        intros [= <-].
        exists [], ("type " +:+ nm +:+ " struct" +:+ tail), lines.
        split; [done|]. cbn [length].
        split; [lia|]. split; [by exists tail|]. split; [done|].
        intros i l Hl. done.
      * intros (before & l & rest & -> & Hlt & Hshape & Hw & Hfirst)%IH.
        exists (line :: before), l, rest. split; [done|]. cbn [length].
        split; [lia|]. split; [done|]. split; [done|].
        intros [|i] l' Hl' Hi; cbn in Hl'.
        -- by injection Hl' as <-.
        -- apply (Hfirst i l' Hl'). lia.
Qed.

Lemma next_struct_name_loop_none (file : string) (start : Z) (lines : list string) :
  ∀ (n : Z) (last : option string),
    (n + Z.of_nat (length lines) ≤ start + 1)%Z →
    next_struct_name_loop file start n last lines
    = match last_error lines last with
      | Some l => Err (AssertionError (NoStructAfter file (Some l)))
      | None => Err UnboundLocalError
      end.
Proof.
  induction lines as [|line lines IH]; intros n last Hn;
    cbn [next_struct_name_loop].
  - by destruct last.
  - cbn [length] in Hn. destruct (Z.leb_spec n start) as [_|Hgt]; [|lia].
    rewrite IH by lia. by destruct lines.
Qed.

(** X2.  The name [next_struct_name] returns is the one of the first line
    after line [start] that the pattern matches: that line starts with
    [type <name> struct], the name is not empty and holds no white space,
    and no line between [start] and it is matched. *)
Theorem next_struct_name_first (read_file : string → option string)
    (file : string) (start : Z) (name : string) :
  next_struct_name read_file file start = Ok name →
  word name
  ∧ ∃ text before line rest,
      read_file file = Some text
      ∧ Py.readlines text = before ++ line :: rest
      ∧ (start < Z.of_nat (length before))%Z
      ∧ Py.startswith line (struct_header name) = true
      ∧ ∀ i l, before !! i = Some l → (start < Z.of_nat i)%Z →
               Re.rmatch struct_re l = None.
Proof.
  unfold next_struct_name, open_read.
  destruct (read_file file) as [text|]; [|done]. rewrite bind_Ok.
  intros (before & line & rest & E & Hlt & [tail ->] & Hw & Hfirst)%next_struct_name_loop_first.
  split; [done|].
  exists text, before, ("type " +:+ name +:+ " struct" +:+ tail), rest.
  split; [done|]. split; [done|]. split; [lia|]. split.
  - unfold struct_header. rewrite <- !append_assoc. apply startswith_append.
  - intros i l Hl Hi. apply (Hfirst i l Hl). lia.
Qed.

Lemma next_struct_name_first_witness :
  word "GadgetV1"
  ∧ ∃ text before line rest,
      read_file0 "structs.go" = Some text
      ∧ Py.readlines text = before ++ line :: rest
      ∧ (10 < Z.of_nat (length before))%Z
      ∧ Py.startswith line (struct_header "GadgetV1") = true
      ∧ ∀ i l, before !! i = Some l → (10 < Z.of_nat i)%Z →
               Re.rmatch struct_re l = None.
Proof.
  apply (next_struct_name_first read_file0 "structs.go" 10 "GadgetV1"). reflexivity.
Defined.

(** X3.  When no line comes after line [start], [next_struct_name] fails:
    with the assertion that quotes the last line of the file, and, for a
    file with no line at all, with the unbound-variable error instead. *)
Theorem next_struct_name_past_end (read_file : string → option string)
    (file text : string) (start : Z) :
  read_file file = Some text →
  (Z.of_nat (length (Py.readlines text)) ≤ start + 1)%Z →
  next_struct_name read_file file start
  = match Py.readlines text with
    | [] => Err UnboundLocalError
    | lines => Err (AssertionError (NoStructAfter file (Some (List.last lines EmptyString))))
    end.
Proof.
  intros Hread Hlen. unfold next_struct_name, open_read. rewrite Hread, bind_Ok.
  rewrite next_struct_name_loop_none by lia. by destruct (Py.readlines text).
Qed.

Lemma next_struct_name_past_end_witness :
  next_struct_name read_file0 "commented.go" 2
  = Err (AssertionError (NoStructAfter "commented.go" (Some ("}" +:+ NL)))).
Proof.
  apply (next_struct_name_past_end read_file0 "commented.go" commented_go 2);
    [reflexivity|by vm_compute].
Defined.

(** ** Names in snake case *)

Lemma isupper_lower_char (c : ascii) : Py.isupper (Py.lower_char c) = false.
Proof. by destruct c as [[] [] [] [] [] [] [] []]. Qed.


Lemma rev_app_cons (s acc : string) :
  acc ≠ EmptyString → ∃ c t, String.rev_app s acc = String c t.
Proof.
  revert acc. induction s as [|d s IH]; intros acc Hacc; cbn.
  - destruct acc; [done|]. by eexists _, _.
  - by apply IH.
Qed.




Lemma camel_to_snake_loop_eq (c0 c1 c2 : ascii) (rest : string) :
  camel_to_snake_loop (String c0 (String c1 (String c2 rest)))
  = (if Py.islower c0 && Py.isupper c1 then "_" else EmptyString)
    +:+ (if Py.isupper c0 && Py.isupper c1 && Py.islower c2 then "_" else EmptyString)
    +:+ Py.str1 (Py.lower_char c1)
    +:+ camel_to_snake_loop (String c1 (String c2 rest)).
Proof. reflexivity. Qed.

Lemma camel_to_snake_loop_lower (name : string) :
  all_chars (fun c => negb (Py.isupper c)) (camel_to_snake_loop name) = true.
Proof.
  induction name as [|c0 name IH]; [done|].
  destruct name as [|c1 [|c2 rest]]; [done..|].
  rewrite camel_to_snake_loop_eq, !all_chars_append, IH.
  cbn [all_chars Py.str1]. rewrite isupper_lower_char.
  by destruct (Py.islower c0 && Py.isupper c1),
              (Py.isupper c0 && Py.isupper c1 && Py.islower c2).
Qed.

(** A name that is not empty is converted, into a text in lower case. *)
Lemma camel_to_snake_nonempty (name : string) :
  name ≠ EmptyString →
  ∃ out, camel_to_snake name = Ok out
         ∧ all_chars (fun c => negb (Py.isupper c)) out = true
         ∧ 2 ≤ String.length out.
Proof.
  intros Hne.
  destruct name as [|c name]; [done|]. unfold camel_to_snake.
  cbn [first_char]. rewrite bind_Ok.
  destruct (last_char (String c name)) as [z|] eqn:Ez.
  - rewrite bind_Ok. eexists. split; [done|].
    rewrite !all_chars_append, camel_to_snake_loop_lower, !length_append.
    cbn. rewrite !isupper_lower_char. split; [done|lia].
  - unfold last_char, String.rev in Ez. cbn in Ez.
    destruct (rev_app_cons name (String c EmptyString)) as (d & t & E); [done|].
    by rewrite E in Ez.
Qed.

(** X4.  [camel_to_snake] fails, with [IndexError], on the empty name and
    on no other; what it returns holds no upper-case letter and has two
    characters at least. *)
Theorem camel_to_snake_lower (name : string) :
  (name = EmptyString → camel_to_snake name = Err IndexError)
  ∧ (name ≠ EmptyString →
     ∃ out, camel_to_snake name = Ok out
            ∧ all_chars (fun c => negb (Py.isupper c)) out = true
            ∧ 2 ≤ String.length out).
Proof.
  split; [by intros ->|]. apply camel_to_snake_nonempty.
Qed.

Lemma camel_to_snake_lower_witness :
  ∃ out, camel_to_snake "HTTPServerV1" = Ok out
         ∧ all_chars (fun c => negb (Py.isupper c)) out = true
         ∧ 2 ≤ String.length out.
Proof. by apply (camel_to_snake_lower "HTTPServerV1"). Defined.





(** ** The schema loader, continued *)

(** X6.  The outcomes of [Schema.__init__]: a text that is not JSON gives
    the value error that names the URL; a document that is not an object,
    or whose title is not a text, a type error; an object without a title
    the key error; and a titled object gives the schema whose struct name
    is the title followed by the upper case of the version, the letters
    of Latin-1 included, unless both are empty, when [camel_to_snake]
    raises its index error.  Nothing is said of a version whose upper
    case leaves the alphabet. *)
Theorem Schema_init_outcomes (json_loads : string → option json) (u t : string) :
  (json_loads t = None →
     Schema_init json_loads u t = Err (ValueError (u +:+ " is not a valid json file")))
  ∧ (∀ doc, json_loads t = Some doc →
       (∀ items, doc ≠ JObject items) →
       Schema_init json_loads u t = Err TypeError)
  ∧ (∀ items, json_loads t = Some (JObject items) →
       match assoc "title" items with
       | None => Schema_init json_loads u t = Err (KeyError "title")
       | Some (JString title) =>
           match Py.upper (version_of u) with
           | None => True
           | Some v =>
               let g := title +:+ v in
               if String.eqb g EmptyString
               then Schema_init json_loads u t = Err IndexError
               else ∃ p, camel_to_snake g = Ok p
                         ∧ Schema_init json_loads u t
                           = Ok {| url := u; text := t; schema := JObject items;
                                   golang_title := g; python_title := p |}
           end
       | Some _ => Schema_init json_loads u t = Err TypeError
       end).
Proof.
  unfold Schema_init. split; [by intros ->|]. split.
  - intros doc -> Hno. destruct doc; try done. by destruct (Hno items).
  - intros items ->. cbn [getitem].
    destruct (assoc "title" items) as [title|]; [|done].
    rewrite bind_Ok. destruct title as [| | | |title| |]; try done.
    destruct (Py.upper (version_of u)) as [v|]; [|done]. cbv zeta.
    destruct (String.eqb_spec (title +:+ v) EmptyString) as [E|E].
    + by rewrite E.
    + destruct (camel_to_snake_nonempty _ E) as (p & Hp & _). exists p. by rewrite Hp.
Qed.

Lemma Schema_init_outcomes_witness :
  Schema_init json_loads0 "http://determined.ai/schemas/expconf/v1/bad.json" "no json"
  = Err (ValueError "http://determined.ai/schemas/expconf/v1/bad.json is not a valid json file")
  ∧ Schema_init json_loads0 latin1_url "widget"
    = Ok {| url := latin1_url; text := "widget"; schema := widget_doc;
            golang_title := "WidgetV" +:+ Py.str1 "201";
            python_title := "widget_v" +:+ Py.str1 "233" |}
  ∧ Schema_init json_loads0 "http://determined.ai/schemas/expconf/v1/widget.json" "widget"
    = Ok {| url := "http://determined.ai/schemas/expconf/v1/widget.json";
            text := "widget"; schema := widget_doc;
            golang_title := "WidgetV1"; python_title := "widget_v1" |}.
Proof.
  split; [|split].
  - apply (Schema_init_outcomes json_loads0
             "http://determined.ai/schemas/expconf/v1/bad.json" "no json").
    reflexivity.
  - destruct (Schema_init_outcomes json_loads0 latin1_url "widget") as (_ & _ & H).
    destruct (H _ eq_refl) as (p & Hp & Hs).
    vm_compute in Hp. injection Hp as <-. exact Hs.
  - destruct (Schema_init_outcomes json_loads0
                "http://determined.ai/schemas/expconf/v1/widget.json" "widget")
      as (_ & _ & H).
    destruct (H _ eq_refl) as (p & Hp & Hs).
    vm_compute in Hp. injection Hp as <-. exact Hs.
Defined.

Lemma mapM_length {A B} (f : A → result B) (l : list A) (ys : list B) :
  mapM f l = Ok ys → length ys = length l.
Proof. rewrite mapM_Forall2. intros H. symmetry. by eapply Forall2_length. Qed.

Lemma mapM_map_eq {A B C} (f : A → result B) (g : B → C) (h : A → C)
    (l : list A) (ys : list B) :
  (∀ x y, f x = Ok y → g y = h x) → mapM f l = Ok ys → map g ys = map h l.
Proof.
  intros Hgh. rewrite mapM_Forall2. induction 1 as [|x y l ys Hxy _ IH]; [done|].
  cbn. by rewrite (Hgh x y Hxy), IH.
Qed.

Lemma read_schema_file_text json_loads HERE relpath read_file (file : string) (s : Schema) :
  read_schema_file json_loads HERE relpath read_file file = Ok s →
  url s = url_of_file HERE relpath file
  ∧ read_file file = Some (text s)
  ∧ json_loads (text s) = Some (schema s).
Proof.
  unfold read_schema_file, open_read. destruct (read_file file) as [t|]; [|done].
  rewrite bind_Ok.
  intros (doc & title & Hdoc & _ & Hu & Ht & Hs & _)%Schema_init_golang_title.
  rewrite Ht, Hs. done.
Qed.

(** X7.  When [read_schemas] succeeds there is one schema for each file
    that was listed: the URLs of the schemas are those of the files, each
    schema holds the text of its file and the document that text decodes
    to, and its struct name is the title of that document followed by the
    upper-cased version of its URL. *)
Theorem read_schemas_content json_loads HERE relpath read_file
    (paths : list string) (schemas : list Schema) :
  read_schemas json_loads HERE relpath read_file paths = Ok schemas →
  length schemas = length paths
  ∧ map url schemas ≡ₚ map (url_of_file HERE relpath) paths
  ∧ ∀ s, s ∈ schemas →
      ∃ f title, f ∈ paths
        ∧ url s = url_of_file HERE relpath f
        ∧ read_file f = Some (text s)
        ∧ json_loads (text s) = Some (schema s)
        ∧ getitem (schema s) "title" = Ok (JString title)
        ∧ ∃ v, Py.upper (version_of (url s)) = Some v
               ∧ golang_title s = title +:+ v.
Proof.
  unfold read_schemas.
  destruct (mapM _ paths) as [l|] eqn:E; [|done]. rewrite bind_Ok. intros [= <-].
  split; [|split].
  - by rewrite sort_by_Permutation, (mapM_length _ _ _ E).
  - rewrite sort_by_Permutation.
    erewrite (mapM_map_eq _ url (url_of_file HERE relpath)); [done| |exact E].
    intros f s Hs. by apply read_schema_file_text in Hs as (? & _).
  - intros s Hs. rewrite sort_by_Permutation in Hs.
    destruct (mapM_elem_of _ _ _ _ E Hs) as (f & Hf & Hread).
    destruct (read_schema_file_text _ _ _ _ _ _ Hread) as (Hu & Ht & Hd).
    unfold read_schema_file, open_read in Hread. rewrite Ht, bind_Ok in Hread.
    apply Schema_init_golang_title in Hread as (doc & title & Hdoc & Htitle & Hu' & _ & Hs' & Hg).
    exists f, title. rewrite Hs', Hu'. rewrite Hu' in Hu. done.
Qed.

Lemma read_schemas_content_witness :
  ∃ schemas,
    read_schemas json_loads0 here relpath0 read_file0
      ["schemas/expconf/v1/widget.json"; "schemas/expconf/ab/foo.json"] = Ok schemas
    ∧ length schemas = 2
    ∧ map url schemas
      ≡ₚ [ "http://determined.ai/schemas/expconf/v1/widget.json";
           "http://determined.ai/schemas/expconf/ab/foo.json" ].
Proof.
  destruct (read_schemas json_loads0 here relpath0 read_file0
              ["schemas/expconf/v1/widget.json"; "schemas/expconf/ab/foo.json"])
    as [schemas|] eqn:E; [|by vm_compute in E].
  exists schemas. split; [done|].
  destruct (read_schemas_content _ _ _ _ _ _ E) as (Hl & Hu & _). done.
Defined.

(** X8.  [read_schemas] stops at the first file, in the order of the list,
    that cannot be loaded, and fails with the error of that file: for a
    file that is read but is not JSON, the value error that names its
    URL; no list of schemas comes back. *)
Theorem read_schemas_first_error json_loads HERE relpath read_file
    (loaded rest : list string) (bad : string) (ss : list Schema) :
  mapM (read_schema_file json_loads HERE relpath read_file) loaded = Ok ss →
  (∀ e, read_schema_file json_loads HERE relpath read_file bad = Err e →
        read_schemas json_loads HERE relpath read_file (loaded ++ bad :: rest) = Err e)
  ∧ (∀ t, read_file bad = Some t → json_loads t = None →
        read_schemas json_loads HERE relpath read_file (loaded ++ bad :: rest)
        = Err (ValueError (url_of_file HERE relpath bad +:+ " is not a valid json file")))
  ∧ (read_file bad = None →
        read_schemas json_loads HERE relpath read_file (loaded ++ bad :: rest)
        = Err (OSError bad)).
Proof.
  intros Hok.
  assert (∀ e, read_schema_file json_loads HERE relpath read_file bad = Err e →
               read_schemas json_loads HERE relpath read_file (loaded ++ bad :: rest) = Err e)
    as H.
  { intros e He. unfold read_schemas. by rewrite (mapM_app_Err _ _ _ _ _ _ Hok He). }
  split; [done|]. split.
  - intros t Ht Hj. apply H. unfold read_schema_file, open_read, Schema_init.
    by rewrite Ht, bind_Ok, Hj.
  - intros Hn. apply H. unfold read_schema_file, open_read. by rewrite Hn.
Qed.

Lemma read_schemas_first_error_witness :
  read_schemas json_loads0 here relpath0 read_file0
    ["schemas/expconf/v1/widget.json"; "structs.go"; "schemas/expconf/v1/missing.json"]
  = Err (ValueError "http://determined.ai/schemas/structs.go is not a valid json file").
Proof.
  destruct (mapM (read_schema_file json_loads0 here relpath0 read_file0)
              ["schemas/expconf/v1/widget.json"]) as [ss|] eqn:E; [|by vm_compute in E].
  destruct (read_schemas_first_error json_loads0 here relpath0 read_file0
              ["schemas/expconf/v1/widget.json"] ["schemas/expconf/v1/missing.json"]
              "structs.go" ss E) as (_ & H & _).
  apply (H structs_go); reflexivity.
Defined.

(** ** The schema resolver, continued *)

Lemma substring_suffix (t s : string) :
  String.substring (String.length t) (String.length s) (t +:+ s) = s.
Proof.
  induction t as [|c t IH]; [|by rewrite append_cons].
  pose proof (substring_prefix s EmptyString) as H.
  by rewrite append_nil_r in H.
Qed.

Lemma last2_append (t : string) (a b : ascii) :
  Py.last2 (t +:+ String a (String b EmptyString)) = String a (String b EmptyString).
Proof.
  unfold Py.last2. rewrite length_append.
  replace (String.length t + String.length (String a (String b EmptyString)) - 2)
    with (String.length t) by (cbn; lia).
  apply (substring_suffix t (String a (String b EmptyString))).
Qed.

Lemma find_schema_loop_skip json_loads HERE relpath read_file (dir struct : string)
    (skipped rest : list string) :
  Forall (fun f => Py.endswith f ".json" = false
                   ∨ ∃ s, read_schema_file json_loads HERE relpath read_file
                            (Py.path_join dir f) = Ok s
                          ∧ golang_title s ≠ struct) skipped →
  find_schema_loop json_loads HERE relpath read_file dir struct (skipped ++ rest)
  = find_schema_loop json_loads HERE relpath read_file dir struct rest.
Proof.
  induction 1 as [|f skipped Hf _ IH]; [done|]. cbn [app find_schema_loop].
  destruct Hf as [->|(s & Hs & Hne)]; [done|].
  destruct (Py.endswith f ".json"); [|done]. cbn [negb].
  unfold read_schema_file in Hs.
  destruct (open_read read_file (Py.path_join dir f)) as [t|]; [|done].
  rewrite bind_Ok in Hs |- *. rewrite Hs, bind_Ok.
  by destruct (String.eqb_spec (golang_title s) struct).
Qed.

(** X9.  [find_schema] looks in the directory named by the last two
    characters of the struct name, in lower case, and goes through its
    listing in order: names that do not end in [.json] and schemas with
    another struct name are passed over; the first schema with the struct
    name asked for is returned; a file that fails to load before it makes
    the call fail with the error of that file; and when every name is
    passed over, the call fails with the not-found assertion. *)
Theorem find_schema_first json_loads HERE relpath listdir read_file
    (package t : string) (a b : ascii) (skipped rest : list string) (file : string) :
  let struct := t +:+ String a (String b EmptyString) in
  let dir := Py.path_join (Py.path_join HERE package)
               (String (Py.lower_char a) (String (Py.lower_char b) EmptyString)) in
  let load f := read_schema_file json_loads HERE relpath read_file (Py.path_join dir f) in
  is_Some (Re.rmatch version_re struct) →
  Forall (fun f => Py.endswith f ".json" = false
                   ∨ ∃ s, load f = Ok s ∧ golang_title s ≠ struct) skipped →
  (listdir dir = Some (skipped ++ file :: rest) →
   Py.endswith file ".json" = true →
   (∀ s, load file = Ok s → golang_title s = struct →
         find_schema json_loads HERE relpath listdir read_file package struct = Ok s)
   ∧ (∀ e, load file = Err e →
         find_schema json_loads HERE relpath listdir read_file package struct = Err e))
  ∧ (listdir dir = Some skipped →
     find_schema json_loads HERE relpath listdir read_file package struct
     = Err (AssertionError FailedToFindSchema))
  ∧ (listdir dir = None →
     find_schema json_loads HERE relpath listdir read_file package struct
     = Err (OSError dir)).
Proof.
  intros struct dir load [caps Hre] Hskip.
  assert (schema_dir HERE package struct = dir) as Hdir.
  { unfold schema_dir, struct. by rewrite last2_append. }
  assert (∀ names,
            listdir dir = Some names →
            find_schema json_loads HERE relpath listdir read_file package struct
            = find_schema_loop json_loads HERE relpath read_file dir struct names) as Hfs.
  { intros names Hl. unfold find_schema. by rewrite Hre, Hdir, Hl. }
  split; [|split].
  - intros Hl Hjson. rewrite (Hfs _ Hl), find_schema_loop_skip by done.
    cbn [find_schema_loop]. rewrite Hjson. cbn [negb].
    fold (read_schema_file json_loads HERE relpath read_file (Py.path_join dir file)).
    unfold load. split.
    + intros s Hs Hg. unfold read_schema_file in Hs.
      destruct (open_read read_file (Py.path_join dir file)) as [tx|]; [|done].
      rewrite bind_Ok in Hs |- *. rewrite Hs, bind_Ok, Hg. by rewrite String.eqb_refl.
    + intros e He. unfold read_schema_file in He.
      destruct (open_read read_file (Py.path_join dir file)) as [tx|].
      * rewrite bind_Ok in He |- *. by rewrite He.
      * done.
  - intros Hl. rewrite (Hfs _ Hl). rewrite <- (app_nil_r skipped).
    by rewrite find_schema_loop_skip.
  - intros Hl. unfold find_schema. by rewrite Hre, Hdir, Hl.
Qed.

Lemma find_schema_first_witness :
  find_schema json_loads0 here relpath0 listdir0 read_file0 "expconf" "GadgetV1"
  = Ok {| url := "http://determined.ai/schemas/expconf/v1/gadget.json";
          text := "gadget";
          schema := gadget_doc;
          golang_title := "GadgetV1";
          python_title := "gadget_v1" |}.
Proof.
  destruct (find_schema_first json_loads0 here relpath0 listdir0 read_file0
              "expconf" "Gadget" "V" "1" ["README.md"; "widget.json"; "thing.json"] []
              "gadget.json") as (H & _).
  - by eexists.
  - constructor; [by left|].
    constructor; [right; eexists; split; [reflexivity|done]|].
    constructor; [right; eexists; split; [reflexivity|done]|].
    constructor.
  - destruct H as [H _]; [reflexivity|reflexivity|]. by apply H.
Defined.

Lemma matches_digit (struct : string) (caps : list string) :
  Re.rmatch version_re struct = Some caps →
  ∃ pre ds post,
    struct = pre +:+ "V" +:+ ds +:+ post
    ∧ ds ≠ EmptyString ∧ all_chars Py.isdigit ds = true
    ∧ all_chars Re.dot pre = true.
Proof.
  intros (m & rest & -> & M)%rmatch_sound.
  unfold version_re, Re.seqs in M. cbn [foldr] in M. invert_matches.
  eexists _, _, rest. split; [|done].
  by rewrite append_nil_r, !append_assoc.
Qed.

(** X10.  What the check of [find_schema] lets through is a name that has,
    somewhere after a prefix without a newline, a [V] followed by a digit;
    a name that holds no [V], or no digit, is rejected with the assertion
    before any directory is listed. *)
Theorem find_schema_rejects json_loads HERE relpath listdir read_file
    (package struct : string) :
  (∀ s, find_schema json_loads HERE relpath listdir read_file package struct = Ok s →
        ∃ pre ds post,
          struct = pre +:+ "V" +:+ ds +:+ post
          ∧ ds ≠ EmptyString ∧ all_chars Py.isdigit ds = true)
  ∧ (all_chars (fun c => negb (Py.isdigit c)) struct = true
     ∨ all_chars (fun c => negb (Ascii.eqb c "V")) struct = true →
     find_schema json_loads HERE relpath listdir read_file package struct
     = Err (AssertionError (NotASchemaTypeName struct))).
Proof.
  split.
  - unfold find_schema. destruct (Re.rmatch version_re struct) as [caps|] eqn:E; [|done].
    intros s _. destruct (matches_digit _ _ E) as (pre & ds & post & ? & ? & ? & _).
    by exists pre, ds, post.
  - intros Hno. unfold find_schema.
    destruct (Re.rmatch version_re struct) as [caps|] eqn:E; [|done].
    destruct (matches_digit _ _ E) as (pre & ds & post & -> & Hne & Hd & _).
    rewrite !all_chars_append in Hno. destruct Hno as [Hno|Hno].
    + apply andb_prop in Hno as [_ [_ [Hds _]%andb_prop]%andb_prop].
      destruct ds as [|d ds]; [done|]. cbn in Hds, Hd.
      by destruct (Py.isdigit d).
    + by apply andb_prop in Hno as [_ [? _]%andb_prop].
Qed.

Lemma find_schema_rejects_witness :
  find_schema json_loads0 here relpath0 listdir0 read_file0 "expconf" "Widget"
  = Err (AssertionError (NotASchemaTypeName "Widget")).
Proof.
  destruct (find_schema_rejects json_loads0 here relpath0 listdir0 read_file0
              "expconf" "Widget") as [_ H].
  apply H. by left.
Defined.

(** ** The discovery of the schema files *)

Lemma rev_app_acc (s acc : string) :
  String.rev_app s acc = String.rev_app s EmptyString +:+ acc.
Proof.
  revert acc. induction s as [|c s IH]; intros acc; [done|]. cbn.
  rewrite (IH (String c acc)), (IH (String c EmptyString)).
  by rewrite append_assoc.
Qed.

Lemma rev_append (s t : string) : String.rev (s +:+ t) = String.rev t +:+ String.rev s.
Proof.
  unfold String.rev. induction s as [|c s IH].
  - by rewrite append_nil_r.
  - rewrite append_cons. cbn.
    rewrite (rev_app_acc (s +:+ t)), (rev_app_acc s), IH. by rewrite append_assoc.
Qed.

Lemma endswith_append (x f suffix : string) :
  Py.endswith f suffix = true → Py.endswith (x +:+ f) suffix = true.
Proof.
  unfold Py.endswith. intros [r Hr]%startswith_inv.
  rewrite rev_append, Hr, append_assoc. apply startswith_append.
Qed.

Lemma endswith_path_join (d f suffix : string) :
  Py.endswith f suffix = true → Py.endswith (Py.path_join d f) suffix = true.
Proof.
  intros H. unfold Py.path_join. repeat case_match; [done|..].
  - by apply endswith_append.
  - rewrite <- append_assoc. by apply endswith_append.
Qed.

Lemma elem_of_json_paths (p : string) (entries : list walk_entry) :
  p ∈ json_paths entries →
  ∃ dirpath dirs names f,
    (dirpath, dirs, names) ∈ entries ∧ f ∈ names
    ∧ Py.endswith f ".json" = true ∧ p = Py.path_join dirpath f.
Proof.
  unfold json_paths. rewrite list_elem_of_In, in_concat.
  intros (l & Hl & Hp). apply list_elem_of_In in Hl, Hp.
  apply list_elem_of_fmap in Hl as (e & -> & He).
  destruct e as [[dirpath dirs] names].
  apply list_elem_of_fmap in Hp as (f & -> & Hf).
  apply list_elem_of_filter in Hf as [Hjson Hf].
  by exists dirpath, dirs, names, f.
Qed.

Global Instance not_after_ltb_trans : Transitive (not_after String.ltb).
Proof. intros a b c. unfold not_after. rewrite !ltb_false_le. apply transitivity. Qed.

(** X11.  The list [list_files] returns is sorted; each of its paths is a
    directory that [os.walk] yields joined with one of the file names of
    that directory that end in [.json], and ends in [.json] itself; every
    such path is in the list; and the list does not depend on the order
    in which [os.walk] yields the directories and their files. *)
Theorem list_files_sorted (os_walk : string → list walk_entry) (HERE package : string) :
  let root := Py.path_join HERE package in
  Sorted String.le (list_files os_walk HERE package)
  ∧ (∀ p, p ∈ list_files os_walk HERE package ↔ p ∈ json_paths (os_walk root))
  ∧ (∀ p, p ∈ list_files os_walk HERE package →
          Py.endswith p ".json" = true
          ∧ ∃ dirpath dirs names f,
              (dirpath, dirs, names) ∈ os_walk root ∧ f ∈ names
              ∧ p = Py.path_join dirpath f)
  ∧ (∀ other_walk,
       json_paths (other_walk root) ≡ₚ json_paths (os_walk root) →
       list_files other_walk HERE package = list_files os_walk HERE package).
Proof.
  intros root. unfold list_files. fold root. split; [|split; [|split]].
  - eapply Sorted_mono; [|apply sort_by_Sorted, ltb_asym].
    intros a b. unfold not_after. by rewrite ltb_false_le.
  - intros p. by rewrite sort_by_Permutation.
  - intros p Hp. rewrite sort_by_Permutation in Hp.
    apply elem_of_json_paths in Hp as (d & ds & names & f & He & Hf & Hj & ->).
    split; [by apply endswith_path_join|]. by exists d, ds, names, f.
  - intros other Hperm. apply sort_by_unique; [apply ltb_asym|apply _| |done].
    intros x y _ _ Hxy Hyx. apply ltb_false_le in Hxy, Hyx.
    by apply (anti_symm String.le).
Qed.

Lemma list_files_sorted_witness :
  list_files os_walk1 here "expconf" = list_files os_walk0 here "expconf"
  ∧ list_files os_walk0 here "expconf"
    = [ "schemas/expconf/ab/foo.json"; "schemas/expconf/v1/gadget.json";
        "schemas/expconf/v1/thing.json"; "schemas/expconf/v1/widget.json" ].
Proof.
  split; [|reflexivity].
  destruct (list_files_sorted os_walk0 here "expconf") as (_ & _ & _ & H).
  apply H. apply (bool_decide_unpack _). by vm_compute.
Defined.

(** ** The type resolver, continued *)

(** X12.  What [get_defaulted_type] returns, read backwards: the default
    and the required list are those of the schema; without a default the
    type is the declared one; with a default the declared type is the
    returned type with one star put back, and the returned type does not
    start with a star. *)
Theorem get_defaulted_type_result (s : Schema) (tag ty t : string) (d r : json) :
  get_defaulted_type s tag ty = Ok (t, d, r) →
  schema_default s tag = Ok d
  ∧ schema_required s = Ok r
  ∧ (d = JNull → t = ty)
  ∧ (d ≠ JNull → ty = String "*" t ∧ Py.startswith t "*" = false).
Proof.
  unfold get_defaulted_type.
  destruct (schema_default s tag) as [d0|]; [|done]. rewrite bind_Ok.
  destruct (schema_required s) as [r0|]; [|done]. rewrite bind_Ok.
  assert ((if negb (Py.startswith ty "*")
           then Err (AssertionError (MustBePointer tag ty))
           else if Py.startswith ty "**"
                then Err (AssertionError (DoublePointer tag ty))
                else Ok (Py.tail ty, d0, r0)) = Ok (t, d, r) →
          d0 = d ∧ r0 = r ∧ ty = String "*" t ∧ Py.startswith t "*" = false) as Hptr.
  { destruct (Py.startswith ty "*") eqn:E1; [|done]. cbn [negb].
    destruct (Py.startswith ty "**") eqn:E2; [done|]. intros [= <- <- <-].
    apply startswith_inv in E1 as [rest ->].
    change ("*" +:+ rest) with (String "*" rest) in *. cbn [Py.tail].
    split; [done|]. split; [done|]. split; [done|].
    destruct (Py.startswith rest "*") eqn:E3; [|done].
    apply startswith_inv in E3 as [rest' ->].
    change (Py.startswith ("**" +:+ rest') "**" = false) in E2.
    by rewrite startswith_append in E2. }
  destruct d0; try (intros (<- & <- & -> & ?)%Hptr; by repeat split).
  intros [= <- <- <-]. by repeat split.
Qed.

Lemma get_defaulted_type_result_witness :
  schema_default widget_schema "name" = Ok (JString "anon")
  ∧ "*string" = String "*" "string" ∧ Py.startswith "string" "*" = false.
Proof.
  destruct (get_defaulted_type_result widget_schema "name" "*string" "string"
              (JString "anon") (JArray [JString "name"]) eq_refl) as (H1 & _ & _ & H2).
  split; [exact H1|]. by apply H2.
Defined.

(** X13.  How the properties of a schema are read: a schema object with
    no [properties] key makes [get_defaulted_type] raise the key error; a
    tag that the properties do not have, or that they map to [true], is a
    field without a default, whatever its type; a tag mapped to anything
    else that is not an object (to [false], say) raises the attribute
    error. *)
Theorem get_defaulted_type_property (s : Schema) (items : list (string * json))
    (tag ty : string) :
  schema s = JObject items →
  match assoc "properties" items with
  | None => get_defaulted_type s tag ty = Err (KeyError "properties")
  | Some (JObject props) =>
      match assoc tag props with
      | None | Some (JBool true) =>
          get_defaulted_type s tag ty = Ok (ty, JNull, required_or items)
      | Some (JObject prop) =>
          schema_default s tag = Ok (default JNull (assoc "default" prop))
      | Some _ => get_defaulted_type s tag ty = Err AttributeError
      end
  | Some _ => get_defaulted_type s tag ty = Err AttributeError
  end.
Proof.
  intros E. pose proof (schema_required_eq s items E) as Hr.
  unfold get_defaulted_type, schema_default. rewrite E. cbn [getitem].
  destruct (assoc "properties" items) as [props|]; [|done]. rewrite bind_Ok.
  destruct props as [| | | | | |props]; try done.
  cbn [dict_get]. rewrite bind_Ok.
  destruct (assoc tag props) as [prop|]; cbn [default].
  - destruct prop as [|[]| | | | |prop]; try done.
    cbn [dict_get]. by rewrite ?bind_Ok, ?Hr.
  - cbn [dict_get]. by rewrite ?bind_Ok, ?Hr.
Qed.

Lemma get_defaulted_type_property_witness :
  get_defaulted_type widget_schema "flag" "bool" = Ok ("bool", JNull, JArray [JString "name"])
  ∧ get_defaulted_type widget_schema "absent" "int" = Ok ("int", JNull, JArray [JString "name"]).
Proof.
  split.
  - exact (get_defaulted_type_property widget_schema _ "flag" "bool" eq_refl).
  - exact (get_defaulted_type_property widget_schema _ "absent" "int" eq_refl).
Defined.

(** X14.  [go_getters] is all or nothing: it fails with the error of the
    first field, in the order of the struct, whose getter cannot be
    built, and then returns no line at all; with no field it returns no
    line and does not look at the schema or at the name of the struct. *)
Theorem go_getters_first_error (struct x : string) (s : Schema)
    (built rest : list FieldSpec) (bad : FieldSpec) (ls : list (list string)) (e : exn) :
  receiver struct = Ok x →
  mapM (go_getter x struct s) built = Ok ls →
  go_getter x struct s bad = Err e →
  go_getters struct s (built ++ bad :: rest) = Err e
  ∧ go_getters struct s built = Ok (concat ls)
  ∧ ∀ struct' s', go_getters struct' s' [] = Ok [].
Proof.
  intros Hx Hls He. split; [|split; [|done]].
  - rewrite go_getters_eq. destruct (built ++ bad :: rest) eqn:E.
    { by destruct built. }
    rewrite <- E, Hx, bind_Ok. by rewrite (mapM_app_Err _ _ _ _ _ _ Hls He).
  - rewrite go_getters_eq. destruct built as [|f built].
    { cbn in Hls. by injection Hls as <-. }
    by rewrite Hx, bind_Ok, Hls.
Qed.

Lemma go_getters_first_error_witness :
  go_getters "WidgetV1" widget_schema
    [("Size", "int", "size"); ("Name", "string", "name"); ("Note", "**int", "note")]
  = Err (AssertionError (MustBePointer "name" "string")).
Proof.
  apply (go_getters_first_error "WidgetV1" "w" widget_schema
           [("Size", "int", "size")] [("Note", "**int", "note")] ("Name", "string", "name")
           [transparent_getter "w" "WidgetV1" "Size" "int"]); reflexivity.
Defined.

(** ** Per-type generation, continued *)

(** X15.  When [gen_go_struct] succeeds, the struct it worked on is the
    one [next_struct_name] found; its fields are all plain or all union
    fields, so the file holds getters or union code and never both; the
    schema has the name of the struct; the file is named [zgen_], the
    snake-case name and [.go]; and its lines are the fixed header, the
    imports each behind a tab and in their order, then the getters, the
    union code, the helpers and the schema methods. *)
Theorem gen_go_struct_result json_loads HERE relpath listdir read_file iter_order
    (package file : string) (line : Z) (imports : list string)
    (fname : string) (lines : list string) :
  gen_go_struct json_loads HERE relpath listdir read_file iter_order
    package file line imports = Ok (fname, lines) →
  ∃ struct field_spec union_spec s snake getters unions helpers iface,
    next_struct_name read_file file line = Ok struct
    ∧ find_struct read_file file struct = Ok (field_spec, union_spec)
    ∧ (field_spec = [] ∨ union_spec = [])
    ∧ find_schema json_loads HERE relpath listdir read_file package struct = Ok s
    ∧ golang_title s = struct
    ∧ camel_to_snake struct = Ok snake
    ∧ fname = "zgen_" +:+ snake +:+ ".go"
    ∧ go_getters struct s field_spec = Ok getters
    ∧ go_unions json_loads HERE relpath listdir read_file iter_order
        struct package file s union_spec = Ok unions
    ∧ (field_spec = [] → getters = [])
    ∧ (union_spec = [] → unions = [])
    ∧ go_helpers struct = Ok helpers
    ∧ go_schema_interface struct (url s) = Ok iface
    ∧ lines
      = [ "// Code generated by gen.py. DO NOT EDIT.";
          EmptyString;
          "package " +:+ package;
          EmptyString;
          "import (";
          T +:+ Q +:+ "github.com/santhosh-tekuri/jsonschema/v2" +:+ Q ]
        ++ map (fun imp => T +:+ imp) imports
        ++ [ EmptyString;
             T +:+ Q +:+ "github.com/determined-ai/determined/master/pkg/schemas" +:+ Q;
             ")";
             EmptyString ]
        ++ getters ++ unions ++ helpers ++ iface.
Proof.
  unfold gen_go_struct.
  destruct (next_struct_name read_file file line) as [struct|] eqn:En; [|done]. rewrite bind_Ok.
  destruct (find_struct read_file file struct) as [[fs us]|] eqn:Ef; [|done]. rewrite bind_Ok.
  destruct ((0 <? length fs) && (0 <? length us)) eqn:Eboth; [done|].
  destruct (find_schema _ _ _ _ _ package struct) as [s|] eqn:Es; [|done]. rewrite bind_Ok.
  destruct (go_getters struct s fs) as [getters|] eqn:Eg; [|done]. rewrite bind_Ok.
  destruct (go_unions _ _ _ _ _ _ struct package file s us) as [unions|] eqn:Eu; [|done].
  rewrite bind_Ok.
  destruct (go_helpers struct) as [helpers|] eqn:Eh; [|done]. rewrite bind_Ok.
  destruct (go_schema_interface struct (url s)) as [iface|] eqn:Ei; [|done]. rewrite bind_Ok.
  destruct (camel_to_snake struct) as [snake|] eqn:Ec; [|done]. rewrite bind_Ok.
  intros [= <- <-].
  exists struct, fs, us, s, snake, getters, unions, helpers, iface.
  split; [done|]. split; [done|]. split.
  { destruct fs; [by left|]. destruct us; [by right|done]. }
  split; [done|]. split.
  { unfold find_schema in Es. destruct (Re.rmatch version_re struct); [|done].
    destruct (listdir _); [|done]. by eapply find_schema_loop_title. }
  split; [done|]. split; [done|]. split; [done|]. split; [done|]. split.
  { intros ->. rewrite go_getters_eq in Eg. by injection Eg as <-. }
  split.
  { intros ->. unfold go_unions in Eu. cbn in Eu. by injection Eu as <-. }
  split; [done|]. split; [done|]. by rewrite <- !app_assoc.
Qed.

Lemma gen_go_struct_result_witness :
  ∃ struct field_spec union_spec,
    next_struct_name read_file0 "structs.go" 2 = Ok struct
    ∧ find_struct read_file0 "structs.go" struct = Ok (field_spec, union_spec)
    ∧ (field_spec = [] ∨ union_spec = []).
Proof.
  destruct (gen_go_struct json_loads0 here relpath0 listdir0 read_file0 elements
              "expconf" "structs.go" 2 []) as [[fname lines]|] eqn:E;
    [|by vm_compute in E].
  destruct (gen_go_struct_result _ _ _ _ _ _ _ _ _ _ _ _ E)
    as (struct & fs & us & ? & ? & ? & ? & ? & ? & H1 & H2 & H3 & _).
  by exists struct, fs, us.
Defined.

(** ** The output writer, continued *)

Lemma universal_newlines_plain (s : string) :
  contains_char Py.cr s = false → Py.universal_newlines s = s.
Proof.
  induction s as [|c s IH]; [done|]. cbn [contains_char].
  intros [Hc Hs]%orb_false_elim. cbn [Py.universal_newlines].
  rewrite Ascii.eqb_sym, Hc. by rewrite IH.
Qed.

(** A run with a destination that succeeds keeps every other file and
    the standard output; the destination then holds the rendered text,
    or is left as it was because it reads as the rendered text; and for
    a text without a carriage return a second run changes nothing. *)
Lemma maybe_write_output_settles (lines : list string) (path : string) (w w' : world) :
  maybe_write_output lines (Some path) w = Ok w' →
  (∀ other, other ≠ path → files w' !! other = files w !! other)
  ∧ stdout w' = stdout w
  ∧ (∃ stored, files w' !! path = Some stored
               ∧ (stored = rendered lines
                  ∨ (w' = w ∧ Py.universal_newlines stored = rendered lines)))
  ∧ (contains_char Py.cr (rendered lines) = false →
     maybe_write_output lines (Some path) w' = Ok w').
Proof.
  unfold maybe_write_output, path_exists, read_text, write_file.
  destruct (unreadable w path) eqn:Eu; [by rewrite orb_true_r|].
  destruct (files w !! path) as [stored|] eqn:Ef.
  - rewrite bool_decide_eq_true_2 by done. cbn [orb]. rewrite bind_Ok.
    destruct (String.eqb_spec (Py.universal_newlines stored) (rendered lines)) as [E|E].
    + intros [= <-]. split; [done|]. split; [done|]. split.
      * exists stored. split; [done|]. by right.
      * intros _. rewrite Eu, Ef, bool_decide_eq_true_2 by done. cbn [orb].
        rewrite bind_Ok, E. by rewrite String.eqb_refl.
    + destruct (unwritable w path) eqn:Ew; [done|]. intros [= <-]. cbn.
      split; [intros other Hne; by apply lookup_insert_ne|]. split; [done|]. split.
      * exists (rendered lines). split; [apply lookup_insert_eq|by left].
      * intros Hplain. rewrite Eu, lookup_insert_eq, bool_decide_eq_true_2 by done.
        cbn [orb]. rewrite bind_Ok, universal_newlines_plain by done.
        by rewrite String.eqb_refl.
  - rewrite bool_decide_eq_false_2 by (by intros [? ?]). cbn [orb].
    destruct (unwritable w path) eqn:Ew; [done|]. intros [= <-]. cbn.
    split; [intros other Hne; by apply lookup_insert_ne|]. split; [done|]. split.
    + exists (rendered lines). split; [apply lookup_insert_eq|by left].
    + intros Hplain. rewrite Eu, lookup_insert_eq, bool_decide_eq_true_2 by done.
      cbn [orb]. rewrite bind_Ok, universal_newlines_plain by done.
      by rewrite String.eqb_refl.
Qed.



(** ** The entry points *)

Lemma contains_char_false_replace (c : ascii) (by_ s : string) :
  contains_char c s = false → replace_char c by_ s = s.
Proof.
  induction s as [|d s IH]; [done|]. cbn.
  destruct (Ascii.eqb c d); [done|]. cbn. intros H. by rewrite IH.
Qed.

Lemma contains_char_append (c : ascii) (s t : string) :
  contains_char c (s +:+ t) = contains_char c s || contains_char c t.
Proof.
  induction s as [|d s IH]; [done|]. rewrite append_cons. cbn.
  by rewrite IH, orb_assoc.
Qed.

Lemma replace_char_append (c : ascii) (by_ s t : string) :
  replace_char c by_ (s +:+ t) = replace_char c by_ s +:+ replace_char c by_ t.
Proof.
  induction s as [|d s IH]; [done|]. rewrite append_cons. cbn.
  destruct (Ascii.eqb c d); rewrite IH; [by rewrite append_assoc|done].
Qed.

(** X17.  [fmt_import] puts an import path without a colon between double
    quotes, and turns [alias:path], where neither part holds a colon, into
    the alias, a blank and the quoted path. *)
Theorem fmt_import_forms (alias path : string) :
  contains_char ":" alias = false →
  contains_char ":" path = false →
  fmt_import path = Q +:+ path +:+ Q
  ∧ fmt_import (alias +:+ ":" +:+ path) = alias +:+ " " +:+ Q +:+ path +:+ Q.
Proof.
  intros Ha Hp. unfold fmt_import. split; [by rewrite Hp|].
  rewrite !contains_char_append, Ha. cbn [contains_char Ascii.eqb orb].
  change (contains_char ":" ":") with true. cbn [orb].
  rewrite !replace_char_append, (contains_char_false_replace _ _ _ Ha),
          (contains_char_false_replace _ _ _ Hp).
  change (replace_char ":" (" " +:+ Q) ":") with (" " +:+ Q).
  by rewrite !append_assoc.
Qed.

Lemma fmt_import_forms_witness :
  fmt_import "k8sV1:k8s.io/api/core/v1" = "k8sV1 " +:+ Q +:+ "k8s.io/api/core/v1" +:+ Q.
Proof.
  destruct (fmt_import_forms "k8sV1" "k8s.io/api/core/v1") as [_ H]; [done|done|].
  exact H.
Defined.

Lemma rev_cons (c : ascii) (s : string) :
  String.rev (String c s) = String.rev s +:+ String c EmptyString.
Proof. unfold String.rev. cbn. apply rev_app_acc. Qed.

Lemma rev_involutive (s : string) : String.rev (String.rev s) = s.
Proof.
  induction s as [|c s IH]; [done|]. by rewrite rev_cons, rev_append, IH.
Qed.

Lemma split_go_prefix (c : ascii) (s cur t : string) :
  contains_char c s = false →
  split_go c cur (s +:+ t) = split_go c (String.rev s +:+ cur) t.
Proof.
  revert cur. induction s as [|d s IH]; intros cur H; [done|].
  cbn in H. apply orb_false_elim in H as [Hd Hs].
  rewrite append_cons. cbn [split_go]. rewrite Hd, IH by done.
  by rewrite rev_cons, append_assoc.
Qed.

(** Splitting on a separator undoes joining with it, for pieces that do
    not hold the separator; the empty text splits into one empty piece. *)
Lemma split_char_join (c : ascii) (items : list string) :
  Forall (fun i => contains_char c i = false) items →
  split_char c (Py.join (String c EmptyString) items)
  = match items with [] => [EmptyString] | _ => items end.
Proof.
  unfold split_char, Py.join. induction 1 as [|x xs Hx Hxs IH]; [done|].
  destruct xs as [|y ys].
  - cbn [String.concat]. rewrite <- (append_nil_r x) at 1.
    rewrite split_go_prefix by done. cbn [split_go].
    by rewrite append_nil_r, rev_involutive.
  - change (String.concat (String c EmptyString) (x :: y :: ys))
      with (x +:+ String c (String.concat (String c EmptyString) (y :: ys))).
    rewrite split_go_prefix by done. cbn [split_go].
    rewrite Ascii.eqb_refl, append_nil_r, rev_involutive. f_equal. exact IH.
Qed.

(** X18.  The imports given in one text, separated by commas, come out one
    by one and in their order, each formatted by [fmt_import]; empty
    pieces (two commas in a row, a comma at either end, an empty text)
    are dropped; without the option there is no import. *)
Theorem imports_list_join (items : list string) :
  Forall (fun i => contains_char "," i = false) items →
  imports_list (Some (Py.join "," items))
  = map fmt_import (filter (fun i => i ≠ EmptyString) items)
  ∧ imports_list None = [].
Proof.
  intros H. split; [|done]. unfold imports_list.
  rewrite (split_char_join "," items H). by destruct items.
Qed.

Lemma imports_list_join_witness :
  imports_list (Some "k8sV1:k8s.io/api/core/v1,,fmt,")
  = [ "k8sV1 " +:+ Q +:+ "k8s.io/api/core/v1" +:+ Q; Q +:+ "fmt" +:+ Q ].
Proof.
  apply (imports_list_join ["k8sV1:k8s.io/api/core/v1"; EmptyString; "fmt"; EmptyString]).
  by repeat constructor.
Defined.

Lemma gen_go_struct_fname json_loads HERE relpath listdir read_file iter_order
    (package file : string) (line : Z) (imports : list string)
    (fname : string) (lines : list string) :
  gen_go_struct json_loads HERE relpath listdir read_file iter_order
    package file line imports = Ok (fname, lines) →
  ∃ struct snake,
    next_struct_name read_file file line = Ok struct
    ∧ camel_to_snake struct = Ok snake
    ∧ fname = "zgen_" +:+ snake +:+ ".go".
Proof.
  unfold gen_go_struct.
  destruct (next_struct_name read_file file line) as [struct|] eqn:En; [|done].
  rewrite bind_Ok.
  destruct (find_struct read_file file struct) as [[fs us]|]; [|done]. rewrite bind_Ok.
  destruct ((0 <? length fs) && (0 <? length us)); [done|].
  destruct (find_schema _ _ _ _ _ package struct) as [s|]; [|done]. rewrite bind_Ok.
  destruct (go_getters struct s fs) as [getters|]; [|done]. rewrite bind_Ok.
  destruct (go_unions _ _ _ _ _ _ struct package file s us) as [unions|]; [|done].
  rewrite bind_Ok.
  destruct (go_helpers struct) as [helpers|]; [|done]. rewrite bind_Ok.
  destruct (go_schema_interface struct (url s)) as [iface|]; [|done]. rewrite bind_Ok.
  destruct (camel_to_snake struct) as [snake|] eqn:Ec; [|done]. rewrite bind_Ok.
  intros [= <- <-]. by exists struct, snake.
Qed.

(** X19.  A run of [go_struct_main] that succeeds changes one file at
    most: the one named [zgen_], the snake-case name of the struct after
    the line of the directive and [.go].  After the run that file holds
    the rendered lines of [gen_go_struct], or nothing at all has changed
    and the file reads as these lines; every other file and the standard
    output are as before; and when the lines hold no carriage return, a
    second run on the same sources changes nothing. *)
Theorem go_struct_main_one_file json_loads HERE relpath listdir read_file iter_order
    (package file : string) (line : Z) (imports : option string) (w w' : world) :
  go_struct_main json_loads HERE relpath listdir read_file iter_order
    package file line imports w = Ok w' →
  ∃ struct snake lines,
    next_struct_name read_file file line = Ok struct
    ∧ camel_to_snake struct = Ok snake
    ∧ gen_go_struct json_loads HERE relpath listdir read_file iter_order
        package file line (imports_list imports)
      = Ok ("zgen_" +:+ snake +:+ ".go", lines)
    ∧ (files w' !! ("zgen_" +:+ snake +:+ ".go") = Some (rendered lines)
       ∨ (w' = w
          ∧ Py.universal_newlines <$> files w !! ("zgen_" +:+ snake +:+ ".go")
            = Some (rendered lines)))
    ∧ (∀ other, other ≠ "zgen_" +:+ snake +:+ ".go" →
         files w' !! other = files w !! other)
    ∧ stdout w' = stdout w
    ∧ (contains_char Py.cr (rendered lines) = false →
       go_struct_main json_loads HERE relpath listdir read_file iter_order
         package file line imports w' = Ok w').
Proof.
  unfold go_struct_main.
  destruct (gen_go_struct _ _ _ _ _ _ package file line (imports_list imports))
    as [[fname lines]|] eqn:E; [|done].
  rewrite bind_Ok. intros Hrun.
  destruct (gen_go_struct_fname _ _ _ _ _ _ _ _ _ _ _ _ E) as (struct & snake & Hn & Hc & ->).
  destruct (maybe_write_output_settles _ _ _ _ Hrun)
    as (Hframe & Hout & (stored & Hstored & Hcases) & Hagain).
  exists struct, snake, lines. repeat (split; [done|]). split.
  - destruct Hcases as [->|[-> Hread]]; [by left|right].
    split; [done|]. rewrite Hstored. cbn. by rewrite Hread.
  - repeat (split; [done|]). intros Hplain. rewrite bind_Ok. by apply Hagain.
Qed.

Lemma go_struct_main_one_file_witness :
  ∃ w' lines,
    go_struct_main json_loads0 here relpath0 listdir0 read_file0 elements
      "expconf" "structs.go" 2 (Some "fmt") world0 = Ok w'
    ∧ files w' !! "zgen_widget_v1.go" = Some (rendered lines)
    ∧ files w' !! "zgen_b.go" = Some "stale"
    ∧ stdout w' = EmptyString
    ∧ go_struct_main json_loads0 here relpath0 listdir0 read_file0 elements
        "expconf" "structs.go" 2 (Some "fmt") w' = Ok w'.
Proof.
  destruct (go_struct_main json_loads0 here relpath0 listdir0 read_file0 elements
              "expconf" "structs.go" 2 (Some "fmt") world0) as [w'|] eqn:E;
    [|by vm_compute in E].
  destruct (go_struct_main_one_file _ _ _ _ _ _ _ _ _ _ _ _ E)
    as (struct & snake & lines & Hn & Hc & Hg & Hpost & Hframe & Hout & Hagain).
  vm_compute in Hn. injection Hn as <-. vm_compute in Hc. injection Hc as <-.
  exists w', lines. split; [done|]. split; [|split; [|split; [exact Hout|]]].
  - destruct Hpost as [H|[_ H]]; [exact H|by vm_compute in H].
  - rewrite Hframe; [done|]. by vm_compute.
  - apply Hagain. vm_compute in Hg. injection Hg as <-. by vm_compute.
Defined.

Lemma list_files_Permutation (walk1 walk2 : string → list walk_entry)
    (HERE package : string) :
  json_paths (walk1 (Py.path_join HERE package))
    ≡ₚ json_paths (walk2 (Py.path_join HERE package)) →
  list_files walk1 HERE package = list_files walk2 HERE package.
Proof.
  intros Hperm. unfold list_files.
  apply sort_by_unique; [apply ltb_asym|apply _| |done].
  intros x y _ _ Hxy Hyx. apply ltb_false_le in Hxy, Hyx.
  by apply (anti_symm String.le).
Qed.

(** X20.  The two entry points that walk the schema tree, [python_main]
    and [go_root_main]: their outcome does not depend on the order in
    which [os.walk] yields the directories and the files.  After a run
    with a destination that succeeds, the destination holds the rendered
    artifact of the schemas that were read, sorted by URL, or nothing at
    all has changed and the destination reads as that artifact; no other
    file and not the standard output is touched; and when the artifact
    holds no carriage return, a second run on the same sources changes
    nothing. *)
Theorem tree_entry_points_settle os_walk json_loads HERE relpath read_file
    (package path : string) (w w' : world) :
  (∀ other_walk output w0,
     json_paths (other_walk (Py.path_join HERE package))
       ≡ₚ json_paths (os_walk (Py.path_join HERE package)) →
     python_main other_walk json_loads HERE relpath read_file package output w0
     = python_main os_walk json_loads HERE relpath read_file package output w0)
  ∧ (∀ other_walk output w0,
     json_paths (other_walk (Py.path_join HERE "expconf"))
       ≡ₚ json_paths (os_walk (Py.path_join HERE "expconf")) →
     go_root_main other_walk json_loads HERE relpath read_file output w0
     = go_root_main os_walk json_loads HERE relpath read_file output w0)
  ∧ (python_main os_walk json_loads HERE relpath read_file package (Some path) w = Ok w' →
     ∃ schemas,
       read_schemas json_loads HERE relpath read_file (list_files os_walk HERE package)
       = Ok schemas
       ∧ Sorted url_le schemas
       ∧ (files w' !! path = Some (rendered (gen_python schemas))
          ∨ (w' = w
             ∧ Py.universal_newlines <$> files w !! path
               = Some (rendered (gen_python schemas))))
       ∧ (∀ other, other ≠ path → files w' !! other = files w !! other)
       ∧ stdout w' = stdout w
       ∧ (contains_char Py.cr (rendered (gen_python schemas)) = false →
          python_main os_walk json_loads HERE relpath read_file package (Some path) w'
          = Ok w'))
  ∧ (go_root_main os_walk json_loads HERE relpath read_file (Some path) w = Ok w' →
     ∃ schemas,
       read_schemas json_loads HERE relpath read_file (list_files os_walk HERE "expconf")
       = Ok schemas
       ∧ Sorted url_le schemas
       ∧ (files w' !! path = Some (rendered (gen_go_schemas_package schemas))
          ∨ (w' = w
             ∧ Py.universal_newlines <$> files w !! path
               = Some (rendered (gen_go_schemas_package schemas))))
       ∧ (∀ other, other ≠ path → files w' !! other = files w !! other)
       ∧ stdout w' = stdout w
       ∧ (contains_char Py.cr (rendered (gen_go_schemas_package schemas)) = false →
          go_root_main os_walk json_loads HERE relpath read_file (Some path) w' = Ok w')).
Proof.
  split; [|split; [|split]].
  - intros other output w0 Hperm. unfold python_main.
    by rewrite (list_files_Permutation other os_walk HERE package Hperm).
  - intros other output w0 Hperm. unfold go_root_main, ALL_PKGS. cbn [map concat].
    by rewrite (list_files_Permutation other os_walk HERE "expconf" Hperm).
  - unfold python_main.
    destruct (read_schemas _ _ _ _ (list_files os_walk HERE package))
      as [schemas|] eqn:E; [|done].
    rewrite !bind_Ok. cbv zeta. intros Hrun.
    destruct (maybe_write_output_settles _ _ _ _ Hrun)
      as (Hframe & Hout & (stored & Hstored & Hcases) & Hagain).
    exists schemas. split; [done|]. split; [by eapply read_schemas_Sorted|]. split.
    + destruct Hcases as [->|[-> Hread]]; [by left|right].
      split; [done|]. rewrite Hstored. cbn. by rewrite Hread.
    + by repeat (split; [done|]).
  - unfold go_root_main, ALL_PKGS. cbn [map concat]. rewrite app_nil_r.
    destruct (read_schemas _ _ _ _ (list_files os_walk HERE "expconf"))
      as [schemas|] eqn:E; [|done].
    rewrite !bind_Ok. cbv zeta. intros Hrun.
    destruct (maybe_write_output_settles _ _ _ _ Hrun)
      as (Hframe & Hout & (stored & Hstored & Hcases) & Hagain).
    exists schemas. split; [done|]. split; [by eapply read_schemas_Sorted|]. split.
    + destruct Hcases as [->|[-> Hread]]; [by left|right].
      split; [done|]. rewrite Hstored. cbn. by rewrite Hread.
    + by repeat (split; [done|]).
Qed.

Lemma tree_entry_points_settle_witness :
  ∃ w',
    go_root_main os_walk0 json_loads0 here relpath0 read_file0 (Some "zgen_b.go") world0
    = Ok w'
    ∧ go_root_main os_walk1 json_loads0 here relpath0 read_file0 (Some "zgen_b.go") world0
      = Ok w'
    ∧ go_root_main os_walk0 json_loads0 here relpath0 read_file0 (Some "zgen_b.go") w'
      = Ok w'
    ∧ files w' !! "zgen_a.go" = Some (rendered ["package a"]).
Proof.
  destruct (go_root_main os_walk0 json_loads0 here relpath0 read_file0
              (Some "zgen_b.go") world0) as [w'|] eqn:E; [|by vm_compute in E].
  destruct (tree_entry_points_settle os_walk0 json_loads0 here relpath0 read_file0
              "expconf" "zgen_b.go" world0 w') as (_ & Hwalk & _ & Hroot).
  destruct (Hroot E) as (schemas & Hread & _ & _ & Hframe & _ & Hagain).
  exists w'. split; [done|]. split.
  - rewrite <- E. apply Hwalk. apply (bool_decide_unpack _). by vm_compute.
  - split.
    + apply Hagain. vm_compute in Hread. injection Hread as <-. by vm_compute.
    + rewrite Hframe; [done|]. by vm_compute.
Defined.

(** ** The per-type files and the aggregate file *)

Lemma find_schema_loop_file json_loads HERE relpath read_file
    (dir struct : string) (names : list string) (s : Schema) :
  find_schema_loop json_loads HERE relpath read_file dir struct names = Ok s →
  ∃ f, f ∈ names ∧ Py.endswith f ".json" = true
       ∧ read_schema_file json_loads HERE relpath read_file (Py.path_join dir f) = Ok s.
Proof.
  induction names as [|file rest IH]; cbn [find_schema_loop]; [done|].
  destruct (Py.endswith file ".json") eqn:Ej; cbn [negb].
  - unfold read_schema_file in *.
    destruct (open_read read_file (Py.path_join dir file)) as [t|] eqn:Eo; [|done].
    rewrite bind_Ok.
    destruct (Schema_init json_loads _ t) as [s'|] eqn:Es; [|done]. rewrite bind_Ok.
    destruct (String.eqb (golang_title s') struct); cbn [negb].
    + intros [= <-]. exists file. split; [by left|]. split; [done|].
      by rewrite Eo, bind_Ok.
    + intros (f & Hf & Hj & Hr)%IH. exists f. split; [by right|done].
  - intros (f & Hf & Hj & Hr)%IH. exists f. split; [by right|done].
Qed.

Lemma mapM_elem_of_l {A B} (f : A → result B) (l : list A) (ys : list B) (x : A) (y : B) :
  mapM f l = Ok ys → x ∈ l → f x = Ok y → y ∈ ys.
Proof.
  revert ys. induction l as [|a l IH]; intros ys.
  - intros _ Hx. by apply elem_of_nil in Hx.
  - rewrite mapM_cons_Ok. intros (b & ys' & Hb & Hys & ->) Hx Hy.
    apply elem_of_cons in Hx as [->|Hx].
    + rewrite Hy in Hb. injection Hb as <-. by left.
    + right. by apply (IH ys').
Qed.

(** X21.  The file generated for a struct and the aggregate file fit
    together.  When [gen_go_struct] succeeds for a struct, and the
    aggregate is generated from a list of files that holds the JSON files
    of the version directory of that struct, then the schema the struct
    was resolved to is one of the schemas of the aggregate; so the
    function [Parsed<struct>] that the struct file calls is defined there,
    under the text of that schema, and the URL its validators ask for is
    a key of the map of schema texts. *)
Theorem generated_files_link json_loads HERE relpath listdir read_file iter_order
    (package file : string) (line : Z) (imports : list string)
    (fname : string) (lines : list string) (struct : string)
    (paths : list string) (schemas : list Schema) :
  gen_go_struct json_loads HERE relpath listdir read_file iter_order
    package file line imports = Ok (fname, lines) →
  next_struct_name read_file file line = Ok struct →
  (∀ names f, listdir (schema_dir HERE package struct) = Some names →
              f ∈ names → Py.endswith f ".json" = true →
              Py.path_join (schema_dir HERE package struct) f ∈ paths) →
  read_schemas json_loads HERE relpath read_file paths = Ok schemas →
  ∃ s,
    find_schema json_loads HERE relpath listdir read_file package struct = Ok s
    ∧ s ∈ schemas
    ∧ golang_title s = struct
    ∧ T +:+ "return schemas.Parsed" +:+ struct +:+ "()" ∈ lines
    ∧ "func Parsed" +:+ struct +:+ "() interface{} {" ∈ gen_go_schemas_package schemas
    ∧ T +:+ "text" +:+ struct +:+ " = []byte(`" +:+ text s +:+ "`)"
      ∈ gen_go_schemas_package schemas
    ∧ T +:+ "return schemas.GetSanityValidator(" +:+ Q +:+ url s +:+ Q +:+ ")" ∈ lines
    ∧ T +:+ "return schemas.GetCompletenessValidator(" +:+ Q +:+ url s +:+ Q +:+ ")" ∈ lines
    ∧ T +:+ "url = " +:+ Q +:+ url s +:+ Q ∈ gen_go_schemas_package schemas.
Proof.
  intros Hgen Hn Hpaths Hread. unfold gen_go_struct in Hgen.
  rewrite Hn, bind_Ok in Hgen.
  destruct (find_struct read_file file struct) as [[fs us]|]; [|done].
  rewrite bind_Ok in Hgen.
  destruct ((0 <? length fs) && (0 <? length us)); [done|].
  destruct (find_schema _ _ _ _ _ package struct) as [s|] eqn:Es; [|done].
  rewrite bind_Ok in Hgen.
  destruct (go_getters struct s fs) as [getters|]; [|done]. rewrite bind_Ok in Hgen.
  destruct (go_unions _ _ _ _ _ _ struct package file s us) as [unions|]; [|done].
  rewrite bind_Ok in Hgen.
  destruct (go_helpers struct) as [helpers|]; [|done]. rewrite bind_Ok in Hgen.
  destruct (go_schema_interface struct (url s)) as [iface|] eqn:Ei; [|done].
  rewrite bind_Ok in Hgen.
  destruct (camel_to_snake struct) as [snake|]; [|done]. rewrite bind_Ok in Hgen.
  injection Hgen as <- <-.
  unfold find_schema in Es. destruct (Re.rmatch version_re struct); [|done].
  fold (schema_dir HERE package struct) in Es.
  destruct (listdir (schema_dir HERE package struct)) as [names|] eqn:El; [|done].
  pose proof (find_schema_loop_title _ _ _ _ _ _ _ _ Es) as Htitle.
  destruct (find_schema_loop_file _ _ _ _ _ _ _ _ Es) as (f & Hf & Hj & Hr).
  assert (s ∈ schemas) as Hs.
  { unfold read_schemas in Hread.
    destruct (mapM _ paths) as [loaded|] eqn:El'; [|done]. rewrite bind_Ok in Hread.
    injection Hread as <-. rewrite sort_by_Permutation.
    eapply mapM_elem_of_l; [exact El'| |exact Hr]. by eapply Hpaths. }
  unfold go_schema_interface in Ei.
  destruct (receiver struct) as [x|]; [|done]. rewrite bind_Ok in Ei.
  injection Ei as <-.
  exists s. split; [done|]. split; [done|]. split; [done|].
  assert (∀ (ln : string) (mid : Schema → list string),
            ln ∈ mid s → ln ∈ concat (map mid schemas)) as Hmid.
  { intros ln mid Hl.
    rewrite list_elem_of_In, in_concat. exists (mid s).
    rewrite <- !list_elem_of_In. split; [|done].
    apply list_elem_of_fmap. by exists s. }
  split; [|split; [|split; [|split; [|split]]]].
  - do 6 apply list_elem_of_further. do 4 (apply elem_of_app; right).
    do 2 apply list_elem_of_further. apply list_elem_of_here.
  - unfold gen_go_schemas_package. rewrite <- Htitle.
    do 4 (apply elem_of_app; right). apply elem_of_app; left.
    apply Hmid. apply list_elem_of_here.
  - unfold gen_go_schemas_package. rewrite <- Htitle.
    apply elem_of_app; right. apply elem_of_app; left.
    apply list_elem_of_fmap. by exists s.
  - do 6 apply list_elem_of_further. do 4 (apply elem_of_app; right).
    do 6 apply list_elem_of_further. apply list_elem_of_here.
  - do 6 apply list_elem_of_further. do 4 (apply elem_of_app; right).
    do 10 apply list_elem_of_further. apply list_elem_of_here.
  - unfold gen_go_schemas_package.
    do 6 (apply elem_of_app; right). apply elem_of_app; left.
    apply (Hmid _ (fun s => [_; _])). apply list_elem_of_here.
Qed.

Lemma generated_files_link_witness :
  ∃ lines schemas s,
    gen_go_struct json_loads0 here relpath0 listdir0 read_file0 elements
      "expconf" "structs.go" 2 [] = Ok ("zgen_widget_v1.go", lines)
    ∧ read_schemas json_loads0 here relpath0 read_file0
        (list_files os_walk0 here "expconf") = Ok schemas
    ∧ s ∈ schemas
    ∧ golang_title s = "WidgetV1"
    ∧ T +:+ "return schemas.ParsedWidgetV1()" ∈ lines
    ∧ "func ParsedWidgetV1() interface{} {" ∈ gen_go_schemas_package schemas.
Proof.
  destruct (gen_go_struct json_loads0 here relpath0 listdir0 read_file0 elements
              "expconf" "structs.go" 2 []) as [[fname lines]|] eqn:Eg;
    [|by vm_compute in Eg].
  destruct (read_schemas json_loads0 here relpath0 read_file0
              (list_files os_walk0 here "expconf")) as [schemas|] eqn:Er;
    [|by vm_compute in Er].
  destruct (generated_files_link json_loads0 here relpath0 listdir0 read_file0 elements
              "expconf" "structs.go" 2 [] fname lines "WidgetV1"
              (list_files os_walk0 here "expconf") schemas Eg)
    as (s & _ & Hs & Ht & Hl & Hp & _).
  - reflexivity.
  - intros names f Hd Hf Hj. vm_compute in Hd. injection Hd as <-.
    repeat (apply elem_of_cons in Hf as [->|Hf]);
      try (by vm_compute in Hj); try (by apply elem_of_nil in Hf);
      apply (bool_decide_unpack _); by vm_compute.
  - exact Er.
  - exists lines, schemas, s. split.
    + assert (fname = "zgen_widget_v1.go") as ->; [|done].
      vm_compute in Eg. by injection Eg as <- _.
    + done.
Defined.

(** ** The union code, continued *)

(** X22.  What the methods of [go_unions] do on every receiver.  The
    lines are the dispatcher followed by one getter for each common
    member; each of these getters hands back what the getter of the same
    name returns on the first member that is set, in the order of the
    fields of the struct, and panics when no member is set; the
    dispatcher returns the literal nil or panics, and so never hands back
    a member. *)
Theorem go_unions_dispatch json_loads HERE relpath listdir read_file iter_order
    (struct package file : string) (s : Schema) (union_spec : list UnionSpec)
    (lines : list string) :
  union_spec ≠ [] →
  go_unions json_loads HERE relpath listdir read_file iter_order
    struct package file s union_spec = Ok lines →
  ∃ x members,
    receiver struct = Ok x
    ∧ get_union_common_members json_loads HERE relpath listdir read_file iter_order
        file package (map (fun u : UnionSpec => Py.lstrip_star (snd u)) union_spec)
      = Ok members
    ∧ lines = Go.render (union_member_method x struct union_spec)
              ++ concat (map (fun m => Go.render (common_getter_method x struct union_spec m))
                             members)
    ∧ ∀ (V : Type) (obj : string → option V),
        (∀ m, m ∈ members →
           Go.exec obj (Go.body (common_getter_method x struct union_spec m))
           = match first_present obj union_spec with
             | Some (_, v) => Go.Returned (Go.VCall v ("Get" +:+ fst m))
             | None => Go.Panicked no_union_member
             end)
        ∧ (Go.exec obj (Go.body (union_member_method x struct union_spec))
           = Go.Returned Go.VNil
           ∨ Go.exec obj (Go.body (union_member_method x struct union_spec))
             = Go.Panicked no_union_member)
        ∧ (first_present obj union_spec = None ↔ ∀ u, u ∈ union_spec → obj (fst u) = None).
Proof.
  intros Hne Hrun.
  destruct (go_unions_lines _ _ _ _ _ _ _ _ _ _ _ _ Hne Hrun) as (x & members & Hx & Hm & ->).
  exists x, members. split; [done|]. split; [done|]. split; [done|].
  intros V obj. split; [|split].
  - intros m _. apply common_getter_exec.
  - rewrite union_member_exec. destruct (first_present obj union_spec); [by left|by right].
  - clear. induction union_spec as [|u rest IH]; cbn.
    + split; [|done]. intros _ u Hu. by apply elem_of_nil in Hu.
    + destruct (obj (fst u)) eqn:E.
      * split; [done|]. intros H. specialize (H u ltac:(by left)). congruence.
      * rewrite IH. split.
        -- intros H u' [->|Hu']%elem_of_cons; [done|by apply H].
        -- intros H u' Hu'. apply H. by right.
Qed.

Lemma go_unions_dispatch_witness :
  Go.exec only_gadget
    (Go.body (common_getter_method "t" "ThingV1" thing_union ("Name", "string")))
  = Go.Returned (Go.VCall "the gadget" "GetName").
Proof.
  assert (go_unions json_loads0 here relpath0 listdir0 read_file0 elements
            "ThingV1" "expconf" "structs.go" widget_schema thing_union
          = Ok (union_member_lines "t" "ThingV1" thing_union
                ++ common_getter_lines "t" "ThingV1" thing_union ("Name", "string")))
    as E by reflexivity.
  assert (thing_union ≠ []) as Hne by (by unfold thing_union).
  pose proof (go_unions_dispatch json_loads0 here relpath0 listdir0 read_file0 elements
            "ThingV1" "expconf" "structs.go" widget_schema thing_union _ Hne E) as H.
  destruct H as (x & members & Hx & Hm & _ & Hexec).
  injection Hx as <-.
  assert (get_union_common_members json_loads0 here relpath0 listdir0 read_file0 elements
            "structs.go" "expconf"
            (map (fun u : UnionSpec => Py.lstrip_star (snd u)) thing_union)
          = Ok [("Name", "string")]) as Hm' by reflexivity.
  rewrite Hm' in Hm. injection Hm as <-.
  destruct (Hexec string only_gadget) as (Hget & _ & _).
  apply (Hget ("Name", "string")). by left.
Defined.

Lemma observed_types_Permutation (f : string) (psm1 psm2 : list (gmap string string)) :
  psm1 ≡ₚ psm2 → observed_types f psm1 = observed_types f psm2.
Proof.
  intros H. apply set_eq. intros t. rewrite !elem_of_observed_types.
  by setoid_rewrite H.
Qed.

Lemma common_fields_of_Permutation (m1 m2 : gmap string string)
    (rest1 rest2 : list (gmap string string)) :
  m1 :: rest1 ≡ₚ m2 :: rest2 → common_fields_of m1 rest1 = common_fields_of m2 rest2.
Proof.
  intros H. apply set_eq. intros f. rewrite !elem_of_common_fields.
  by setoid_rewrite H.
Qed.

Lemma common_members_of_members (iter_order : gset string → list string)
    (types1 types2 : list string) (psm1 psm2 : list (gmap string string))
    (members : list (string * string)) :
  (∀ X, iter_order X ≡ₚ elements X) →
  psm1 ≡ₚ psm2 →
  common_members_of iter_order types1 psm1 = Ok members →
  common_members_of iter_order types2 psm2 = Ok members.
Proof.
  intros Hio Hp Hrun. destruct psm1 as [|m1 rest1]; [done|].
  destruct psm2 as [|m2 rest2]; [by apply Permutation_nil_r in Hp|].
  destruct (common_members_of_spec iter_order Hio types1 m1 rest1) as [Hbad1 Hgood1].
  destruct (common_members_of_spec iter_order Hio types2 m2 rest2) as [_ Hgood2].
  cbv zeta in *.
  assert (∀ f, f ∈ iter_order (common_fields_of m1 rest1) →
               size (observed_types f (m1 :: rest1)) = 1) as Hall.
  { intros f Hf. destruct (decide (size (observed_types f (m1 :: rest1)) = 1)); [done|].
    destruct Hbad1 as (? & _ & _ & E); [by exists f|]. congruence. }
  rewrite (Hgood1 Hall) in Hrun. injection Hrun as <-.
  rewrite Hgood2.
  - rewrite <- (common_fields_of_Permutation _ _ _ _ Hp). do 2 f_equal.
    apply map_ext_in. intros f Hf%list_elem_of_In.
    assert (∀ m, m ∈ m1 :: rest1 → is_Some (m !! f)) as Hcommon.
    { by apply elem_of_common_fields, (elem_of_iter_order iter_order Hio). }
    destruct (proj1 (observed_types_agree f (m1 :: rest1) ltac:(done) Hcommon) (Hall f Hf))
      as [t Ht].
    rewrite (Ht m1) by (by left).
    rewrite (Ht m2); [done|]. rewrite Hp. by left.
  - intros f Hf. rewrite <- (observed_types_Permutation f _ _ Hp). apply Hall.
    by rewrite (common_fields_of_Permutation _ _ _ _ Hp).
Qed.

(** X23.  The common members of a union do not depend on the order in
    which the struct lists the members of the union: when
    [get_union_common_members] succeeds on a list of member types, it
    returns the same pairs on every rearrangement of that list. *)
Theorem common_members_member_order json_loads HERE relpath listdir read_file iter_order
    (file package : string) (types1 types2 : list string)
    (members : list (string * string)) :
  (∀ X, iter_order X ≡ₚ elements X) →
  types1 ≡ₚ types2 →
  get_union_common_members json_loads HERE relpath listdir read_file iter_order
    file package types1 = Ok members →
  get_union_common_members json_loads HERE relpath listdir read_file iter_order
    file package types2 = Ok members.
Proof.
  intros Hio Hp. unfold get_union_common_members.
  destruct (mapM _ types1) as [psm1|] eqn:E1; [|done]. rewrite bind_Ok.
  destruct (mapM_Permutation _ _ _ Hp _ E1) as (psm2 & -> & Hpsm). rewrite bind_Ok.
  by apply common_members_of_members.
Qed.

Lemma common_members_member_order_witness :
  get_union_common_members json_loads0 here relpath0 listdir0 read_file0 elements
    "structs.go" "expconf" ["GadgetV1"; "WidgetV1"] = Ok [("Name", "string")].
Proof.
  apply (common_members_member_order json_loads0 here relpath0 listdir0 read_file0
           elements "structs.go" "expconf" ["WidgetV1"; "GadgetV1"]).
  - done.
  - apply perm_swap.
  - reflexivity.
Defined.
